(** * Organizer.py: a shallow embedding of the move-and-undo engine

    The development follows the layout of the script:
    - Python strings and the [pathlib] operations the script uses;
    - [get_category], the extension table;
    - a model of the file system the script acts on, with the [pathlib] and
      [shutil] calls as operations of a state-and-exception monad;
    - [organize] and [undo];
    - the program around them: the folder prompt, the configuration file
      and the menu;
    - the properties of the engine and of the program. *)

From Stdlib Require Import Ascii String List Arith Lia.
From Stdlib Require Import DecimalNat DecimalString.
From stdpp Require Import base option list gmap sets strings.

Local Open Scope list_scope.

(** ** Python strings

    A Python [str] is a sequence of code points.  The model keeps the code
    points below 256 (one [ascii] each), on which [str.lower] and
    [str.isspace] are given by the tables below. *)

Abbreviation pystr := (list ascii).

Definition lit (s : string) : pystr := list_ascii_of_string s.

Definition in_range (lo hi : nat) (c : ascii) : bool :=
  (lo <=? nat_of_ascii c) && (nat_of_ascii c <=? hi).

(** [str.isspace] on one code point: TAB..CR, FS..US, space, NEL, NBSP. *)
Definition is_space (c : ascii) : bool :=
  in_range 9 13 c || in_range 28 32 c
  || (nat_of_ascii c =? 133) || (nat_of_ascii c =? 160).

(** [str.lower] on one code point: A..Z and the Latin-1 capitals
    (0xC0..0xDE without the multiplication sign 0xD7) move up by 32. *)
Definition lower_char (c : ascii) : ascii :=
  if in_range 65 90 c || in_range 192 214 c || in_range 216 222 c
  then ascii_of_nat (nat_of_ascii c + 32) else c.

Definition lower (s : pystr) : pystr := map lower_char s.

(** [str.upper] on a string of ASCII characters (every key of the extension
    table is one): a..z move down by 32. *)
Definition upper_char (c : ascii) : ascii :=
  if in_range 97 122 c then ascii_of_nat (nat_of_ascii c - 32) else c.

Definition upper (s : pystr) : pystr := map upper_char s.

(** [s.strip()]: leading and trailing whitespace removed. *)
Fixpoint lstrip (s : pystr) : pystr :=
  match s with
  | c :: s' => if is_space c then lstrip s' else s
  | [] => []
  end.

Definition rstrip (s : pystr) : pystr := rev (lstrip (rev s)).

Definition strip (s : pystr) : pystr := rstrip (lstrip s).

(** [s.split(sep)] for a one-character separator: every occurrence cuts. *)
Fixpoint split_on (sep : ascii) (s : pystr) : list pystr :=
  match s with
  | [] => [[]]
  | c :: s' =>
      if decide (c = sep) then [] :: split_on sep s'
      else match split_on sep s' with
           | w :: ws => (c :: w) :: ws
           | [] => [[c]]
           end
  end.

(** [s.split(sep, 1)]: only the first occurrence cuts; [None] stands for the
    one-element list Python returns when [sep] does not occur. *)
Fixpoint split_once (sep : ascii) (s : pystr) : option (pystr * pystr) :=
  match s with
  | [] => None
  | c :: s' =>
      if decide (c = sep) then Some ([], s')
      else match split_once sep s' with
           | Some (a, b) => Some (c :: a, b)
           | None => None
           end
  end.

(** [sep.join(parts)]. *)
Fixpoint join (sep : pystr) (parts : list pystr) : pystr :=
  match parts with
  | [] => []
  | [p] => p
  | p :: ps => p ++ sep ++ join sep ps
  end.

(** [str(i)] for a non-negative integer. *)
Definition str_of_nat (n : nat) : pystr :=
  list_ascii_of_string (NilEmpty.string_of_uint (Nat.to_uint n)).

(** ** pathlib

    A [Path] is what [pathlib] keeps of a POSIX path: whether it is anchored
    at the root, and its components.  Two paths name the same file exactly
    when they are equal: the model has no links, no [..] and one working
    directory. *)

Abbreviation Path := (bool * list pystr)%type.

(** [p / n] for a single component [n]. *)
Definition child (p : Path) (n : pystr) : Path := (p.1, p.2 ++ [n]).

(** [p.parent]; the root and the empty relative path are their own parent. *)
Definition parent (p : Path) : Path := (p.1, removelast p.2).

(** [p.name]. *)
Definition name (p : Path) : pystr := default [] (last p.2).

(** Offset of the last dot of a file name, when it separates a suffix:
    [i = name.rfind('.')] with [0 < i < len(name) - 1]. *)
Fixpoint rfind (c : ascii) (s : pystr) : option nat :=
  match s with
  | [] => None
  | x :: s' =>
      match rfind c s' with
      | Some i => Some (S i)
      | None => if decide (x = c) then Some 0 else None
      end
  end.

Definition suffix_at (n : pystr) : option nat :=
  match rfind "."%char n with
  | Some i => if (0 <? i) && (i <? length n - 1) then Some i else None
  | None => None
  end.

(** [p.suffix] and [p.stem], on the name. *)
Definition suffix_of (n : pystr) : pystr :=
  match suffix_at n with Some i => drop i n | None => [] end.

Definition stem_of (n : pystr) : pystr :=
  match suffix_at n with Some i => take i n | None => n end.

Definition suffix (p : Path) : pystr := suffix_of (name p).
Definition stem (p : Path) : pystr := stem_of (name p).

(** [str(p)]. *)
Definition str_path (p : Path) : pystr :=
  if p.1 then "/"%char :: join ["/"%char] p.2
  else match p.2 with [] => ["."%char] | _ => join ["/"%char] p.2 end.

(** [Path(s)]: empty components and [.] components are dropped.  The
    components are kept as written: a [..] is a name like another (the
    operating system would resolve it), and a text that starts with
    exactly two slashes is read like one that starts with one (pathlib
    keeps the two apart).  The properties of the paths typed at the
    prompt are stated for texts without either, [literal_path]. *)
Definition keep_part (c : pystr) : bool :=
  negb (bool_decide (c = [])) && negb (bool_decide (c = ["."%char])).

Definition Path_of_str (s : pystr) : Path :=
  (match s with "/"%char :: _ => true | _ => false end,
   filter (fun c => keep_part c = true) (split_on "/"%char s)).

(** ** The extension table *)

Definition mapping : list (pystr * pystr) :=
  map (fun kv => (lit (fst kv), lit (snd kv)))
  [ (".png", "Images"); (".jpg", "Images"); (".jpeg", "Images");
    (".gif", "Images"); (".bmp", "Images"); (".webp", "Images");
    (".svg", "Images"); (".ico", "Images"); (".tiff", "Images");
    (".mp4", "Videos"); (".mkv", "Videos"); (".avi", "Videos");
    (".mov", "Videos"); (".wmv", "Videos"); (".flv", "Videos");
    (".webm", "Videos"); (".m4v", "Videos");
    (".mp3", "Music"); (".wav", "Music"); (".flac", "Music");
    (".aac", "Music"); (".ogg", "Music"); (".m4a", "Music");
    (".wma", "Music");
    (".pdf", "Documents"); (".txt", "Documents"); (".doc", "Documents");
    (".docx", "Documents"); (".xls", "Documents"); (".xlsx", "Documents");
    (".ppt", "Documents"); (".pptx", "Documents");
    (".exe", "Programs"); (".msi", "Programs"); (".deb", "Programs");
    (".dmg", "Programs");
    (".zip", "Archives"); (".rar", "Archives"); (".7z", "Archives");
    (".tar", "Archives"); (".gz", "Archives"); (".bz2", "Archives")
  ]%string.

(** [d.get(k, default)] on a dict literal with distinct keys. *)
Fixpoint dict_get (d : list (pystr * pystr)) (k default : pystr) : pystr :=
  match d with
  | [] => default
  | (k', v) :: d' => if decide (k' = k) then v else dict_get d' k default
  end.

Definition get_category (ext : pystr) : pystr :=
  let ext := lower ext in
  dict_get mapping ext (lit "Others").

(** The seven folder names, in the order of the list [undo] goes
    through. *)
Definition category_folders : list pystr :=
  map lit ["Images"; "Videos"; "Music"; "Documents"; "Programs";
           "Archives"; "Others"]%string.

(** ** The file system

    The state the script acts on: the directory tree as a finite map from
    paths to nodes, the files another process holds under an exclusive lock
    (the operating system refuses to read, rename, rewrite or remove them),
    what was printed, and the lines of the session log kept under
    [Sort_Logs].

    The log files [Sort_Logs/log_<timestamp>.txt] are named after the
    clock and are not entries of the tree: the lines written to them are
    the [session_log].  What a property says of the tree is therefore
    said of the paths that are no entry of [Sort_Logs], the undo file
    apart. *)

Inductive node : Type :=
  | File (content : pystr)
  | Dir.

#[global] Instance node_eq_dec : EqDecision node.
Proof. solve_decision. Defined.

Inductive exn : Type :=
  | FileExistsError
  | FileNotFoundError
  | NotADirectoryError
  | IsADirectoryError
  | PermissionError
  | DirectoryNotEmpty
  | ShutilError
  | ValueError
  | LoopBudget.

(** The lines the script prints or logs, by their format string. *)
Inductive msg : Type :=
  | Starting (folder : Path)
  | Moved (file category : pystr)
  | NoneFound (category : pystr)
  | Complete (total : nat)
  | UndoSaved
  | NothingToUndo
  | Undoing
  | Restored (file : pystr)
  | UndoComplete (count : nat).

Record World : Type := mkWorld {
  fs : gmap Path node;
  locked : gset Path;
  console : list msg;
  session_log : list msg
}.

Definition with_fs (w : World) (m : gmap Path node) : World :=
  mkWorld m (locked w) (console w) (session_log w).

(** A call either returns a value or raises; both leave a world behind. *)
Inductive result (A : Type) : Type :=
  | Ok (a : A) (w : World)
  | Raise (e : exn) (w : World).
Arguments Ok {A} a w.
Arguments Raise {A} e w.

Definition M (A : Type) : Type := World -> result A.

Definition ret {A} (a : A) : M A := fun w => Ok a w.

Definition bind {A B} (c : M A) (f : A -> M B) : M B := fun w =>
  match c w with
  | Ok a w' => f a w'
  | Raise e w' => Raise e w'
  end.

Declare Scope py_scope.
Delimit Scope py_scope with py.
Notation "x <- c ;; k" := (bind c (fun x => k))
  (at level 100, c at next level, k at level 200, right associativity)
  : py_scope.
Notation "c ;; k" := (bind c (fun _ => k))
  (at level 100, k at level 200, right associativity) : py_scope.
Local Open Scope py_scope.

Definition raise {A} (e : exn) : M A := fun w => Raise e w.

(** [for x in l: s = body(x, s)]. *)
Fixpoint foreach {A S : Type} (body : A -> S -> M S) (l : list A) (s : S)
  : M S :=
  match l with
  | [] => ret s
  | x :: l' => s' <- body x s;; foreach body l' s'
  end.

Definition world_of {A} (r : result A) : World :=
  match r with Ok _ w => w | Raise _ w => w end.

(** *** Queries *)

Definition path_exists (p : Path) : M bool :=
  fun w => Ok (bool_decide (is_Some (fs w !! p))) w.

Definition is_file (p : Path) : M bool :=
  fun w => Ok (match fs w !! p with Some (File _) => true | _ => false end) w.

Definition is_dir (p : Path) : M bool :=
  fun w => Ok (match fs w !! p with Some Dir => true | _ => false end) w.

(** [q] is an entry of the directory [p]. *)
Definition entry_of (p q : Path) : Prop := parent q = p /\ q <> p.

#[global] Instance entry_of_dec p q : Decision (entry_of p q).
Proof. unfold entry_of. apply _. Defined.

(** The directory [p] has no entry. *)
Definition no_entries (p : Path) (m : gmap Path node) : Prop :=
  map_Forall (fun q _ => ~ entry_of p q) m.

(** [any(p.iterdir())]. *)
Definition any_iterdir (p : Path) : M bool := fun w =>
  match fs w !! p with
  | Some Dir => Ok (negb (bool_decide (no_entries p (fs w)))) w
  | Some (File _) => Raise NotADirectoryError w
  | None => Raise FileNotFoundError w
  end.

(** [p.iterdir()] with the listing the operating system returned. *)
Definition iterdir (p : Path) (entries : list pystr) : M (list Path) :=
  fun w =>
  match fs w !! p with
  | Some Dir => Ok (map (child p) entries) w
  | Some (File _) => Raise NotADirectoryError w
  | None => Raise FileNotFoundError w
  end.

(** *** Updates *)

(** [p.mkdir(exist_ok=True)]. *)
Definition mkdir_exist_ok (p : Path) : M unit := fun w =>
  match fs w !! p with
  | Some Dir => Ok tt w
  | Some (File _) => Raise FileExistsError w
  | None =>
      match fs w !! parent p with
      | Some Dir => Ok tt (with_fs w (<[p := Dir]> (fs w)))
      | Some (File _) => Raise NotADirectoryError w
      | None => Raise FileNotFoundError w
      end
  end.

(** The proper ancestors of a path, nearest last. *)
Definition ancestors (p : Path) : list Path :=
  map (fun k => (p.1, take k p.2)) (seq 0 (length p.2)).

(** [os.makedirs] on the ancestors of a path. *)
Fixpoint make_ancestors (ps : list Path) (m : gmap Path node)
  : option (gmap Path node) :=
  match ps with
  | [] => Some m
  | p :: ps' =>
      match m !! p with
      | Some Dir => make_ancestors ps' m
      | Some (File _) => None
      | None => make_ancestors ps' (<[p := Dir]> m)
      end
  end.

(** What is left of [q] below [src], when [q] is [src] or lies under it. *)
Definition below (src q : Path) : option (list pystr) :=
  if decide (q.1 = src.1 /\ take (length src.2) q.2 = src.2)
  then Some (drop (length src.2) q.2) else None.

(** A directory and all it holds, re-rooted at [dst]. *)
Definition move_tree (src dst : Path) (m : gmap Path node)
  : gmap Path node :=
  map_fold (fun q n acc =>
              match below src q with
              | Some rest => <[(dst.1, dst.2 ++ rest) := n]> acc
              | None => <[q := n]> acc
              end) ∅ m.

(** [shutil.move(src, dst)] on one device.  A destination that is a
    directory receives the source under its own name; a regular file is
    renamed (replacing a regular file at the destination); a directory is
    renamed with what it holds. *)
Definition shutil_move (src dst : Path) : M unit := fun w =>
  let m := fs w in
  let into := match m !! dst with Some Dir => true | _ => false end
              && negb (bool_decide (src = dst)) in
  let real_dst := if into then child dst (name src) else dst in
  if into && bool_decide (is_Some (m !! real_dst)) then Raise ShutilError w
  else
    match m !! src with
    | None => Raise FileNotFoundError w
    | Some (File c) =>
        if bool_decide (src ∈ locked w) then Raise PermissionError w
        else match m !! parent real_dst with
             | Some Dir => Ok tt (with_fs w (<[real_dst := File c]> (delete src m)))
             | Some (File _) => Raise NotADirectoryError w
             | None => Raise FileNotFoundError w
             end
    | Some Dir =>
        if bool_decide (src = real_dst) then Ok tt w
        else if bool_decide (is_Some (below src real_dst)) then Raise ShutilError w
        else if bool_decide (is_Some (m !! real_dst)) then Raise FileExistsError w
        else match make_ancestors (ancestors real_dst) m with
             | Some m' => Ok tt (with_fs w (move_tree src real_dst m'))
             | None => Raise NotADirectoryError w
             end
    end.

(** [p.unlink()]. *)
Definition unlink (p : Path) : M unit := fun w =>
  match fs w !! p with
  | Some (File _) =>
      if bool_decide (p ∈ locked w) then Raise PermissionError w
      else Ok tt (with_fs w (delete p (fs w)))
  | Some Dir => Raise IsADirectoryError w
  | None => Raise FileNotFoundError w
  end.

(** [p.rmdir()]. *)
Definition rmdir (p : Path) : M unit := fun w =>
  match fs w !! p with
  | Some Dir =>
      if bool_decide (no_entries p (fs w))
      then Ok tt (with_fs w (delete p (fs w)))
      else Raise DirectoryNotEmpty w
  | Some (File _) => Raise NotADirectoryError w
  | None => Raise FileNotFoundError w
  end.

(** [with open(p, "w") as f: f.write(text)]. *)
Definition write_text (p : Path) (text : pystr) : M unit := fun w =>
  match fs w !! p with
  | Some Dir => Raise IsADirectoryError w
  | Some (File _) =>
      if bool_decide (p ∈ locked w) then Raise PermissionError w
      else Ok tt (with_fs w (<[p := File text]> (fs w)))
  | None =>
      match fs w !! parent p with
      | Some Dir => Ok tt (with_fs w (<[p := File text]> (fs w)))
      | Some (File _) => Raise NotADirectoryError w
      | None => Raise FileNotFoundError w
      end
  end.

(** [open(p, "r")] and the text read from it. *)
Definition read_text (p : Path) : M pystr := fun w =>
  match fs w !! p with
  | Some (File c) =>
      if bool_decide (p ∈ locked w) then Raise PermissionError w
      else Ok c w
  | Some Dir => Raise IsADirectoryError w
  | None => Raise FileNotFoundError w
  end.

(** Text mode reads with universal newlines: CR LF and CR become LF. *)
Fixpoint universal_newlines (s : pystr) : pystr :=
  match s with
  | [] => []
  | c :: s' =>
      if decide (c = "013"%char) then
        match s' with
        | c' :: s'' =>
            if decide (c' = "010"%char) then "010"%char :: universal_newlines s''
            else "010"%char :: universal_newlines s'
        | [] => ["010"%char]
        end
      else c :: universal_newlines s'
  end.

(** [for line in f]: the lines of a text file.  The terminators are left
    out, and an empty piece follows a final terminator; the loop of [undo]
    strips every line and skips the empty ones. *)
Definition file_lines (text : pystr) : list pystr :=
  split_on "010"%char (universal_newlines text).

(** [print(message)]. *)
Definition print (x : msg) : M unit := fun w =>
  Ok tt (mkWorld (fs w) (locked w) (console w ++ [x]) (session_log w)).

(** The line [f.write] adds to the log file of the session. *)
Definition append_log (x : msg) : M unit := fun w =>
  Ok tt (mkWorld (fs w) (locked w) (console w) (session_log w ++ [x])).

(** ** The engine *)

(** [defaultdict(int)]: [c[k] += 1], [c[k]] and [sum(c.values())]. *)
Fixpoint incr (k : pystr) (c : list (pystr * nat)) : list (pystr * nat) :=
  match c with
  | [] => [(k, 1)]
  | (k', v) :: c' =>
      if decide (k' = k) then (k', v + 1) :: c' else (k', v) :: incr k c'
  end.

Fixpoint count_of (k : pystr) (c : list (pystr * nat)) : nat :=
  match c with
  | [] => 0
  | (k', v) :: c' => if decide (k' = k) then v else count_of k c'
  end.

Definition sum_values (c : list (pystr * nat)) : nat :=
  fold_right (fun kv acc => snd kv + acc) 0 c.

(** One line of the undo file: [f"{new_path}|{old_path}\n"]. *)
Definition ledger_line (mv : Path * Path) : pystr :=
  str_path mv.1 ++ "|"%char :: str_path mv.2 ++ ["010"%char].

Definition ledger_text (moves : list (Path * Path)) : pystr :=
  concat (map ledger_line moves).

(** What the loop of [undo] makes of one line: [line.strip()], the test
    [if not line], and [line.split("|", 1)] unpacked into two names. *)
Inductive parsed : Type :=
  | Blank
  | Malformed
  | Record (new_path_str old_path_str : pystr).

Definition parse_line (line : pystr) : parsed :=
  let line := strip line in
  if bool_decide (line = []) then Blank
  else match split_once "|"%char line with
       | Some (new_path_str, old_path_str) => Record new_path_str old_path_str
       | None => Malformed
       end.

Section Engine.

(** The folder the user chose. *)
Variable SOURCE_FOLDER : Path.

Definition LOG_FOLDER : Path := child SOURCE_FOLDER (lit "Sort_Logs").
Definition UNDO_FILE : Path := child LOG_FOLDER (lit "last_undo.log").

Definition ensure_log_folder : M unit := mkdir_exist_ok LOG_FOLDER.

(** [log(message)]: printed, then appended to the log file of the session,
    which is opened under [LOG_FOLDER].  Opening it needs [LOG_FOLDER] to
    be a directory; the file itself, named after the clock, is taken to
    open, and its lines are the [session_log]. *)
Definition log (x : msg) : M unit :=
  print x;;
  d <- is_dir LOG_FOLDER;;
  if d then append_log x else raise FileNotFoundError.

(** The name tried at round [i] of the duplicate loop. *)
Definition numbered (dest_folder item : Path) (i : nat) : Path :=
  child dest_folder
    (stem item ++ "_"%char :: str_of_nat i ++ suffix item).

(** [while dest_path.exists(): ...; i += 1], entered at [i]; the budget
    bounds the number of rounds. *)
Fixpoint next_free (budget : nat) (dest_folder item : Path) (i : nat)
  (m : gmap Path node) : option Path :=
  match budget with
  | 0 => None
  | S b =>
      let dest_path := numbered dest_folder item i in
      if bool_decide (is_Some (m !! dest_path))
      then next_free b dest_folder item (S i) m
      else Some dest_path
  end.

(** The destination of [item] in [dest_folder], after the duplicate
    check.  A directory of [size] entries cannot keep the loop busy
    for more than [size] rounds.  The tree sets no limit to the length of
    a name or of a path, where [dest_path.exists()] raises [OSError] on
    one longer than the operating system allows: the properties that
    need the loop to come to its end are stated for paths that fit,
    [fits]; so are those of the other calls on paths that come from a
    file or from the keyboard. *)
Definition free_dest (dest_folder item : Path) : M Path := fun w =>
  let dest_path := child dest_folder (name item) in
  if bool_decide (is_Some (fs w !! dest_path)) then
    match next_free (S (size (fs w))) dest_folder item 1 (fs w) with
    | Some p => Ok p w
    | None => Raise LoopBudget w
    end
  else Ok dest_path w.

(** The body of the scan of [organize]. *)
Definition organize_item (item : Path)
  (st : list (Path * Path) * list (pystr * nat))
  : M (list (Path * Path) * list (pystr * nat)) :=
  f <- is_file item;;
  if f && negb (bool_decide (name item = lit "organizer.py")) then
    let category := get_category (suffix item) in
    let dest_folder := child SOURCE_FOLDER category in
    mkdir_exist_ok dest_folder;;
    dest_path <- free_dest dest_folder item;;
    shutil_move item dest_path;;
    let moves := st.1 ++ [(dest_path, item)] in
    let category_count := incr category st.2 in
    log (Moved (name item) category);;
    ret (moves, category_count)
  else ret st.

(** The report of the categories that received nothing.  Reading
    [category_count[cat]] of a category without entry gives 0 (and leaves
    a 0 entry behind, which changes neither a later reading nor the
    sum). *)
Definition report_empty (cat : pystr) (category_count : list (pystr * nat))
  : M (list (pystr * nat)) :=
  if count_of cat category_count =? 0 then
    log (NoneFound (lower cat));; ret category_count
  else ret category_count.

(** [organize()]; [entries] is what [SOURCE_FOLDER.iterdir()] lists, in
    the order the operating system gives, and [all_categories] the seven
    names in the order the loop over the set [all_categories] meets them;
    the script fixes neither order. *)
Definition organize (all_categories entries : list pystr) : M unit :=
  ensure_log_folder;;
  log (Starting SOURCE_FOLDER);;
  items <- iterdir SOURCE_FOLDER entries;;
  st <- foreach organize_item items ([], []);;
  let moves := st.1 in
  category_count <- foreach report_empty all_categories st.2;;
  let total := sum_values category_count in
  log (Complete total);;
  write_text UNDO_FILE (ledger_text moves);;
  log UndoSaved.

(** What [undo] does with the two paths of a line. *)
Definition restore (new_path old_path : Path) (count : nat) : M nat :=
  e <- path_exists new_path;;
  if e then
    mkdir_exist_ok (parent old_path);;
    shutil_move new_path old_path;;
    print (Restored (name old_path));;
    ret (count + 1)
  else ret count.

(** The body of the loop of [undo] over the lines of the undo file. *)
Definition undo_line (line : pystr) (count : nat) : M nat :=
  match parse_line line with
  | Blank => ret count
  | Malformed => raise ValueError
  | Record new_path_str old_path_str =>
      let new_path := Path_of_str new_path_str in
      let old_path := Path_of_str old_path_str in
      restore new_path old_path count
  end.

(** The body of the loop of [undo] over the category folders. *)
Definition remove_if_empty (folder_name : pystr) (_ : unit) : M unit :=
  let folder := child SOURCE_FOLDER folder_name in
  e <- path_exists folder;;
  if e then
    a <- any_iterdir folder;;
    if negb a then rmdir folder else ret tt
  else ret tt.

(** [undo()]. *)
Definition undo : M unit :=
  e <- path_exists UNDO_FILE;;
  if negb e then print NothingToUndo
  else
    print Undoing;;
    text <- read_text UNDO_FILE;;
    count <- foreach undo_line (file_lines text) 0;;
    foreach remove_if_empty category_folders tt;;
    unlink UNDO_FILE;;
    print (UndoComplete count).

End Engine.

(** ** The program around the engine

    The script asks for the folder, keeps it in a configuration file of
    the working directory, and runs [organize] and [undo] from a menu.
    A relative path is a name in the working directory, [Path(".")]; the
    tree lists every file under the one name the script uses for it. *)

Definition CONFIG_FILE : Path := Path_of_str (lit "organizer_config.txt").

(** [s.strip(chars)] for a one-character [chars]. *)
Fixpoint lstrip_char (x : ascii) (s : pystr) : pystr :=
  match s with
  | c :: s' => if decide (c = x) then lstrip_char x s' else s
  | [] => []
  end.

Definition strip_char (x : ascii) (s : pystr) : pystr :=
  rev (lstrip_char x (rev (lstrip_char x s))).

(** The prompts of [input]. *)
Inductive prompt : Type :=
  | FolderPath
  | Choose
  | PressEnter.

(** What the terminal shows: the lines of the engine, the lines of the
    menu by their format string, and the prompts. *)
Inductive shown : Type :=
  | Printed (x : msg)
  | SavedFolderGone (folder : Path)
  | MustChoose
  | EnterFullPath
  | PathEmpty
  | NoSuchFolder
  | NotAFolder
  | FolderSet (p : Path)
  | Rule (c : ascii)
  | Title
  | CurrentFolder (folder : Path)
  | MenuEntry (n : nat)
  | Organizing
  | EmptyLine
  | Bye
  | InvalidChoice
  | Asked (q : prompt).

(** A run of the program: the world of the engine, the lines the user
    will type, and the terminal.  The lines the engine prints go to the
    terminal as they come. *)
Record Session : Type := mkSession {
  files : World;
  stdin : list pystr;
  terminal : list shown
}.

(** The program stops on an exception of a file operation or of the
    engine, or on the end of the input. *)
Inductive stop : Type :=
  | Raised (e : exn)
  | EOFError.

Inductive reply (A : Type) : Type :=
  | Fine (a : A) (s : Session)
  | Crash (e : stop) (s : Session).
Arguments Fine {A} a s.
Arguments Crash {A} e s.

Definition Sh (A : Type) : Type := Session -> reply A.

Definition sret {A} (a : A) : Sh A := fun s => Fine a s.

Definition sbind {A B} (c : Sh A) (f : A -> Sh B) : Sh B := fun s =>
  match c s with
  | Fine a s' => f a s'
  | Crash e s' => Crash e s'
  end.

Declare Scope sh_scope.
Delimit Scope sh_scope with sh.
Notation "x <- c ;; k" := (sbind c (fun x => k))
  (at level 100, c at next level, k at level 200, right associativity)
  : sh_scope.
Notation "c ;; k" := (sbind c (fun _ => k))
  (at level 100, k at level 200, right associativity) : sh_scope.
Local Open Scope sh_scope.

Definition session_of {A} (r : reply A) : Session :=
  match r with Fine _ s => s | Crash _ s => s end.

(** The session once the engine, or a file operation, left the world [w]:
    what it printed is on the terminal. *)
Definition shows (w : World) (s : Session) : Session :=
  mkSession (mkWorld (fs w) (locked w) [] (session_log w)) (stdin s)
            (terminal s ++ map Printed (console w)).

(** A call of the engine, or a file operation, from the program. *)
Definition engine {A} (c : M A) : Sh A := fun s =>
  match c (files s) with
  | Ok a w => Fine a (shows w s)
  | Raise e w => Crash (Raised e) (shows w s)
  end.

(** [print(...)] of a line of the menu. *)
Definition say (x : shown) : Sh unit := fun s =>
  Fine tt (mkSession (files s) (stdin s) (terminal s ++ [x])).

(** [input(prompt)]: the next line the user types, without its line
    break; [EOFError] when there is none. *)
Definition input (q : prompt) : Sh pystr := fun s =>
  match stdin s with
  | line :: rest =>
      Fine line (mkSession (files s) rest (terminal s ++ [Asked q]))
  | [] => Crash EOFError (mkSession (files s) [] (terminal s ++ [Asked q]))
  end.

(** The rounds of [while True] in [set_new_directory]; a round reads a
    line, so the budget bounds the rounds by the lines left to read. *)
Fixpoint ask_folder (budget : nat) : Sh Path :=
  match budget with
  | 0 => fun s => Crash (Raised LoopBudget) s
  | S b =>
      say EnterFullPath;;
      line <- input FolderPath;;
      let new_path := strip_char "034"%char (strip line) in
      if bool_decide (new_path = []) then
        say PathEmpty;; ask_folder b
      else
        let p := Path_of_str new_path in
        e <- engine (path_exists p);;
        if negb e then say NoSuchFolder;; ask_folder b
        else
          d <- engine (is_dir p);;
          if negb d then say NotAFolder;; ask_folder b
          else
            engine (write_text CONFIG_FILE (str_path p));;
            say (FolderSet p);;
            sret p
  end.

(** [set_new_directory()]. *)
Definition set_new_directory : Sh Path := fun s =>
  ask_folder (S (length (stdin s))) s.

(** [load_folder_from_config()]; the text of the file is read with
    universal newlines. *)
Definition load_folder_from_config : Sh Path :=
  e <- engine (path_exists CONFIG_FILE);;
  if e then
    text <- engine (read_text CONFIG_FILE);;
    let folder := Path_of_str (strip (universal_newlines text)) in
    e <- engine (path_exists folder);;
    d <- engine (is_dir folder);;
    if e && d then sret folder
    else
      say (SavedFolderGone folder);;
      say MustChoose;;
      set_new_directory
  else set_new_directory.

(** [show_menu()]. *)
Definition show_menu (SOURCE_FOLDER : Path) : Sh unit :=
  say (Rule "="%char);;
  say Title;;
  say (CurrentFolder SOURCE_FOLDER);;
  say (Rule "="%char);;
  say (MenuEntry 1);;
  say (MenuEntry 2);;
  say (MenuEntry 3);;
  say (MenuEntry 4);;
  say (Rule "-"%char).

(** The words that leave the menu. *)
Definition exit_words : list pystr :=
  map lit ["4"; "q"; "exit"; "quit"]%string.

Section Program.

(** The order in which the process meets the set [all_categories], and
    what the operating system lists for the folder in a given world. *)
Variable all_categories : list pystr.
Variable listdir : World -> list pystr.

(** The rounds of the menu loop; the folder is the global the choice 3
    rebinds.  A round reads a line, so the budget bounds the rounds by
    the lines left to read. *)
Fixpoint menu_loop (budget : nat) (SOURCE_FOLDER : Path) : Sh unit :=
  match budget with
  | 0 => fun s => Crash (Raised LoopBudget) s
  | S b =>
      show_menu SOURCE_FOLDER;;
      line <- input Choose;;
      let choice := strip line in
      if bool_decide (choice = lit "1") then
        say Organizing;;
        engine (fun w =>
                  organize SOURCE_FOLDER all_categories (listdir w) w);;
        input PressEnter;;
        menu_loop b SOURCE_FOLDER
      else if bool_decide (choice = lit "2") then
        say EmptyLine;;
        engine (undo SOURCE_FOLDER);;
        input PressEnter;;
        menu_loop b SOURCE_FOLDER
      else if bool_decide (choice = lit "3") then
        folder <- set_new_directory;;
        input PressEnter;;
        menu_loop b folder
      else if bool_decide (choice ∈ exit_words) then say Bye
      else
        say InvalidChoice;;
        menu_loop b SOURCE_FOLDER
  end.

Definition menu (SOURCE_FOLDER : Path) : Sh unit := fun s =>
  menu_loop (S (length (stdin s))) SOURCE_FOLDER s.

(** The script run as a program with the arguments [argv]: the folder is
    loaded first, then [--undo] runs [undo] alone. *)
Definition main (argv : list pystr) : Sh unit :=
  SOURCE_FOLDER <- load_folder_from_config;;
  match argv with
  | _ :: a :: _ =>
      if bool_decide (a = lit "--undo") then engine (undo SOURCE_FOLDER)
      else menu SOURCE_FOLDER
  | _ => menu SOURCE_FOLDER
  end.

End Program.

Local Close Scope sh_scope.

(** ** Vocabulary of the properties *)

(** A string without line break. *)
Definition no_newline (s : pystr) : Prop :=
  ("010"%char ∉ s) /\ ("013"%char ∉ s).

(** A ledger line without its terminator. *)
Definition record_body (mv : Path * Path) : pystr :=
  str_path mv.1 ++ "|"%char :: str_path mv.2.

(** The dotless form of an extension. *)
Definition dotless (ext : pystr) : pystr :=
  match ext with "."%char :: e => e | _ => ext end.

(** What [organize_item] leaves behind when it moved [item], holding
    [content], to [dest_path], in a tree [m] where the category folder
    is in place: before and after the line of the session log. *)
Definition moved_world (w : World) (m : gmap Path node) (item dest_path : Path)
  (content : pystr) (x : msg) : World :=
  mkWorld (<[dest_path := File content]> (delete item m)) (locked w)
          (console w ++ [x]) (session_log w).

Definition logged_world (w : World) (x : msg) : World :=
  mkWorld (fs w) (locked w) (console w) (session_log w ++ [x]).

Section Outcomes.
Variable SOURCE_FOLDER : Path.

(** The tree once the category folder of [item] is in place. *)
Inductive folder_ready (w : World) (item : Path)
  : gmap Path node -> Prop :=
| folder_there :
    fs w !! child SOURCE_FOLDER (get_category (suffix item)) = Some Dir ->
    folder_ready w item (fs w)
| folder_made :
    fs w !! child SOURCE_FOLDER (get_category (suffix item)) = None ->
    fs w !! SOURCE_FOLDER = Some Dir ->
    folder_ready w item
      (<[child SOURCE_FOLDER (get_category (suffix item)) := Dir]> (fs w)).

(** The ways one round of the scan can end: the entry is passed over;
    or it is a file to move and its category folder cannot be made; or
    the file is locked and the move raises; or the file is moved, and
    the round ends with the line written to the session log. *)
Inductive item_outcome (item : Path)
  (st : list (Path * Path) * list (pystr * nat)) (w : World)
  : result (list (Path * Path) * list (pystr * nat)) -> Prop :=
| item_skipped :
    (forall c, fs w !! item = Some (File c) ->
               name item = lit "organizer.py") ->
    item_outcome item st w (Ok st w)
| item_no_folder e c :
    fs w !! item = Some (File c) ->
    name item <> lit "organizer.py" ->
    (forall m, ~ folder_ready w item m) ->
    item_outcome item st w (Raise e w)
| item_locked c m :
    fs w !! item = Some (File c) ->
    name item <> lit "organizer.py" ->
    folder_ready w item m ->
    item ∈ locked w ->
    item_outcome item st w (Raise PermissionError (with_fs w m))
| item_moved c m x r :
    fs w !! item = Some (File c) ->
    name item <> lit "organizer.py" ->
    folder_ready w item m ->
    free_dest (child SOURCE_FOLDER (get_category (suffix item))) item
      (with_fs w m)
      = Ok (child (child SOURCE_FOLDER (get_category (suffix item))) x)
           (with_fs w m) ->
    m !! child (child SOURCE_FOLDER (get_category (suffix item))) x = None ->
    item ∉ locked w ->
    let category := get_category (suffix item) in
    let dest_path := child (child SOURCE_FOLDER category) x in
    let w' := moved_world w m item dest_path c (Moved (name item) category) in
    r = match fs w' !! LOG_FOLDER SOURCE_FOLDER with
        | Some Dir =>
            Ok (st.1 ++ [(dest_path, item)], incr category st.2)
               (logged_world w' (Moved (name item) category))
        | _ => Raise FileNotFoundError w'
        end ->
    item_outcome item st w r.
End Outcomes.

(** The line of the session log for one move. *)
Definition moved_msg (mv : Path * Path) : msg :=
  Moved (name mv.2) (get_category (suffix mv.2)).

(** The lines of [organize] for the categories that received nothing. *)
Definition empty_reports (all_categories : list pystr)
  (category_count : list (pystr * nat)) : list msg :=
  map (fun cat => NoneFound (lower cat))
      (filter (fun cat => count_of cat category_count = 0) all_categories).

(** [p] lies strictly below [q]. *)
Definition under (q p : Path) : Prop :=
  exists rest, rest <> [] /\ p = (q.1, q.2 ++ rest).

(** The name [x] a file named [n] is given in its category folder: its
    own, or a numbered one. *)
Definition renamed (n x : pystr) : Prop :=
  x = n \/ exists N, x = stem_of n ++ "_"%char :: str_of_nat N ++ suffix_of n.

Section Scan.
Variable SOURCE_FOLDER : Path.
Variable m0 : gmap Path node.

(** The trees the scan of [organize] can reach from [m0], with the moves
    made so far: a category folder is added where nothing was, or a
    regular file of [SOURCE_FOLDER], not named [organizer.py], goes to
    a free name of a category folder. *)
Inductive scanned : list (Path * Path) -> gmap Path node -> Prop :=
| scanned_start : scanned [] m0
| scanned_mkdir moves m cat :
    scanned moves m ->
    cat ∈ category_folders ->
    m !! child SOURCE_FOLDER cat = None ->
    scanned moves (<[child SOURCE_FOLDER cat := Dir]> m)
| scanned_move moves m n cat x c :
    scanned moves m ->
    cat ∈ category_folders ->
    n <> lit "organizer.py" ->
    renamed n x ->
    m !! child SOURCE_FOLDER n = Some (File c) ->
    m !! child SOURCE_FOLDER cat = Some Dir ->
    m !! child (child SOURCE_FOLDER cat) x = None ->
    scanned
      (moves ++ [(child (child SOURCE_FOLDER cat) x, child SOURCE_FOLDER n)])
      (<[child (child SOURCE_FOLDER cat) x := File c]>
         (delete (child SOURCE_FOLDER n) m)).
End Scan.

(** A path that holds no regular file: nothing, or a folder. *)
Definition not_file (o : option node) : Prop := forall c, o <> Some (File c).

(** The tree once [ensure_log_folder] has run. *)
Inductive log_ready (SOURCE_FOLDER : Path) (w : World)
  : gmap Path node -> Prop :=
  | log_there :
      fs w !! LOG_FOLDER SOURCE_FOLDER = Some Dir ->
      log_ready SOURCE_FOLDER w (fs w)
  | log_made :
      fs w !! LOG_FOLDER SOURCE_FOLDER = None ->
      fs w !! SOURCE_FOLDER = Some Dir ->
      log_ready SOURCE_FOLDER w (<[LOG_FOLDER SOURCE_FOLDER := Dir]> (fs w)).

(** What a complete run of [organize] prints. *)
Definition organize_console (SOURCE_FOLDER : Path)
  (all_categories : list pystr) (moves : list (Path * Path))
  (category_count : list (pystr * nat)) : list msg :=
  Starting SOURCE_FOLDER :: map moved_msg moves
    ++ empty_reports all_categories category_count
    ++ [Complete (length moves); UndoSaved].

(** A record of the ledger, against the tree [m0] the scan started from
    and a later tree [m]: a regular file of the folder, now under a
    category folder, its old place free or taken by a folder. *)
Definition recorded (SOURCE_FOLDER : Path) (m0 m : gmap Path node)
  (mv : Path * Path) : Prop :=
  exists n cat x c,
    mv.2 = child SOURCE_FOLDER n /\
    mv.1 = child (child SOURCE_FOLDER cat) x /\
    cat ∈ category_folders /\
    renamed n x /\
    m0 !! mv.2 = Some (File c) /\
    m !! mv.1 = Some (File c) /\
    not_file (m !! mv.2).

(** Worlds for the examples: a tree given by its entries, the locked
    files, nothing printed yet. *)
Definition world (entries : list (Path * node)) (held : list Path) : World :=
  mkWorld (list_to_map entries) (list_to_set held) [] [].

Definition Downloads : Path := (true, [lit "Downloads"]).

Definition root : Path := (true, []).

(** A folder with two documents, the first of them locked. *)
Definition two_documents : World :=
  world [ (root, Dir); (Downloads, Dir);
          (child Downloads (lit "a.txt"), File (lit "A"));
          (child Downloads (lit "b.txt"), File (lit "B")) ]
        [ child Downloads (lit "a.txt") ].

(** The scenario of the duplicate names: a folder with [a.txt] is sorted,
    another [a.txt] is put in the folder, and the folder is sorted again. *)
Definition first_sort : World :=
  world_of (organize Downloads category_folders [lit "a.txt"]
              (world [ (root, Dir); (Downloads, Dir);
                       (child Downloads (lit "a.txt"), File (lit "first")) ]
                     [])).

Definition second_sort : World :=
  world_of (organize Downloads category_folders
              [lit "Documents"; lit "Sort_Logs"; lit "a.txt"]
              (with_fs first_sort
                 (<[child Downloads (lit "a.txt") := File (lit "second")]>
                    (fs first_sort)))).

(** A character that breaks neither a ledger line nor a path. *)
Definition safe_char (c : ascii) : Prop :=
  c <> "|"%char /\ c <> "010"%char /\ c <> "013"%char /\ c <> "/"%char.

(** A name that goes through the undo file unharmed. *)
Definition good_name (n : pystr) : Prop :=
  n <> [] /\ n <> ["."%char] /\ Forall safe_char n /\ rstrip n = n.

(** A folder whose path goes through the undo file unharmed: its
    components are names that break no line, and its text does not start
    with whitespace (a full path never does). *)
Definition good_folder (p : Path) : Prop :=
  Forall (fun part => part <> [] /\ part <> ["."%char] /\
                      Forall safe_char part) p.2 /\
  lstrip (str_path p) = str_path p.

(** The limits of Linux on what a call takes, in bytes: the longest name
    of an entry of a directory, and the length a path stays below. *)
Definition NAME_MAX : nat := 255.
Definition PATH_MAX : nat := 4096.

(** The length of a text once encoded (UTF-8: two bytes for a code point
    from 128 on). *)
Definition encoded_length (n : pystr) : nat :=
  length n + length (filter (fun c => 128 <= nat_of_ascii c) n).

(** A path the operating system takes. *)
Definition fits (p : Path) : Prop :=
  Forall (fun part => encoded_length part <= NAME_MAX) p.2 /\
  encoded_length (str_path p) < PATH_MAX.

(** A name that leaves room for the numbers of the duplicate loop up to
    [bound]: [stem_i.suffix] is within [NAME_MAX] for every [i <= bound]. *)
Definition roomy (bound : nat) (n : pystr) : Prop :=
  encoded_length n + 1 + length (str_of_nat bound) <= NAME_MAX.

(** A folder whose path leaves room, below [PATH_MAX], for a folder of
    the script (nine letters at most) and a name in it. *)
Definition shallow (p : Path) : Prop :=
  encoded_length (str_path p) + 1 + 9 + 1 + NAME_MAX < PATH_MAX.

#[global] Instance not_file_dec o : Decision (not_file o).
Proof.
  destruct o as [[c|]|];
    [right; intros H; by apply (H c) | left; intros c; discriminate..].
Defined.

#[global] Instance safe_char_dec c : Decision (safe_char c).
Proof. unfold safe_char. apply _. Defined.

#[global] Instance good_name_dec n : Decision (good_name n).
Proof. unfold good_name. apply _. Defined.

#[global] Instance good_folder_dec p : Decision (good_folder p).
Proof. unfold good_folder. apply _. Defined.

#[global] Instance fits_dec p : Decision (fits p).
Proof. unfold fits. apply _. Defined.

#[global] Instance shallow_dec p : Decision (shallow p).
Proof. unfold shallow. apply _. Defined.

#[global] Instance roomy_dec bound n : Decision (roomy bound n).
Proof. unfold roomy. apply _. Defined.

(** A record that [undo] reads back as it was written. *)
Definition readable (mv : Path * Path) : Prop :=
  no_newline (record_body mv) /\
  parse_line (record_body mv) = Record (str_path mv.1) (str_path mv.2) /\
  Path_of_str (str_path mv.1) = mv.1 /\
  Path_of_str (str_path mv.2) = mv.2.

(** A record of [moves] that [undo] can take back in the tree [m]: its
    file is there and not locked, its old place is free in a folder that
    is there, and no other record of [moves] is in the way. *)
Definition restorable (m : gmap Path node) (held : gset Path)
  (moves : list (Path * Path)) (mv : Path * Path) : Prop :=
  exists c,
    m !! mv.1 = Some (File c) /\
    m !! mv.2 = None /\
    m !! parent mv.2 = Some Dir /\
    (mv.1 ∉ held) /\
    (mv.1 ∉ map snd moves) /\
    (parent mv.2 ∉ map fst moves) /\
    (parent mv.2 ∉ map snd moves).

(** The line [undo] prints for a record. *)
Definition restored_msg (mv : Path * Path) : msg := Restored (name mv.2).

(** A folder [organize] and [undo] can work on undisturbed: it is there,
    and its path goes through the undo file and leaves room for the
    paths below it; [Sort_Logs] and the category names are not taken by
    regular files, and [Sort_Logs] holds no folder (the undo file and
    the log files can be written); the regular files of the folder have
    names that go through the undo file and leave room for the numbers
    of the duplicate loop, which are at most one more than the number of
    entries of the tree; and no file is locked. *)
Definition sortable (SOURCE_FOLDER : Path) (w : World) : Prop :=
  good_folder SOURCE_FOLDER /\
  shallow SOURCE_FOLDER /\
  fs w !! SOURCE_FOLDER = Some Dir /\
  not_file (fs w !! LOG_FOLDER SOURCE_FOLDER) /\
  map_Forall (fun p nd => parent p = LOG_FOLDER SOURCE_FOLDER -> nd <> Dir)
             (fs w) /\
  Forall (fun cat => not_file (fs w !! child SOURCE_FOLDER cat))
         category_folders /\
  map_Forall (fun p nd => parent p = SOURCE_FOLDER -> nd <> Dir ->
                          good_name (name p) /\
                          roomy (S (size (fs w))) (name p)) (fs w) /\
  locked w = ∅.

(** The scenario of the spec: five files, one per kind. *)
Definition five_files : World :=
  world [ (root, Dir); (Downloads, Dir);
          (child Downloads (lit "photo.png"), File (lit "P"));
          (child Downloads (lit "movie.mp4"), File (lit "M"));
          (child Downloads (lit "notes.txt"), File (lit "N"));
          (child Downloads (lit "app.exe"), File (lit "A"));
          (child Downloads (lit "unknownfile.xyz"), File (lit "U")) ]
        [].

(** A folder whose [Documents] folder already holds a file. *)
Definition with_old_documents : World :=
  world [ (root, Dir); (Downloads, Dir);
          (child Downloads (lit "Documents"), Dir);
          (child (child Downloads (lit "Documents")) (lit "old.txt"),
           File (lit "O"));
          (child Downloads (lit "a.txt"), File (lit "A")) ]
        [].


(** A folder that holds one regular file, named like a category. *)
Definition file_named_Images : World :=
  world [ (root, Dir); (Downloads, Dir);
          (child Downloads (lit "Images"), File (lit "x")) ]
        [].


(** A line of the undo file whose record, if it is one, names paths the
    operating system takes. *)
Definition fitting_line (line : pystr) : Prop :=
  match parse_line line with
  | Record a b => fits (Path_of_str a) /\ fits (Path_of_str b)
  | _ => True
  end.

#[global] Instance fitting_line_dec line : Decision (fitting_line line).
Proof. unfold fitting_line. destruct (parse_line line); apply _. Defined.




(** The folder of the program itself, as the repository names its file,
    beside a document. *)
Definition program_folder : World :=
  world [ (root, Dir); (Downloads, Dir);
          (child Downloads (lit "Organizer.py"), File (lit "#"));
          (child Downloads (lit "notes.txt"), File (lit "N")) ]
        [].


(** ** Vocabulary of the further properties *)

(** The categories the records of a run went to, one per record. *)
Definition categories_of (moves : list (Path * Path)) : list pystr :=
  map (fun mv => get_category (suffix mv.2)) moves.

(** A record as the scan of [organize] makes it: a listed entry [n] of
    the folder, put in the folder of its category under its own name or
    a numbered one. *)
Definition sorted_record (SOURCE_FOLDER : Path) (entries : list pystr)
  (mv : Path * Path) : Prop :=
  exists n x,
    n ∈ entries /\ renamed n x /\
    mv = (child (child SOURCE_FOLDER (get_category (suffix_of n))) x,
          child SOURCE_FOLDER n).

(** A call that writes nothing to the session log, whatever its outcome. *)
Definition quiet {A} (c : M A) : Prop :=
  forall w, session_log (world_of (c w)) = session_log w.

(** A call of the engine that never runs out of budget. *)
Definition within_budget {A} (c : M A) : Prop :=
  forall w e w', c w = Raise e w' -> e <> LoopBudget.

(** What [set_new_directory] makes of a line: the text between the
    blanks and the quotes, and the path it names. *)
Definition answer (line : pystr) : pystr :=
  strip_char "034"%char (strip line).

Definition chosen (line : pystr) : Path := Path_of_str (answer line).

(** A text that starts with exactly two slashes. *)
Definition double_slash (s : pystr) : bool :=
  match s with
  | c1 :: c2 :: rest =>
      bool_decide (c1 = "/"%char) && bool_decide (c2 = "/"%char)
      && negb (bool_decide (head rest = Some "/"%char))
  | _ => false
  end.

(** A text that names its path as it is written: no component is [..],
    and it does not start with exactly two slashes. *)
Definition literal_path (s : pystr) : Prop :=
  (lit ".." ∉ split_on "/"%char s) /\ double_slash s = false.

#[global] Instance literal_path_dec s : Decision (literal_path s).
Proof. unfold literal_path. apply _. Defined.

(** A line [set_new_directory] accepts in the tree [m]. *)
Definition accepted (m : gmap Path node) (line : pystr) : Prop :=
  answer line <> [] /\ m !! chosen line = Some Dir.

#[global] Instance accepted_dec m line : Decision (accepted m line).
Proof. unfold accepted. apply _. Defined.

(** A round of [set_new_directory] on the terminal: the request and the
    prompt, then what the program says of the line. *)
Definition refusal (m : gmap Path node) (line : pystr) : shown :=
  if bool_decide (answer line = []) then PathEmpty
  else match m !! chosen line with
       | None => NoSuchFolder
       | Some (File _) => NotAFolder
       | Some Dir => FolderSet (chosen line)
       end.

Definition refused_round (m : gmap Path node) (line : pystr) : list shown :=
  [EnterFullPath; Asked FolderPath; refusal m line].

(** A session in which the engine has nothing left to show. *)
Definition settled (s : Session) : Prop := console (files s) = [].

(** A reply of the program that did not run out of budget, with at most
    [n] lines left to read. *)
Definition lasts {A} (n : nat) (r : reply A) : Prop :=
  match r with
  | Fine _ s => length (stdin s) <= n
  | Crash e _ => e <> Raised LoopBudget
  end.

(** The menu as [show_menu] prints it. *)
Definition menu_screen (folder : Path) : list shown :=
  [Rule "="%char; Title; CurrentFolder folder; Rule "="%char;
   MenuEntry 1; MenuEntry 2; MenuEntry 3; MenuEntry 4; Rule "-"%char].

(** A line that is no choice of the menu. *)
Definition invalid_choice (line : pystr) : Prop :=
  strip line ∉ map lit ["1"; "2"; "3"]%string ++ exit_words.

(** Worlds and sessions for the examples. *)

(** A folder ready for a sort, with one picture. *)
Definition one_picture : World :=
  world [ (root, Dir); (Downloads, Dir); (LOG_FOLDER Downloads, Dir);
          (child Downloads (lit "photo.png"), File (lit "P")) ]
        [].

(** An undo file whose only line is no record. *)
Definition broken_ledger : World :=
  world [ (root, Dir); (Downloads, Dir); (LOG_FOLDER Downloads, Dir);
          (UNDO_FILE Downloads,
           File (lit "moved by hand" ++ ["010"%char])) ]
        [].

(** A sorted file whose old name is taken by a folder in the meantime. *)
Definition name_taken_by_folder : World :=
  world [ (root, Dir); (Downloads, Dir);
          (child Downloads (lit "Documents"), Dir);
          (child (child Downloads (lit "Documents")) (lit "a.txt"),
           File (lit "A"));
          (child Downloads (lit "a.txt"), Dir) ]
        [].

(** The working directory of the program. *)
Definition cwd : Path := Path_of_str (lit ".").

(** A first start: no configuration file yet.  The user types blanks, a
    folder that is not there, the folder between quotes, and one more
    line. *)
Definition first_start : Session :=
  mkSession (world [ (cwd, Dir); (root, Dir); (Downloads, Dir) ] [])
            [ lit "  "; lit "/nowhere";
              "034"%char :: lit "/Downloads" ++ ["034"%char]; lit "4" ]
            [].

(** A start with a blank configuration file. *)
Definition blank_start : Session :=
  mkSession (world [ (cwd, Dir); (CONFIG_FILE, File (lit "  ")) ] []) [] [].

(** A start with the folder saved. *)
Definition saved_start : Session :=
  mkSession (world [ (cwd, Dir); (root, Dir); (Downloads, Dir);
                     (CONFIG_FILE, File (lit "/Downloads" ++ ["010"%char])) ]
                   [])
            [] [].

(** The working directory, holding the configuration file. *)
Definition home_folder : World :=
  world [ (cwd, Dir); (CONFIG_FILE, File (lit "/Downloads")) ] [].

(** * Properties *)

(** ** Strings *)

Lemma stem_suffix n : stem_of n ++ suffix_of n = n.
Proof.
  unfold stem_of, suffix_of.
  destruct (suffix_at n); [apply take_drop | apply app_nil_r].
Qed.

Lemma split_once_app sep a b :
  sep ∉ a -> split_once sep (a ++ sep :: b) = Some (a, b).
Proof.
  induction a as [|c a IH]; simpl; intros H.
  - by rewrite decide_True.
  - apply not_elem_of_cons in H as [Hc Ha].
    rewrite decide_False by done. by rewrite IH.
Qed.

Lemma split_once_Some sep s a b :
  split_once sep s = Some (a, b) -> s = a ++ sep :: b /\ sep ∉ a.
Proof.
  revert a; induction s as [|c s IH]; simpl; intros a H; [done|].
  destruct (decide (c = sep)) as [->|Hne].
  - inversion H; subst. split; [done | apply not_elem_of_nil].
  - destruct (split_once sep s) as [[a' b']|] eqn:E; [|done].
    inversion H; subst. destruct (IH a' eq_refl) as [-> Hn].
    split; [done|]. apply not_elem_of_cons. split; [congruence | done].
Qed.

Lemma split_on_app sep a s :
  sep ∉ a -> split_on sep (a ++ sep :: s) = a :: split_on sep s.
Proof.
  induction a as [|c a IH]; simpl; intros H.
  - by rewrite decide_True.
  - apply not_elem_of_cons in H as [Hc Ha].
    rewrite decide_False by done. by rewrite IH.
Qed.

Lemma split_on_none sep a : sep ∉ a -> split_on sep a = [a].
Proof.
  induction a as [|c a IH]; simpl; intros H; [done|].
  apply not_elem_of_cons in H as [Hc Ha].
  rewrite decide_False by done. by rewrite IH.
Qed.

Lemma universal_newlines_app a s :
  "013"%char ∉ a -> universal_newlines (a ++ s) = a ++ universal_newlines s.
Proof.
  induction a as [|c a IH]; intros H; [done|].
  apply not_elem_of_cons in H as [Hc Ha].
  change ((c :: a) ++ s) with (c :: (a ++ s)).
  cbn [universal_newlines]. rewrite decide_False by done.
  by rewrite IH.
Qed.

(** Stripping leaves alone a string that neither starts nor ends with
    whitespace. *)
Lemma lstrip_app a s : a <> [] -> lstrip a = a -> lstrip (a ++ s) = a ++ s.
Proof.
  destruct a as [|c a]; [done|]. intros _. simpl.
  destruct (is_space c) eqn:E; [|done].
  intros H. exfalso.
  assert (Hlen : forall x, length (lstrip x) <= length x).
  { induction x as [|y x IHx]; simpl; [lia|].
    destruct (is_space y); simpl; lia. }
  specialize (Hlen a). rewrite H in Hlen. simpl in Hlen. lia.
Qed.

Lemma rstrip_app a s : s <> [] -> rstrip s = s -> rstrip (a ++ s) = a ++ s.
Proof.
  unfold rstrip. intros Hs H.
  assert (H' : lstrip (rev s) = rev s).
  { rewrite <- (rev_involutive (lstrip (rev s))). by rewrite H. }
  rewrite rev_app_distr, lstrip_app, <- rev_app_distr, rev_involutive; try done.
  intros E. apply Hs. rewrite <- (rev_involutive s), E. done.
Qed.

Lemma strip_record a b :
  lstrip a = a -> rstrip b = b ->
  strip (a ++ "|"%char :: b) = a ++ "|"%char :: b.
Proof.
  intros Ha Hb. unfold strip.
  assert (Hl : lstrip (a ++ "|"%char :: b) = a ++ "|"%char :: b).
  { destruct a as [|c a]; [done|]. by apply lstrip_app. }
  rewrite Hl.
  destruct b as [|c b].
  - apply (rstrip_app a ["|"%char]); done.
  - change (a ++ "|"%char :: c :: b) with (a ++ ["|"%char] ++ (c :: b)).
    rewrite app_assoc. by apply rstrip_app.
Qed.

Lemma file_lines_ledger moves :
  Forall (fun mv => no_newline (record_body mv)) moves ->
  file_lines (ledger_text moves) = map record_body moves ++ [[]].
Proof.
  unfold file_lines, ledger_text.
  induction 1 as [|mv moves [Hn Hr] _ IH]; [done|].
  cbn [map concat]. unfold ledger_line at 1.
  change (str_path mv.1 ++ "|"%char :: str_path mv.2 ++ ["010"%char])
    with (str_path mv.1 ++ ("|"%char :: str_path mv.2) ++ ["010"%char]).
  rewrite app_assoc. fold (record_body mv). rewrite <- app_assoc.
  rewrite universal_newlines_app by done.
  cbn [app universal_newlines]. rewrite decide_False by done.
  rewrite split_on_app by done. by rewrite IH.
Qed.

(** ** The classifier *)

Lemma dict_get_cases d k dflt :
  dict_get d k dflt = dflt \/ (k, dict_get d k dflt) ∈ d.
Proof.
  induction d as [|[k' v] d IH]; simpl; [by left|].
  destruct (decide (k' = k)) as [->|Hne].
  - right. apply elem_of_cons. by left.
  - destruct IH as [IH|IH]; [by left|]. right. apply elem_of_cons. by right.
Qed.

Lemma mapping_values :
  Forall (fun kv => kv.2 ∈ category_folders) mapping.
Proof. apply (bool_decide_unpack _). vm_compute. exact I. Qed.

Lemma get_category_total ext : get_category ext ∈ category_folders.
Proof.
  unfold get_category.
  destruct (dict_get_cases mapping (lower ext) (lit "Others")) as [->|H].
  - apply (bool_decide_unpack _). vm_compute. exact I.
  - pose proof mapping_values as V. rewrite Forall_forall in V.
    apply (V _ H).
Qed.

Lemma mapping_classified :
  Forall (fun kv => get_category kv.1 = kv.2 /\
                    get_category (upper kv.1) = kv.2 /\
                    get_category (dotless kv.1) = lit "Others") mapping.
Proof. apply (bool_decide_unpack _). vm_compute. exact I. Qed.

(** C7, as the source has it: on the extensions of the table, written with
    their leading dot, the classifier ignores case; the same extension
    without its dot is not in the table and falls to Others; and every
    input is given one of the seven labels. *)
Theorem C7_classifier_dotted (E C ext : pystr) :
  (E, C) ∈ mapping ->
  get_category E = C /\
  get_category (upper E) = C /\
  get_category (dotless E) = lit "Others" /\
  get_category ext ∈ category_folders.
Proof.
  intros H. pose proof mapping_classified as V. rewrite Forall_forall in V.
  destruct (V _ H) as (H1 & H2 & H3). cbn in H1, H2, H3.
  repeat split; try done. apply get_category_total.
Qed.

Lemma C7_classifier_dotted_witness :
  get_category (lit ".png") = lit "Images" /\
  get_category (upper (lit ".png")) = lit "Images" /\
  get_category (dotless (lit ".png")) = lit "Others" /\
  get_category (lit ".xyz") ∈ category_folders.
Proof.
  apply (C7_classifier_dotted (lit ".png") (lit "Images") (lit ".xyz")).
  apply (bool_decide_unpack _). vm_compute. exact I.
Defined.

(** C7 as stated fails: [.png] is mapped to Images, its dotless form
    is not. *)
Lemma C7_dotless_counterexample :
  (lit ".png", lit "Images") ∈ mapping /\
  get_category (lit "png") <> lit "Images".
Proof.
  split.
  - apply (bool_decide_unpack _). vm_compute. exact I.
  - vm_compute. discriminate.
Qed.

(** ** The ledger file *)

Lemma parse_line_body a b :
  lstrip a = a -> rstrip b = b ->
  parse_line (a ++ "|"%char :: b) =
    match split_once "|"%char (a ++ "|"%char :: b) with
    | Some (x, y) => Record x y
    | None => Malformed
    end.
Proof.
  intros Ha Hb. unfold parse_line. rewrite strip_record by done.
  rewrite bool_decide_eq_false_2; [done|]. by destruct a.
Qed.

Lemma parse_line_record a b :
  lstrip a = a -> rstrip b = b -> "|"%char ∉ a ->
  parse_line (a ++ "|"%char :: b) = Record a b.
Proof.
  intros Ha Hb Hn. rewrite parse_line_body by done.
  by rewrite split_once_app.
Qed.

(** C10, as the source has it: the reader strips each line before it
    splits it, so the pair is read back exactly when the destination holds
    no bar, for records that hold no line break, whose destination does
    not start with whitespace and whose original does not end with
    whitespace.  A bar in the original does no harm. *)
Theorem C10_ledger_line_round_trip (mv : Path * Path) :
  no_newline (record_body mv) ->
  lstrip (str_path mv.1) = str_path mv.1 ->
  rstrip (str_path mv.2) = str_path mv.2 ->
  (map parse_line (file_lines (ledger_line mv))
     = [Record (str_path mv.1) (str_path mv.2); Blank]
   <-> "|"%char ∉ str_path mv.1).
Proof.
  intros Hn Ha Hb.
  assert (Hl : file_lines (ledger_line mv) = [record_body mv; []]).
  { pose proof (file_lines_ledger [mv]) as H.
    unfold ledger_text in H. cbn [map concat] in H.
    rewrite app_nil_r in H. apply H. by constructor. }
  rewrite Hl. cbn [map]. unfold record_body.
  rewrite parse_line_body by done.
  split.
  - intros H.
    destruct (split_once "|"%char (str_path mv.1 ++ "|"%char :: str_path mv.2))
      as [[x y]|] eqn:E; [|done].
    apply split_once_Some in E as [_ Hx].
    inversion H; subst. done.
  - intros H. by rewrite split_once_app.
Qed.

Lemma C10_ledger_line_round_trip_witness :
  map parse_line
    (file_lines (ledger_line ((true, [lit "d"; lit "Others"; lit "a|b"]),
                              (true, [lit "d"; lit "a|b"]))))
    = [Record (lit "/d/Others/a|b") (lit "/d/a|b"); Blank]
  <-> "|"%char ∉ lit "/d/Others/a|b".
Proof.
  apply (C10_ledger_line_round_trip
           ((true, [lit "d"; lit "Others"; lit "a|b"]),
            (true, [lit "d"; lit "a|b"]))).
  - split; apply (bool_decide_unpack _); vm_compute; exact I.
  - reflexivity.
  - reflexivity.
Defined.

(** C10 as stated fails: a record whose original name ends with a space
    holds no bar in its destination and is not read back. *)
Lemma C10_trailing_space_counterexample :
  let mv : Path * Path :=
    ((true, [lit "d"; lit "Others"; lit "a "]), (true, [lit "d"; lit "a "])) in
  ("|"%char ∉ str_path mv.1) /\
  map parse_line (file_lines (ledger_line mv))
    = [Record (lit "/d/Others/a ") (lit "/d/a"); Blank] /\
  map parse_line (file_lines (ledger_line mv))
    <> [Record (str_path mv.1) (str_path mv.2); Blank].
Proof.
  cbv zeta. split; [|split].
  - apply (bool_decide_unpack _). vm_compute. exact I.
  - vm_compute. reflexivity.
  - vm_compute. discriminate.
Qed.

(** ** Paths *)

Lemma child_inj p q n m : child p n = child q m -> p = q /\ n = m.
Proof.
  destruct p as [a l], q as [b k]. unfold child; simpl. intros H.
  inversion H as [[Ha Hl]]. apply app_inj_tail in Hl as [-> ->]. done.
Qed.

Lemma child_depth p n : length (child p n).2 = S (length p.2).
Proof. unfold child; simpl. rewrite length_app. simpl. lia. Qed.

Lemma child_neq p n : child p n <> p.
Proof.
  intros H. pose proof (child_depth p n) as D. rewrite H in D. lia.
Qed.

Lemma grandchild_neq p n k x : child (child p n) x <> child p k.
Proof.
  intros H. apply (f_equal (fun q => length q.2)) in H.
  rewrite !child_depth in H. lia.
Qed.

Lemma child_neq_grandchild p n k x : child p k <> child (child p n) x.
Proof. intros H. symmetry in H. by apply grandchild_neq in H. Qed.

Lemma parent_child p n : parent (child p n) = p.
Proof.
  destruct p as [a l]. unfold parent, child; simpl.
  by rewrite removelast_last.
Qed.

Lemma name_child p n : name (child p n) = n.
Proof. unfold name, child; simpl. by rewrite last_snoc. Qed.

Lemma entry_of_child p n : entry_of p (child p n).
Proof. split; [apply parent_child | apply child_neq]. Qed.

Lemma entry_of_inv p q : entry_of p q -> exists n, q = child p n.
Proof.
  intros [Hp Hq]. destruct q as [a l]. unfold parent in Hp; simpl in Hp.
  destruct (decide (l = [])) as [->|Hl].
  - simpl in Hp. congruence.
  - destruct (exists_last Hl) as (l' & n & ->).
    rewrite removelast_last in Hp. subst p. by exists n.
Qed.

(** ** Numbered names *)

Lemma str_of_nat_inj i j : str_of_nat i = str_of_nat j -> i = j.
Proof.
  unfold str_of_nat. intros H.
  apply (f_equal string_of_list_ascii) in H.
  rewrite !string_of_list_ascii_of_string in H.
  apply (f_equal NilEmpty.uint_of_string) in H.
  rewrite !NilEmpty.usu in H. inversion H as [H'].
  apply (f_equal Nat.of_uint) in H'.
  by rewrite !DecimalNat.Unsigned.of_to in H'.
Qed.

Section Numbered.
Variable dest_folder item : Path.

Lemma numbered_inj i j :
  numbered dest_folder item i = numbered dest_folder item j -> i = j.
Proof.
  unfold numbered. intros H. apply child_inj in H as [_ H].
  apply app_inv_head in H. inversion H as [H'].
  apply app_inv_tail in H'. by apply str_of_nat_inj.
Qed.

(** A finite directory cannot hold all of [budget] distinct names when
    [budget] exceeds its size. *)
Lemma numbered_exhaust (m : gmap Path node) (i : nat) :
  ~ (forall k, i <= k < i + S (size m) ->
               is_Some (m !! numbered dest_folder item k)).
Proof.
  intros H.
  set (l := numbered dest_folder item <$> seq i (S (size m))).
  assert (Hnd : NoDup l).
  { apply NoDup_fmap_2_strong; [|apply NoDup_seq].
    intros x y _ _. apply numbered_inj. }
  assert (Hsub : (list_to_set l : gset Path) ⊆ dom m).
  { intros p Hp. apply elem_of_list_to_set in Hp.
    apply list_elem_of_fmap in Hp as (k & -> & Hk).
    apply elem_of_seq in Hk. apply elem_of_dom. apply H. lia. }
  apply subseteq_size in Hsub.
  rewrite size_list_to_set, size_dom in Hsub by done.
  unfold l in Hsub. rewrite length_fmap, length_seq in Hsub. lia.
Qed.

Lemma next_free_spec (budget i : nat) (m : gmap Path node) :
  match next_free budget dest_folder item i m with
  | Some d =>
      exists N, i <= N < i + budget /\ d = numbered dest_folder item N /\
                m !! d = None /\
                forall k, i <= k < N ->
                          is_Some (m !! numbered dest_folder item k)
  | None =>
      forall k, i <= k < i + budget ->
                is_Some (m !! numbered dest_folder item k)
  end.
Proof.
  revert i. induction budget as [|b IH]; intros i; cbn [next_free].
  - intros k Hk. lia.
  - case_bool_decide as Hi.
    + specialize (IH (S i)).
      destruct (next_free b dest_folder item (S i) m) as [d|].
      * destruct IH as (N & HN & -> & Hfree & Hbusy).
        exists N. repeat split; try done; try lia.
        intros k Hk. destruct (decide (k = i)) as [->|]; [done|].
        apply Hbusy. lia.
      * intros k Hk. destruct (decide (k = i)) as [->|]; [done|].
        apply IH. lia.
    + exists i. repeat split; try lia.
      destruct (m !! numbered dest_folder item i) eqn:E; [|done].
      exfalso. apply Hi. by eexists.
Qed.

(** The duplicate loop ends, on the first free numbered name. *)
Lemma next_free_terminates (m : gmap Path node) :
  exists N, 1 <= N /\
    next_free (S (size m)) dest_folder item 1 m
      = Some (numbered dest_folder item N) /\
    m !! numbered dest_folder item N = None /\
    forall k, 1 <= k < N -> is_Some (m !! numbered dest_folder item k).
Proof.
  pose proof (next_free_spec (S (size m)) 1 m) as H.
  destruct (next_free (S (size m)) dest_folder item 1 m) as [d|].
  - destruct H as (N & HN & -> & Hfree & Hbusy).
    exists N. repeat split; try done; lia.
  - exfalso. by apply (numbered_exhaust m 1).
Qed.
End Numbered.

(** ** The monad *)

Lemma bind_Ok {A B} (c : M A) (f : A -> M B) w a w' :
  c w = Ok a w' -> bind c f w = f a w'.
Proof. unfold bind. by intros ->. Qed.

Lemma bind_Raise {A B} (c : M A) (f : A -> M B) w e w' :
  c w = Raise e w' -> bind c f w = Raise e w'.
Proof. unfold bind. by intros ->. Qed.

Lemma foreach_app {A S} (body : A -> S -> M S) l1 l2 s w :
  foreach body (l1 ++ l2) s w =
    match foreach body l1 s w with
    | Ok s' w' => foreach body l2 s' w'
    | Raise e w' => Raise e w'
    end.
Proof.
  revert s w. induction l1 as [|x l1 IH]; intros s w; [done|].
  cbn [app foreach]. unfold bind.
  destruct (body x s w) as [s' w'|e w']; [apply IH | done].
Qed.

(** ** One item of the scan *)

Section EngineProps.
Variable SOURCE_FOLDER : Path.
Variable all_categories : list pystr.

Lemma free_dest_spec dest_folder item w :
  (fs w !! child dest_folder (name item) = None /\
   free_dest dest_folder item w = Ok (child dest_folder (name item)) w)
  \/
  (is_Some (fs w !! child dest_folder (name item)) /\
   exists N, 1 <= N /\
     free_dest dest_folder item w = Ok (numbered dest_folder item N) w /\
     fs w !! numbered dest_folder item N = None /\
     forall k, 1 <= k < N ->
               is_Some (fs w !! numbered dest_folder item k)).
Proof.
  unfold free_dest. case_bool_decide as He.
  - right. split; [done|].
    destruct (next_free_terminates dest_folder item (fs w))
      as (N & HN & -> & Hfree & Hbusy).
    by exists N.
  - left. split; [|done].
    destruct (fs w !! child dest_folder (name item)) eqn:E; [|done].
    exfalso. apply He. by eexists.
Qed.

Lemma free_dest_fresh dest_folder item w :
  exists x, free_dest dest_folder item w = Ok (child dest_folder x) w /\
            fs w !! child dest_folder x = None.
Proof.
  destruct (free_dest_spec dest_folder item w)
    as [[Hn ->]|[_ (N & _ & -> & Hn & _)]]; eauto.
Qed.

Lemma free_dest_renamed dest_folder item w x w' :
  free_dest dest_folder item w = Ok (child dest_folder x) w' ->
  renamed (name item) x.
Proof.
  intros H.
  destruct (free_dest_spec dest_folder item w)
    as [[_ E]|[_ (N & _ & E & _)]]; rewrite E in H.
  - assert (H1 : child dest_folder (name item) = child dest_folder x)
      by congruence.
    apply child_inj in H1 as [_ <-]. by left.
  - assert (H1 : numbered dest_folder item N = child dest_folder x)
      by congruence.
    apply child_inj in H1 as [_ <-]. right. by exists N.
Qed.

Lemma log_spec x w :
  log SOURCE_FOLDER x w =
    match fs w !! LOG_FOLDER SOURCE_FOLDER with
    | Some Dir =>
        Ok tt (mkWorld (fs w) (locked w) (console w ++ [x])
                       (session_log w ++ [x]))
    | _ =>
        Raise FileNotFoundError
          (mkWorld (fs w) (locked w) (console w ++ [x]) (session_log w))
    end.
Proof.
  unfold log, bind, print, is_dir, append_log, raise; simpl.
  by destruct (fs w !! LOG_FOLDER SOURCE_FOLDER) as [[|]|].
Qed.

Lemma with_fs_id w : with_fs w (fs w) = w.
Proof. by destruct w. Qed.

Lemma folder_ready_item w item m c :
  fs w !! item = Some (File c) ->
  folder_ready SOURCE_FOLDER w item m ->
  m !! item = Some (File c) /\
  m !! child SOURCE_FOLDER (get_category (suffix item)) = Some Dir.
Proof.
  intros Hitem [Hdir|Hnone Hsrc]; [done|].
  split; [|apply lookup_insert_eq].
  rewrite lookup_insert_ne; [done|]. congruence.
Qed.

Lemma organize_item_outcome item st w :
  item_outcome SOURCE_FOLDER item st w
    (organize_item SOURCE_FOLDER item st w).
Proof.
  unfold organize_item. unfold bind at 1. unfold is_file at 1.
  destruct (fs w !! item) as [[c|]|] eqn:Hitem; cbn [andb];
    try (apply item_skipped; congruence).
  case_bool_decide as Hname; cbn [negb];
    [apply item_skipped; congruence|].
  set (category := get_category (suffix item)).
  set (dest_folder := child SOURCE_FOLDER category).
  assert (Htail : forall m, folder_ready SOURCE_FOLDER w item m ->
    item_outcome SOURCE_FOLDER item st w
      ((dest_path <- free_dest dest_folder item;;
        shutil_move item dest_path;;
        log SOURCE_FOLDER (Moved (name item) category);;
        ret (st.1 ++ [(dest_path, item)], incr category st.2))
         (with_fs w m))).
  { intros m Hready.
    destruct (folder_ready_item w item m c Hitem Hready) as [Hmi Hmd].
    destruct (free_dest_fresh dest_folder item (with_fs w m))
      as (x & Hfd & Hfree).
    cbn [fs with_fs] in Hfree.
    rewrite (bind_Ok _ _ _ _ _ Hfd).
    unfold bind at 1. unfold shutil_move.
    cbn [fs with_fs locked]. rewrite Hfree, Hmi. cbn [andb].
    case_bool_decide as Hlock.
    { eapply item_locked; eauto. }
    rewrite parent_child.
    change (m !! dest_folder = Some Dir) in Hmd. rewrite Hmd.
    unfold bind at 1. rewrite log_spec. cbn [fs with_fs].
    eapply item_moved; eauto.
    subst category dest_folder. cbn [fs moved_world].
    by destruct (_ !! LOG_FOLDER SOURCE_FOLDER) as [[|]|]. }
  unfold bind at 1. unfold mkdir_exist_ok at 1.
  destruct (fs w !! dest_folder) as [[c'|]|] eqn:Hdf.
  - eapply item_no_folder; eauto.
    intros m Hm. subst category dest_folder. inversion Hm; congruence.
  - pose proof (Htail (fs w) (folder_there _ _ _ Hdf)) as H.
    by rewrite with_fs_id in H.
  - unfold dest_folder at 1. rewrite parent_child.
    destruct (fs w !! SOURCE_FOLDER) as [[c'|]|] eqn:Hsrc.
    + eapply item_no_folder; eauto.
      intros m Hm. subst category dest_folder. inversion Hm; congruence.
    + apply Htail. by apply folder_made.
    + eapply item_no_folder; eauto.
      intros m Hm. subst category dest_folder. inversion Hm; congruence.
Qed.

(** ** The scan *)

Lemma sum_values_incr k c : sum_values (incr k c) = S (sum_values c).
Proof.
  induction c as [|[k' v] c IH]; [done|]. cbn [incr].
  destruct (decide (k' = k)); unfold sum_values in *; simpl in *; lia.
Qed.

Lemma scanned_folder m0 moves w item m :
  scanned SOURCE_FOLDER m0 moves (fs w) ->
  folder_ready SOURCE_FOLDER w item m ->
  scanned SOURCE_FOLDER m0 moves m.
Proof.
  intros Hs [Hdir|Hnone Hsrc]; [done|].
  apply scanned_mkdir; [done| |done]. apply get_category_total.
Qed.

Lemma scan_outcome m0 entries st w :
  scanned SOURCE_FOLDER m0 st.1 (fs w) ->
  match foreach (organize_item SOURCE_FOLDER)
          (map (child SOURCE_FOLDER) entries) st w with
  | Ok st' w' =>
      exists new,
        st'.1 = st.1 ++ new /\
        sum_values st'.2 = sum_values st.2 + length new /\
        scanned SOURCE_FOLDER m0 st'.1 (fs w') /\
        locked w' = locked w /\
        console w' = console w ++ map moved_msg new /\
        session_log w' = session_log w ++ map moved_msg new
  | Raise e w' =>
      exists moves,
        scanned SOURCE_FOLDER m0 moves (fs w') /\ locked w' = locked w
  end.
Proof.
  revert st w. induction entries as [|n entries IH]; intros st w Hs.
  - cbn. exists []. rewrite !app_nil_r. repeat split; (done || cbn; lia).
  - cbn [map foreach]. unfold bind.
    destruct (organize_item_outcome (child SOURCE_FOLDER n) st w)
      as [Hskip|e c Hitem Hname Hno|c m Hitem Hname Hready Hlock
         |c m x r Hitem Hname Hready Hfd Hfree Hlock category dest_path w' ->].
    + apply IH, Hs.
    + by exists st.1.
    + exists st.1. split; [|done]. cbn [fs with_fs].
      by eapply scanned_folder.
    + assert (Hmoved : scanned SOURCE_FOLDER m0
                (st.1 ++ [(dest_path, child SOURCE_FOLDER n)]) (fs w')).
      { subst w' dest_path category. cbn [fs moved_world].
        rewrite name_child in Hname.
        destruct (folder_ready_item w _ m c Hitem Hready) as [Hmi Hmd].
        apply free_dest_renamed in Hfd. rewrite name_child in Hfd.
        apply scanned_move;
          [by eapply scanned_folder | apply get_category_total | done..]. }
      destruct (fs w' !! LOG_FOLDER SOURCE_FOLDER) as [[|]|];
        try (eexists; split; [exact Hmoved | done]).
      specialize (IH (st.1 ++ [(dest_path, child SOURCE_FOLDER n)],
                      incr category st.2)
                     (logged_world w' (Moved (name (child SOURCE_FOLDER n)) category))
                     Hmoved).
      destruct (foreach _ _ _ _) as [st' w''|e w''].
      * destruct IH as (new & Hst & Hsum & Hsc & Hl & Hc & Hlog).
        exists ((dest_path, child SOURCE_FOLDER n) :: new).
        cbn [fst snd] in *. rewrite sum_values_incr in Hsum.
        rewrite <- app_assoc in Hst.
        rewrite Hsum, Hl, Hc, Hlog.
        cbn [console session_log locked logged_world moved_world w'
             length map].
        rewrite <- !app_assoc. repeat split; try done. lia.
      * destruct IH as (moves & Hsc & Hl). exists moves. by rewrite Hl.
Qed.


Lemma Sort_Logs_not_category : lit "Sort_Logs" ∉ category_folders.
Proof. apply (bool_decide_unpack _). vm_compute. exact I. Qed.

Lemma organizer_not_category : lit "organizer.py" ∉ category_folders.
Proof. apply (bool_decide_unpack _). vm_compute. exact I. Qed.

(** What the scan never touches. *)
Lemma scanned_dirs m0 moves m p :
  scanned SOURCE_FOLDER m0 moves m ->
  m0 !! p = Some Dir -> m !! p = Some Dir.
Proof.
  induction 1 as [|moves m cat Hs IH Hcat Hnone
                  |moves m n cat x c Hs IH Hcat Hn Hren Hitem Hdir Hfree];
    intros Hp; [done| |]; specialize (IH Hp).
  - rewrite lookup_insert_ne; [done|]. congruence.
  - rewrite lookup_insert_ne by congruence.
    rewrite lookup_delete_ne by congruence. done.
Qed.

Lemma scanned_frame m0 moves m p :
  scanned SOURCE_FOLDER m0 moves m ->
  (forall n, p <> child SOURCE_FOLDER n) ->
  (forall cat x, cat ∈ category_folders ->
                 p <> child (child SOURCE_FOLDER cat) x) ->
  m !! p = m0 !! p.
Proof.
  intros Hs H1 H2.
  induction Hs as [|moves m cat Hs IH Hcat Hnone
                   |moves m n cat x c Hs IH Hcat Hn Hren Hitem Hdir Hfree];
    [done| |].
  - rewrite lookup_insert_ne; [done|]. intros E. by apply (H1 cat).
  - rewrite lookup_insert_ne.
    + rewrite lookup_delete_ne; [done|]. intros E. by apply (H1 n).
    + intros E. by apply (H2 cat x).
Qed.

Lemma scanned_self m0 moves m :
  scanned SOURCE_FOLDER m0 moves m ->
  m !! child SOURCE_FOLDER (lit "organizer.py")
    = m0 !! child SOURCE_FOLDER (lit "organizer.py").
Proof.
  induction 1 as [|moves m cat Hs IH Hcat Hnone
                  |moves m n cat x c Hs IH Hcat Hn Hren Hitem Hdir Hfree];
    [done| |].
  - rewrite lookup_insert_ne; [done|].
    intros E. apply child_inj in E as [_ ->].
    by apply organizer_not_category.
  - rewrite lookup_insert_ne by apply grandchild_neq.
    rewrite lookup_delete_ne; [done|].
    intros E. by apply child_inj in E as [_ ->].
Qed.

Lemma scanned_not_file m0 moves m cat :
  scanned SOURCE_FOLDER m0 moves m ->
  not_file (m0 !! child SOURCE_FOLDER cat) ->
  not_file (m !! child SOURCE_FOLDER cat).
Proof.
  induction 1 as [|moves m cat' Hs IH Hcat Hnone
                  |moves m n cat' x c Hs IH Hcat Hn Hren Hitem Hdir Hfree];
    intros H0; [done| |]; specialize (IH H0); intros c0.
  - destruct (decide (child SOURCE_FOLDER cat' = child SOURCE_FOLDER cat))
      as [->|Hne].
    + by rewrite lookup_insert_eq.
    + rewrite lookup_insert_ne by done. apply IH.
  - rewrite lookup_insert_ne by apply grandchild_neq.
    destruct (decide (child SOURCE_FOLDER n = child SOURCE_FOLDER cat))
      as [->|Hne].
    + by rewrite lookup_delete_eq.
    + rewrite lookup_delete_ne by done. apply IH.
Qed.

Lemma UNDO_FILE_frame m0 moves m :
  scanned SOURCE_FOLDER m0 moves m ->
  m !! UNDO_FILE SOURCE_FOLDER = m0 !! UNDO_FILE SOURCE_FOLDER.
Proof.
  intros Hs. apply (scanned_frame _ _ _ _ Hs).
  - intros n. apply grandchild_neq.
  - intros cat x Hcat E. unfold UNDO_FILE, LOG_FOLDER in E.
    apply child_inj in E as [E _]. apply child_inj in E as [_ <-].
    by apply Sort_Logs_not_category.
Qed.


(** ** A run of [organize] *)

Lemma report_empty_loop cats category_count w :
  fs w !! LOG_FOLDER SOURCE_FOLDER = Some Dir ->
  let reports :=
    map (fun cat => NoneFound (lower cat))
        (filter (fun cat => count_of cat category_count = 0) cats) in
  foreach (report_empty SOURCE_FOLDER) cats category_count w
    = Ok category_count
         (mkWorld (fs w) (locked w) (console w ++ reports)
                  (session_log w ++ reports)).
Proof.
  revert w. induction cats as [|cat cats IH]; intros w Hlog; cbn zeta.
  - cbn. rewrite !app_nil_r. by destruct w.
  - cbn [foreach]. unfold bind at 1. unfold report_empty at 1.
    destruct (Nat.eqb_spec (count_of cat category_count) 0) as [Hz|Hz].
    + rewrite filter_cons_True by done.
      unfold bind at 1. rewrite log_spec, Hlog. unfold ret at 1.
      rewrite IH by done. cbn [fs locked console session_log map].
      by rewrite <- !app_assoc.
    + rewrite filter_cons_False by done. unfold ret at 1. by apply IH.
Qed.

Lemma organize_outcome entries w :
  match organize SOURCE_FOLDER all_categories entries w with
  | Ok _ w' =>
      exists moves category_count m0 m1,
        log_ready SOURCE_FOLDER w m0 /\
        m0 !! SOURCE_FOLDER = Some Dir /\
        scanned SOURCE_FOLDER m0 moves m1 /\
        m1 !! UNDO_FILE SOURCE_FOLDER <> Some Dir /\
        fs w' = <[UNDO_FILE SOURCE_FOLDER := File (ledger_text moves)]> m1 /\
        locked w' = locked w /\
        console w' =
          console w ++ organize_console SOURCE_FOLDER all_categories moves
                        category_count
  | Raise e w' =>
      exists moves m0,
        (m0 = fs w \/ log_ready SOURCE_FOLDER w m0) /\
        scanned SOURCE_FOLDER m0 moves (fs w') /\
        locked w' = locked w
  end.
Proof.
  unfold organize. unfold bind at 1. unfold ensure_log_folder.
  assert (Hfail : forall wc,
    fs wc = fs w -> locked wc = locked w ->
    exists moves m0,
      (m0 = fs w \/ log_ready SOURCE_FOLDER w m0) /\
      scanned SOURCE_FOLDER m0 moves (fs wc) /\ locked wc = locked w).
  { intros wc Hfs Hl. exists [], (fs w). rewrite Hfs.
    repeat split; [by left | constructor | done]. }
  assert (Hrun : forall m0, log_ready SOURCE_FOLDER w m0 ->
    match (log SOURCE_FOLDER (Starting SOURCE_FOLDER);;
           items <- iterdir SOURCE_FOLDER entries;;
           st <- foreach (organize_item SOURCE_FOLDER) items ([], []);;
           category_count <-
             foreach (report_empty SOURCE_FOLDER) all_categories st.2;;
           log SOURCE_FOLDER (Complete (sum_values category_count));;
           write_text (UNDO_FILE SOURCE_FOLDER) (ledger_text st.1);;
           log SOURCE_FOLDER UndoSaved) (with_fs w m0) with
    | Ok _ w' =>
        exists moves category_count m1,
          m0 !! SOURCE_FOLDER = Some Dir /\
          scanned SOURCE_FOLDER m0 moves m1 /\
          m1 !! UNDO_FILE SOURCE_FOLDER <> Some Dir /\
          fs w' = <[UNDO_FILE SOURCE_FOLDER := File (ledger_text moves)]> m1 /\
          locked w' = locked w /\
          console w' =
            console w ++ organize_console SOURCE_FOLDER all_categories moves
                          category_count
    | Raise e w' =>
        exists moves,
          scanned SOURCE_FOLDER m0 moves (fs w') /\ locked w' = locked w
    end).
  { intros m0 Hready.
    assert (Hlog0 : m0 !! LOG_FOLDER SOURCE_FOLDER = Some Dir).
    { destruct Hready; [done | apply lookup_insert_eq]. }
    unfold bind at 1. rewrite log_spec. cbn [fs with_fs]. rewrite Hlog0.
    unfold bind at 1. unfold iterdir at 1. cbn [fs].
    destruct (m0 !! SOURCE_FOLDER) as [[c|]|] eqn:Hsrc;
      try (exists []; split; [constructor | done]).
    unfold bind at 1.
    match goal with |- context [foreach _ _ _ ?w1] =>
      pose proof (scan_outcome m0 entries ([], []) w1) as Hscan end.
    cbn [fst fs] in Hscan. specialize (Hscan (scanned_start _ _)).
    destruct (foreach (organize_item SOURCE_FOLDER) _ _ _) as [st w1|e w1];
      [|exact Hscan].
    destruct Hscan as (new & Hst & Hsum & Hsc & Hl & Hc & _).
    cbn [app snd fst locked console] in *. subst new.
    unfold sum_values at 2 in Hsum. cbn in Hsum.
    pose proof (scanned_dirs _ _ _ _ Hsc Hlog0) as Hlog1.
    unfold bind at 1. rewrite report_empty_loop by done.
    unfold bind at 1. rewrite log_spec. cbn [fs]. rewrite Hlog1.
    unfold bind at 1. unfold write_text at 1. cbn [fs locked].
    assert (Hedit : forall wc text,
      fs wc = <[UNDO_FILE SOURCE_FOLDER := File text]> (fs w1) ->
      log SOURCE_FOLDER UndoSaved wc =
        Ok tt (mkWorld (fs wc) (locked wc) (console wc ++ [UndoSaved])
                       (session_log wc ++ [UndoSaved]))).
    { intros wc text Hwc. rewrite log_spec, Hwc.
      rewrite lookup_insert_ne by apply child_neq. by rewrite Hlog1. }
    assert (Hdone : forall wc : World,
      fs w1 !! UNDO_FILE SOURCE_FOLDER <> Some Dir ->
      fs wc = <[UNDO_FILE SOURCE_FOLDER := File (ledger_text st.1)]> (fs w1) ->
      locked wc = locked w1 ->
      console wc = console w1 ++ empty_reports all_categories st.2
                     ++ [Complete (sum_values st.2)] ->
      match log SOURCE_FOLDER UndoSaved wc with
      | Ok _ w' =>
          exists moves category_count m1,
            Some Dir = Some Dir /\
            scanned SOURCE_FOLDER m0 moves m1 /\
            m1 !! UNDO_FILE SOURCE_FOLDER <> Some Dir /\
            fs w' = <[UNDO_FILE SOURCE_FOLDER := File (ledger_text moves)]> m1 /\
            locked w' = locked w /\
            console w' =
              console w ++ organize_console SOURCE_FOLDER all_categories moves
                            category_count
      | Raise e w' =>
          exists moves,
            scanned SOURCE_FOLDER m0 moves (fs w') /\ locked w' = locked w
      end).
    { intros wc Hnd Hwc Hlc Hcc. rewrite (Hedit _ _ Hwc).
      exists st.1, st.2, (fs w1). cbn [fs locked console].
      rewrite Hwc, Hlc, Hl, Hcc, Hc, Hsum.
      unfold organize_console. repeat split; try done.
      cbn [console with_fs]. by rewrite <- !app_assoc. }
    destruct (fs w1 !! UNDO_FILE SOURCE_FOLDER) as [[c|]|] eqn:Hundo.
    - case_bool_decide.
      + exists st.1. by split.
      + apply Hdone; cbn [fs with_fs locked console]; try done.
        by rewrite <- app_assoc.
    - exists st.1. by split.
    - unfold UNDO_FILE at 1. rewrite parent_child, Hlog1.
      apply Hdone; cbn [fs with_fs locked console]; try done.
      by rewrite <- app_assoc. }
  unfold mkdir_exist_ok.
  destruct (fs w !! LOG_FOLDER SOURCE_FOLDER) as [[c|]|] eqn:Hlog.
  - by apply Hfail.
  - specialize (Hrun (fs w) (log_there _ _ Hlog)). rewrite with_fs_id in Hrun.
    destruct (bind _ _ w) as [u w'|e w'].
    + destruct Hrun as (moves & cc & m1 & H). exists moves, cc, (fs w), m1.
      split; [by constructor | exact H].
    + destruct Hrun as (moves & H). exists moves, (fs w).
      split; [by left | exact H].
  - unfold LOG_FOLDER at 1. rewrite parent_child.
    destruct (fs w !! SOURCE_FOLDER) as [[c|]|] eqn:Hsrc.
    + by apply Hfail.
    + specialize (Hrun _ (log_made _ _ Hlog Hsrc)).
      destruct (bind _ _ (with_fs w _)) as [u w'|e w'].
      * destruct Hrun as (moves & cc & m1 & H).
        eexists moves, cc, _, m1.
        split; [by constructor | exact H].
      * destruct Hrun as (moves & H). eexists moves, _.
        split; [right; by constructor | exact H].
    + by apply Hfail.
Qed.


(** A regular file of the folder stays where it is through a round of
    the scan that works on another entry. *)
Lemma item_step_keeps item st w r n c :
  item_outcome SOURCE_FOLDER item st w r ->
  child SOURCE_FOLDER n <> item ->
  fs w !! child SOURCE_FOLDER n = Some (File c) ->
  fs (world_of r) !! child SOURCE_FOLDER n = Some (File c) /\
  locked (world_of r) = locked w.
Proof.
  intros Hout Hne Hn.
  assert (Hm : forall m, folder_ready SOURCE_FOLDER w item m ->
                         m !! child SOURCE_FOLDER n = Some (File c)).
  { intros m [Hdir|Hnone Hsrc]; [done|].
    rewrite lookup_insert_ne; [done|]. congruence. }
  destruct Hout as [Hskip|e c0 Hitem Hname Hno|c0 m Hitem Hname Hready Hlock
    |c0 m x r Hitem Hname Hready Hfd Hfree Hlock category dest_path w' ->];
    cbn [world_of fs with_fs locked]; try done.
  - split; [by apply Hm | done].
  - assert (Hw' : fs w' !! child SOURCE_FOLDER n = Some (File c)).
    { subst w'. cbn [fs moved_world].
      rewrite lookup_insert_ne.
      - rewrite lookup_delete_ne by done. by apply Hm.
      - apply grandchild_neq. }
    destruct (fs w' !! LOG_FOLDER SOURCE_FOLDER) as [[|]|];
      by cbn [world_of fs logged_world locked].
Qed.

Lemma item_locked_raises item st w r c :
  item_outcome SOURCE_FOLDER item st w r ->
  fs w !! item = Some (File c) ->
  name item <> lit "organizer.py" ->
  item ∈ locked w ->
  exists e w', r = Raise e w' /\ fs w' !! item = Some (File c).
Proof.
  intros Hout Hitem Hname Hlock.
  destruct Hout as [Hskip|e c0 Hitem' Hname' Hno|c0 m Hitem' Hname' Hready Hl
    |c0 m x r Hitem' Hname' Hready Hfd Hfree Hnl category dest_path w' ->].
  - exfalso. apply Hname. by eapply Hskip.
  - by exists e, w.
  - eexists _, _. split; [done|]. cbn [fs with_fs].
    by destruct (folder_ready_item w _ m c Hitem Hready).
  - done.
Qed.

(** A locked file stops the scan, at its turn or before; the files
    listed from it on are where they were. *)
Lemma scan_locked pre n post st w c :
  fs w !! child SOURCE_FOLDER n = Some (File c) ->
  n <> lit "organizer.py" ->
  child SOURCE_FOLDER n ∈ locked w ->
  exists e w',
    foreach (organize_item SOURCE_FOLDER)
      (map (child SOURCE_FOLDER) (pre ++ n :: post)) st w = Raise e w' /\
    forall n' c', n' ∉ pre ->
      fs w !! child SOURCE_FOLDER n' = Some (File c') ->
      fs w' !! child SOURCE_FOLDER n' = Some (File c').
Proof.
  intros Hn0 Hname Hlock0.
  assert (Hneq : forall a b : pystr,
    a <> b -> child SOURCE_FOLDER a <> child SOURCE_FOLDER b).
  { intros a b Hab Eq. by apply child_inj in Eq as [_ ->]. }
  assert (Hhere : forall st w,
    fs w !! child SOURCE_FOLDER n = Some (File c) ->
    child SOURCE_FOLDER n ∈ locked w ->
    exists e w',
      organize_item SOURCE_FOLDER (child SOURCE_FOLDER n) st w
        = Raise e w' /\
      forall n' c',
        fs w !! child SOURCE_FOLDER n' = Some (File c') ->
        fs w' !! child SOURCE_FOLDER n' = Some (File c')).
  { intros st0 w0 Hn Hlock.
    pose proof (organize_item_outcome (child SOURCE_FOLDER n) st0 w0) as Hout.
    destruct (item_locked_raises _ _ _ _ _ Hout Hn) as (e & w' & Hr & Hkeep);
      [by rewrite name_child | done |].
    exists e, w'. split; [done|]. intros n' c' Hn'.
    destruct (decide (n' = n)) as [->|Hne]; [congruence|].
    rewrite Hr in Hout.
    apply (item_step_keeps _ _ _ _ _ _ Hout (Hneq _ _ Hne) Hn'). }
  revert st w Hn0 Hlock0.
  induction pre as [|h pre IH]; intros st w Hn Hlock;
    cbn [app map foreach]; unfold bind.
  - destruct (Hhere st w Hn Hlock) as (e & w' & -> & Hkeep).
    exists e, w'. split; [done|]. intros n' c' _. apply Hkeep.
  - destruct (decide (h = n)) as [->|Hhn].
    + destruct (Hhere st w Hn Hlock) as (e & w' & -> & Hkeep).
      exists e, w'. split; [done|]. intros n' c' _. apply Hkeep.
    + pose proof (organize_item_outcome (child SOURCE_FOLDER h) st w) as Hout.
      assert (Hn_h : n <> h) by congruence.
      pose proof (item_step_keeps _ _ _ _ _ _ Hout (Hneq _ _ Hn_h) Hn)
        as [Hn1 Hl1].
      destruct (organize_item SOURCE_FOLDER (child SOURCE_FOLDER h) st w)
        as [st' w1|e w1] eqn:E; cbn [world_of] in *.
      * rewrite <- Hl1 in Hlock.
        destruct (IH st' w1 Hn1 Hlock) as (e & w' & Hr & Hkeep).
        exists e, w'. split; [done|]. intros n' c' Hnin Hn'.
        apply not_elem_of_cons in Hnin as [Hne Hnin].
        apply Hkeep; [done|].
        apply (item_step_keeps _ _ _ _ _ _ Hout (Hneq _ _ Hne) Hn').
      * exists e, w1. split; [done|]. intros n' c' Hnin Hn'.
        apply not_elem_of_cons in Hnin as [Hne Hnin].
        apply (item_step_keeps _ _ _ _ _ _ Hout (Hneq _ _ Hne) Hn').
Qed.

Lemma scanned_root_files m0 moves m n c :
  scanned SOURCE_FOLDER m0 moves m ->
  m !! child SOURCE_FOLDER n = Some (File c) ->
  m0 !! child SOURCE_FOLDER n = Some (File c).
Proof.
  induction 1 as [|moves m cat Hs IH Hcat Hnone
                  |moves m n' cat x c' Hs IH Hcat Hn Hren Hitem Hdir Hfree];
    [done| |].
  - destruct (decide (child SOURCE_FOLDER cat = child SOURCE_FOLDER n))
      as [->|Hne].
    + by rewrite lookup_insert_eq.
    + by rewrite lookup_insert_ne.
  - rewrite lookup_insert_ne by apply grandchild_neq.
    destruct (decide (child SOURCE_FOLDER n' = child SOURCE_FOLDER n))
      as [->|Hne].
    + by rewrite lookup_delete_eq.
    + by rewrite lookup_delete_ne.
Qed.

Lemma scanned_unrecorded m0 moves m n c :
  scanned SOURCE_FOLDER m0 moves m ->
  m0 !! child SOURCE_FOLDER n = Some (File c) ->
  child SOURCE_FOLDER n ∉ map snd moves ->
  m !! child SOURCE_FOLDER n = Some (File c).
Proof.
  intros Hs H0.
  induction Hs as [|moves m cat Hs IH Hcat Hnone
                   |moves m n' cat x c' Hs IH Hcat Hn Hren Hitem Hdir Hfree];
    intros Hnot; [done| |].
  - rewrite lookup_insert_ne; [by apply IH|].
    intros E. rewrite E in Hnone. by rewrite IH in Hnone.
  - rewrite map_app in Hnot. cbn in Hnot.
    apply not_elem_of_app in Hnot as [Hold Hnew].
    apply not_elem_of_cons in Hnew as [Hnew _].
    rewrite lookup_insert_ne by apply grandchild_neq.
    rewrite lookup_delete_ne by done. by apply IH.
Qed.

Lemma scanned_records m0 moves m :
  scanned SOURCE_FOLDER m0 moves m ->
  NoDup (map snd moves) /\
  NoDup (map fst moves) /\
  Forall (recorded SOURCE_FOLDER m0 m) moves.
Proof.
  induction 1 as [|moves m cat Hs IH Hcat Hnone
                  |moves m n cat x c Hs IH Hcat Hn Hren Hitem Hdir Hfree].
  - repeat split; constructor.
  - destruct IH as (Ho & Hd & Hr). repeat split; try done.
    eapply Forall_impl; [exact Hr|].
    intros mv (n & cat' & x & c & E2 & E1 & Hc' & Hren & H0 & H1 & H2).
    exists n, cat', x, c. repeat split; try done.
    + rewrite lookup_insert_ne; [done|]. rewrite E1.
      apply child_neq_grandchild.
    + intros c0. destruct (decide (child SOURCE_FOLDER cat = mv.2)) as [->|Hne].
      * by rewrite lookup_insert_eq.
      * rewrite lookup_insert_ne by done. apply H2.
  - destruct IH as (Ho & Hd & Hr).
    assert (Hfresh_o : child SOURCE_FOLDER n ∉ map snd moves).
    { intros Hin. apply list_elem_of_fmap in Hin as (mv & E & Hin).
      rewrite Forall_forall in Hr.
      destruct (Hr _ Hin) as (_ & _ & _ & c0 & _ & _ & _ & _ & _ & _ & H2).
      rewrite <- E in H2. by apply (H2 c). }
    assert (Hfresh_d : child (child SOURCE_FOLDER cat) x ∉ map fst moves).
    { intros Hin. apply list_elem_of_fmap in Hin as (mv & E & Hin).
      rewrite Forall_forall in Hr.
      destruct (Hr _ Hin) as (_ & _ & _ & c0 & _ & _ & _ & _ & _ & H1 & _).
      rewrite <- E in H1. congruence. }
    rewrite !map_app. cbn [map fst snd].
    repeat split.
    + apply NoDup_app. repeat split; [done| |apply NoDup_singleton].
      intros p Hp Hp'. apply list_elem_of_singleton in Hp'. by subst.
    + apply NoDup_app. repeat split; [done| |apply NoDup_singleton].
      intros p Hp Hp'. apply list_elem_of_singleton in Hp'. by subst.
    + apply Forall_app. split.
      * eapply Forall_impl; [exact Hr|].
        intros mv (n' & cat' & x' & c' & E2 & E1 & Hc' & Hren' & H0 & H1 & H2).
        exists n', cat', x', c'. repeat split; try done.
        -- rewrite lookup_insert_ne by congruence.
           rewrite lookup_delete_ne; [done|]. rewrite E1.
           apply child_neq_grandchild.
        -- intros c0. rewrite lookup_insert_ne.
           ++ destruct (decide (child SOURCE_FOLDER n = mv.2)) as [->|Hne].
              ** by rewrite lookup_delete_eq.
              ** rewrite lookup_delete_ne by done. apply H2.
           ++ rewrite E2. apply grandchild_neq.
      * apply Forall_singleton. exists n, cat, x, c. cbn [fst snd].
        repeat split; try done.
        -- by eapply scanned_root_files.
        -- apply lookup_insert_eq.
        -- intros c0. rewrite lookup_insert_ne by apply grandchild_neq.
           by rewrite lookup_delete_eq.
Qed.

Lemma log_ready_lookup w m0 p :
  log_ready SOURCE_FOLDER w m0 ->
  p <> LOG_FOLDER SOURCE_FOLDER -> m0 !! p = fs w !! p.
Proof. intros [Hl|Hn Hs] Hp; [done|]. by rewrite lookup_insert_ne. Qed.

Lemma log_ready_file w m0 p c :
  log_ready SOURCE_FOLDER w m0 ->
  m0 !! p = Some (File c) <-> fs w !! p = Some (File c).
Proof.
  intros [Hl|Hn Hs]; [done|].
  destruct (decide (LOG_FOLDER SOURCE_FOLDER = p)) as [<-|Hne].
  - rewrite lookup_insert_eq, Hn. split; congruence.
  - by rewrite lookup_insert_ne.
Qed.


(** ** The claims on [organize] *)

Lemma organize_raise_no_ledger entries w e w' :
  organize SOURCE_FOLDER all_categories entries w = Raise e w' ->
  fs w' !! UNDO_FILE SOURCE_FOLDER = fs w !! UNDO_FILE SOURCE_FOLDER.
Proof.
  intros Hr. pose proof (organize_outcome entries w) as H.
  rewrite Hr in H. destruct H as (moves & m0 & Hm0 & Hs & Hl).
  rewrite (UNDO_FILE_frame _ _ _ Hs).
  destruct Hm0 as [->|Hready]; [done|].
  apply (log_ready_lookup w); [done|]. apply child_neq.
Qed.

(** Whatever the run of [organize], a folder stays a folder where it
    is, and the entry named [organizer.py] is as it was. *)
Lemma organize_keeps_folders entries w p :
  fs w !! p = Some Dir \/ p = child SOURCE_FOLDER (lit "organizer.py") ->
  fs (world_of (organize SOURCE_FOLDER all_categories entries w)) !! p
  = fs w !! p.
Proof.
  intros Hp.
  pose proof (organize_outcome entries w) as H.
  assert (Hscan : forall moves m0 m1,
    (m0 = fs w \/ log_ready SOURCE_FOLDER w m0) ->
    scanned SOURCE_FOLDER m0 moves m1 ->
    m1 !! p = fs w !! p).
  { intros moves m0 m1 Hm0 Hs.
    destruct Hp as [Hdir| ->].
    - rewrite Hdir. apply (scanned_dirs _ _ _ _ Hs).
      destruct Hm0 as [->|[Hl|Hn Hsrc]]; try done.
      rewrite lookup_insert_ne; [done|]. congruence.
    - rewrite (scanned_self _ _ _ Hs).
      destruct Hm0 as [->|Hready]; [done|].
      apply (log_ready_lookup w); [done|].
      unfold LOG_FOLDER. intros E. by apply child_inj in E as [_ E]. }
  destruct (organize SOURCE_FOLDER all_categories entries w) as [u w'|e w'];
    cbn [world_of].
  - destruct H as (moves & cc & m0 & m1 & Hready & Hsrc & Hs & Hnd & Hfs
                   & Hl & Hc).
    rewrite Hfs.
    destruct (decide (UNDO_FILE SOURCE_FOLDER = p)) as [<-|Hne].
    + exfalso. destruct Hp as [Hdir|E].
      * apply Hnd. rewrite (UNDO_FILE_frame _ _ _ Hs).
        rewrite (log_ready_lookup w _ _ Hready); [done|]. apply child_neq.
      * by apply grandchild_neq in E.
    + rewrite lookup_insert_ne by done.
      apply (Hscan moves m0 m1); [by right | done].
  - destruct H as (moves & m0 & Hm0 & Hs & Hl).
    by apply (Hscan moves m0).
Qed.

(** C2, as the source has it: nothing catches the failure of a move.
    When a regular file listed in the folder, other than
    [organizer.py], is locked, the run raises (at that file or
    before); no undo file is written, and the files listed from that
    entry on, the locked one among them, are not processed: they stay
    where they were. *)
Theorem C2_failed_move_aborts pre n post w c :
  fs w !! child SOURCE_FOLDER n = Some (File c) ->
  n <> lit "organizer.py" ->
  child SOURCE_FOLDER n ∈ locked w ->
  exists e w',
    organize SOURCE_FOLDER all_categories (pre ++ n :: post) w = Raise e w' /\
    fs w' !! UNDO_FILE SOURCE_FOLDER = fs w !! UNDO_FILE SOURCE_FOLDER /\
    forall n' c', n' ∉ pre ->
      fs w !! child SOURCE_FOLDER n' = Some (File c') ->
      fs w' !! child SOURCE_FOLDER n' = Some (File c').
Proof.
  intros Hn Hname Hlock.
  assert (Hraise : exists e w',
    organize SOURCE_FOLDER all_categories (pre ++ n :: post) w = Raise e w' /\
    forall n' c', n' ∉ pre ->
      fs w !! child SOURCE_FOLDER n' = Some (File c') ->
      fs w' !! child SOURCE_FOLDER n' = Some (File c')).
  { unfold organize. unfold bind at 1. unfold ensure_log_folder, mkdir_exist_ok.
    assert (Hrun : forall m0, log_ready SOURCE_FOLDER w m0 ->
      exists e w',
        (log SOURCE_FOLDER (Starting SOURCE_FOLDER);;
         items <- iterdir SOURCE_FOLDER (pre ++ n :: post);;
         st <- foreach (organize_item SOURCE_FOLDER) items ([], []);;
         category_count <-
           foreach (report_empty SOURCE_FOLDER) all_categories st.2;;
         log SOURCE_FOLDER (Complete (sum_values category_count));;
         write_text (UNDO_FILE SOURCE_FOLDER) (ledger_text st.1);;
         log SOURCE_FOLDER UndoSaved) (with_fs w m0) = Raise e w' /\
        forall n' c', n' ∉ pre ->
          fs w !! child SOURCE_FOLDER n' = Some (File c') ->
          fs w' !! child SOURCE_FOLDER n' = Some (File c')).
    { intros m0 Hready.
      assert (Hlog0 : m0 !! LOG_FOLDER SOURCE_FOLDER = Some Dir).
      { destruct Hready; [done | apply lookup_insert_eq]. }
      assert (Hm0 : forall n' c',
        fs w !! child SOURCE_FOLDER n' = Some (File c') ->
        m0 !! child SOURCE_FOLDER n' = Some (File c')).
      { intros n' c'. by apply log_ready_file. }
      unfold bind at 1. rewrite log_spec. cbn [fs with_fs]. rewrite Hlog0.
      unfold bind at 1. unfold iterdir at 1. cbn [fs].
      destruct (m0 !! SOURCE_FOLDER) as [[c0|]|] eqn:Hsrc;
        try (eexists _, _; split; [done|]; intros n' c' _; apply Hm0).
      unfold bind at 1.
      match goal with |- context [foreach _ _ ?st0 ?w1] =>
        destruct (scan_locked pre n post st0 w1 c) as (e & w' & -> & Hkeep)
      end; cbn [fs locked]; try done; [by apply Hm0|].
      exists e, w'. split; [done|]. intros n' c' Hnin Hn'.
      apply Hkeep; [done|]. cbn [fs]. by apply Hm0. }
    destruct (fs w !! LOG_FOLDER SOURCE_FOLDER) as [[c0|]|] eqn:Hlog.
    - by eexists _, _.
    - specialize (Hrun (fs w) (log_there _ _ Hlog)).
      by rewrite with_fs_id in Hrun.
    - unfold LOG_FOLDER at 1. rewrite parent_child.
      destruct (fs w !! SOURCE_FOLDER) as [[c0|]|] eqn:Hsrc;
        try by eexists _, _.
      apply Hrun. by apply log_made. }
  destruct Hraise as (e & w' & Hr & Hkeep). exists e, w'.
  repeat split; try done. by eapply organize_raise_no_ledger.
Qed.

(** A locked file of the listing stops the run. *)
Lemma locked_file_stops_the_run pre n post w c :
  fs w !! child SOURCE_FOLDER n = Some (File c) ->
  n <> lit "organizer.py" ->
  child SOURCE_FOLDER n ∈ locked w ->
  exists e w',
    organize SOURCE_FOLDER all_categories (pre ++ n :: post) w = Raise e w' /\
    fs w' !! UNDO_FILE SOURCE_FOLDER = fs w !! UNDO_FILE SOURCE_FOLDER.
Proof.
  intros Hn Hname Hlock.
  assert (Hraise : exists e w',
    organize SOURCE_FOLDER all_categories (pre ++ n :: post) w = Raise e w').
  { unfold organize. unfold bind at 1. unfold ensure_log_folder, mkdir_exist_ok.
    assert (Hrun : forall m0, log_ready SOURCE_FOLDER w m0 ->
      exists e w',
        (log SOURCE_FOLDER (Starting SOURCE_FOLDER);;
         items <- iterdir SOURCE_FOLDER (pre ++ n :: post);;
         st <- foreach (organize_item SOURCE_FOLDER) items ([], []);;
         category_count <-
           foreach (report_empty SOURCE_FOLDER) all_categories st.2;;
         log SOURCE_FOLDER (Complete (sum_values category_count));;
         write_text (UNDO_FILE SOURCE_FOLDER) (ledger_text st.1);;
         log SOURCE_FOLDER UndoSaved) (with_fs w m0) = Raise e w').
    { intros m0 Hready.
      assert (Hlog0 : m0 !! LOG_FOLDER SOURCE_FOLDER = Some Dir).
      { destruct Hready; [done | apply lookup_insert_eq]. }
      assert (Hm0 : m0 !! child SOURCE_FOLDER n = Some (File c)).
      { by apply (log_ready_file w). }
      unfold bind at 1. rewrite log_spec. cbn [fs with_fs]. rewrite Hlog0.
      unfold bind at 1. unfold iterdir at 1. cbn [fs].
      destruct (m0 !! SOURCE_FOLDER) as [[c0|]|] eqn:Hsrc;
        try (by eexists _, _).
      unfold bind at 1.
      match goal with |- context [foreach _ _ ?st0 ?w1] =>
        destruct (scan_locked pre n post st0 w1 c) as (e & w' & -> & _)
      end; cbn [fs locked]; try done.
      by exists e, w'. }
    destruct (fs w !! LOG_FOLDER SOURCE_FOLDER) as [[c0|]|] eqn:Hlog.
    - by eexists _, _.
    - specialize (Hrun (fs w) (log_there _ _ Hlog)).
      by rewrite with_fs_id in Hrun.
    - unfold LOG_FOLDER at 1. rewrite parent_child.
      destruct (fs w !! SOURCE_FOLDER) as [[c0|]|] eqn:Hsrc;
        try by eexists _, _.
      apply Hrun. by apply log_made. }
  destruct Hraise as (e & w' & Hr). exists e, w'.
  split; [done|]. by eapply organize_raise_no_ledger.
Qed.

(** C4, as the source has it.  A run of [organize] that returns leaves
    in the undo file the text made of one line per move, in the order
    of the moves, each line the new path, a bar, the old path and a
    line feed; when no path holds a line break, the file has these
    lines and no other, as many as the records.  The run printed one
    MOVED line per record, in that order, and reported their number;
    every record is a regular file of the folder that is now under a
    category folder, no file has two records, and a file without a
    record is still in place.  A run that raises writes no undo file:
    what was at its path is still there; and a run whose listing holds
    a regular file that cannot be moved, because it is locked, does
    raise. *)
Theorem C4_ledger_of_a_run entries w :
  match organize SOURCE_FOLDER all_categories entries w with
  | Ok _ w' =>
      exists moves category_count text,
        fs w' !! UNDO_FILE SOURCE_FOLDER = Some (File text) /\
        text = concat (map (fun mv => str_path mv.1 ++ "|"%char
                                        :: str_path mv.2 ++ ["010"%char])
                           moves) /\
        (Forall (fun mv => no_newline (str_path mv.1) /\
                           no_newline (str_path mv.2)) moves ->
         file_lines text
           = map (fun mv => str_path mv.1 ++ "|"%char :: str_path mv.2) moves
             ++ [[]]) /\
        console w' =
          console w ++ Starting SOURCE_FOLDER :: map moved_msg moves
            ++ empty_reports all_categories category_count
            ++ [Complete (length moves); UndoSaved] /\
        NoDup (map snd moves) /\
        Forall (fun mv => exists c,
                  fs w !! mv.2 = Some (File c) /\
                  fs w' !! mv.1 = Some (File c) /\
                  not_file (fs w' !! mv.2)) moves /\
        forall n c,
          fs w !! child SOURCE_FOLDER n = Some (File c) ->
          child SOURCE_FOLDER n ∉ map snd moves ->
          fs w' !! child SOURCE_FOLDER n = Some (File c)
  | Raise _ w' =>
      fs w' !! UNDO_FILE SOURCE_FOLDER = fs w !! UNDO_FILE SOURCE_FOLDER
  end /\
  forall pre n post c,
    entries = pre ++ n :: post ->
    fs w !! child SOURCE_FOLDER n = Some (File c) ->
    n <> lit "organizer.py" ->
    child SOURCE_FOLDER n ∈ locked w ->
    exists e w',
      organize SOURCE_FOLDER all_categories entries w = Raise e w' /\
      fs w' !! UNDO_FILE SOURCE_FOLDER = fs w !! UNDO_FILE SOURCE_FOLDER.
Proof.
  split; [|intros pre n post c ->; apply locked_file_stops_the_run].
  pose proof (organize_outcome entries w) as H.
  destruct (organize SOURCE_FOLDER all_categories entries w)
    as [u w'|e w'] eqn:Hrun.
  - destruct H as (moves & cc & m0 & m1 & Hready & Hsrc & Hs & Hnd & Hfs
                   & Hl & Hc).
    destruct (scanned_records _ _ _ Hs) as (Ho & Hd & Hr).
    exists moves, cc, (ledger_text moves). rewrite Hfs.
    split; [apply lookup_insert_eq|]. split; [reflexivity|].
    split; [|split; [done|]; split; [done|]; split].
    + intros Hnl. apply (file_lines_ledger moves).
      eapply Forall_impl; [exact Hnl|].
      intros mv [[H1 H2] [H3 H4]]. unfold record_body. split.
      * rewrite not_elem_of_app, not_elem_of_cons. by repeat split.
      * rewrite not_elem_of_app, not_elem_of_cons. by repeat split.
    + eapply Forall_impl; [exact Hr|].
      intros mv (n & cat & x & c & E2 & E1 & Hcat & Hren & H0 & H1 & H2).
      exists c. repeat split.
      * by apply (log_ready_file w m0).
      * rewrite lookup_insert_ne; [done|]. rewrite E1.
        unfold UNDO_FILE, LOG_FOLDER. intros E.
        apply child_inj in E as [E _]. apply child_inj in E as [_ <-].
        by apply Sort_Logs_not_category.
      * rewrite lookup_insert_ne; [done|]. rewrite E2.
        apply grandchild_neq.
    + intros n c Hn Hnot.
      rewrite lookup_insert_ne by apply grandchild_neq.
      eapply scanned_unrecorded; [exact Hs| |done].
      by apply (log_ready_file w m0).
  - by eapply organize_raise_no_ledger.
Qed.


(** A round of the scan changes no entry that is there, apart from the
    item it moves. *)
Lemma item_step_preserves item st w r p :
  item_outcome SOURCE_FOLDER item st w r ->
  p <> item -> is_Some (fs w !! p) ->
  fs (world_of r) !! p = fs w !! p.
Proof.
intros Hout Hne Hp.
assert (Hm : forall m, folder_ready SOURCE_FOLDER w item m ->
                       m !! p = fs w !! p).
{ intros m [Hdir|Hnone Hsrc]; [done|].
  rewrite lookup_insert_ne; [done|]. intros E. rewrite <- E, Hnone in Hp.
  by destruct Hp. }
destruct Hout as [Hskip|e c0 Hitem Hname Hno|c0 m Hitem Hname Hready Hlock
  |c0 m x r Hitem Hname Hready Hfd Hfree Hlock category dest_path w' ->];
  cbn [world_of fs with_fs]; try done.
- by apply Hm.
- assert (Hw' : fs w' !! p = fs w !! p).
  { subst w'. cbn [fs moved_world].
    rewrite lookup_insert_ne.
    - rewrite lookup_delete_ne by done. by apply Hm.
    - intros E. subst dest_path category. subst p.
      rewrite <- (Hm m Hready), Hfree in Hp. by destruct Hp. }
  destruct (fs w' !! LOG_FOLDER SOURCE_FOLDER) as [[|]|];
    by cbn [world_of fs logged_world].
Qed.

Lemma organize_item_collision item st w c :
  fs w !! item = Some (File c) ->
  name item <> lit "organizer.py" ->
  let category := get_category (suffix item) in
  let dest_folder := child SOURCE_FOLDER category in
  fs w !! dest_folder = Some Dir ->
  is_Some (fs w !! child dest_folder (name item)) ->
  exists N,
    1 <= N /\
    let new_name := stem item ++ "_"%char :: str_of_nat N ++ suffix item in
    let dest_path := child dest_folder new_name in
    stem item ++ suffix item = name item /\
    free_dest dest_folder item w = Ok dest_path w /\
    fs w !! dest_path = None /\
    (forall k, 1 <= k < N ->
       is_Some (fs w !! child dest_folder
                  (stem item ++ "_"%char :: str_of_nat k ++ suffix item))) /\
    (item ∉ locked w ->
     fs w !! LOG_FOLDER SOURCE_FOLDER = Some Dir ->
     organize_item SOURCE_FOLDER item st w
       = Ok (st.1 ++ [(dest_path, item)], incr category st.2)
            (logged_world
               (moved_world w (fs w) item dest_path c
                  (Moved (name item) category))
               (Moved (name item) category))) /\
    (forall p, p <> item -> is_Some (fs w !! p) ->
       fs (world_of (organize_item SOURCE_FOLDER item st w)) !! p = fs w !! p).
Proof.
intros Hitem Hname category dest_folder Hdir Hbusy.
destruct (free_dest_spec dest_folder item w)
  as [[Hn _]|[_ (N & HN & Hfd & Hfree & Hk)]].
{ rewrite Hn in Hbusy. by destruct Hbusy. }
exists N. split; [done|]. cbn zeta.
fold (numbered dest_folder item N).
split; [apply stem_suffix|]. do 3 (split; [done|]). split.
- intros Hlock Hlog.
  unfold organize_item. unfold bind at 1. unfold is_file at 1.
  rewrite Hitem. rewrite bool_decide_eq_false_2 by done. cbn [andb negb].
  fold category. fold dest_folder.
  unfold bind at 1. unfold mkdir_exist_ok at 1. rewrite Hdir.
  rewrite (bind_Ok _ _ _ _ _ Hfd).
  unfold bind at 1. unfold shutil_move. rewrite Hfree, Hitem. cbn [andb].
  rewrite bool_decide_eq_false_2 by done.
  unfold numbered at 1. rewrite parent_child, Hdir.
  unfold bind at 1. rewrite log_spec. cbn [fs with_fs].
  rewrite lookup_insert_ne by congruence.
  rewrite lookup_delete_ne by congruence. rewrite Hlog.
  reflexivity.
- intros p Hne Hp. eapply item_step_preserves; [|done|done].
  apply organize_item_outcome.
Qed.

(** C6: without an undo file, [undo] prints that there is nothing to
    undo and returns; the tree, the locks and the session log are as
    they were. *)
Theorem C6_undo_without_ledger w :
  fs w !! UNDO_FILE SOURCE_FOLDER = None ->
  undo SOURCE_FOLDER w
    = Ok tt (mkWorld (fs w) (locked w) (console w ++ [NothingToUndo])
                     (session_log w)).
Proof.
  intros H. unfold undo, bind, path_exists. rewrite H.
  rewrite bool_decide_eq_false_2; [done|]. by intros [x Hx].
Qed.


(** ** One record of [undo] *)


Lemma restore_file new_path old_path count w c :
fs w !! new_path = Some (File c) ->
new_path ∉ locked w ->
fs w !! parent old_path = Some Dir ->
fs w !! old_path <> Some Dir ->
restore new_path old_path count w
  = Ok (count + 1)
       (mkWorld (<[old_path := File c]> (delete new_path (fs w)))
                (locked w) (console w ++ [Restored (name old_path)])
                (session_log w)).
Proof.
intros Hnew Hlock Hpar Hold.
unfold restore. unfold bind at 1. unfold path_exists at 1. rewrite Hnew.
rewrite bool_decide_eq_true_2 by by eexists.
unfold bind at 1. unfold mkdir_exist_ok at 1. rewrite Hpar.
unfold bind at 1. unfold shutil_move.
assert (Hinto : match fs w !! old_path with Some Dir => true | _ => false end
                = false).
{ by destruct (fs w !! old_path) as [[|]|]. }
rewrite Hinto. cbn [andb]. rewrite Hnew.
rewrite bool_decide_eq_false_2 by done. rewrite Hpar.
reflexivity.
Qed.

Lemma undo_line_record line a b count w :
parse_line line = Record a b ->
undo_line line count w = restore (Path_of_str a) (Path_of_str b) count w.
Proof. intros H. unfold undo_line. by rewrite H. Qed.



(** ** The records of [undo] *)

Lemma restorable_tail m held mv moves mv' :
restorable m held (mv :: moves) mv' -> restorable m held moves mv'.
Proof.
intros (c & H1 & H2 & H3 & H4 & H5 & H6 & H7). exists c.
cbn [map] in H5, H6, H7.
apply not_elem_of_cons in H5 as [_ H5].
apply not_elem_of_cons in H6 as [_ H6].
apply not_elem_of_cons in H7 as [_ H7]. done.
Qed.

Lemma undo_records moves : forall w count,
NoDup (map fst moves) ->
NoDup (map snd moves) ->
Forall readable moves ->
Forall (restorable (fs w) (locked w) moves) moves ->
exists w',
  foreach undo_line (map record_body moves) count w
    = Ok (count + length moves) w' /\
  locked w' = locked w /\
  console w' = console w ++ map restored_msg moves /\
  session_log w' = session_log w /\
  Forall (fun mv => fs w' !! mv.2 = fs w !! mv.1 /\ fs w' !! mv.1 = None)
         moves /\
  forall p, p ∉ map fst moves -> p ∉ map snd moves ->
            fs w' !! p = fs w !! p.
Proof.
induction moves as [|[d o] moves IH]; intros w count Hd Ho Hread Hrest.
- exists w. cbn. rewrite app_nil_r, Nat.add_0_r. by repeat split.
- cbn [map fst snd] in Hd, Ho.
  apply NoDup_cons in Hd as [Hd_new Hd].
  apply NoDup_cons in Ho as [Ho_new Ho].
  apply Forall_cons in Hread as [(Hnl & Hparse & Hpd & Hpo) Hread].
  pose proof Hrest as Hrest_all.
  apply Forall_cons in Hrest as [(c & H1 & H2 & H3 & H4 & H5 & H6 & H7) Hrest].
  cbn [fst snd map] in *.
  apply not_elem_of_cons in H5 as [Hdo H5].
  apply not_elem_of_cons in H6 as [Hpd' H6].
  apply not_elem_of_cons in H7 as [Hpo' H7].
  set (w1 := mkWorld (<[o := File c]> (delete d (fs w))) (locked w)
                     (console w ++ [Restored (name o)]) (session_log w)).
  assert (Hstep : undo_line (record_body (d, o)) count w = Ok (count + 1) w1).
  { rewrite (undo_line_record _ _ _ _ _ Hparse). cbn [fst snd].
    rewrite Hpd, Hpo. apply restore_file; try done. by rewrite H2. }
  assert (Hkeep : forall p, p <> d -> p <> o -> fs w1 !! p = fs w !! p).
  { intros p Hp1 Hp2. cbn [fs w1].
    rewrite lookup_insert_ne by done. by rewrite lookup_delete_ne. }
  assert (Hrest1 : Forall (restorable (fs w1) (locked w1) moves) moves).
  { rewrite Forall_forall in Hrest. apply Forall_forall. intros mv Hin.
    destruct (Hrest mv Hin) as (c' & G1 & G2 & G3 & G4 & G5 & G6 & G7).
    cbn [map] in G5, G6, G7.
    apply not_elem_of_cons in G5 as [G5o G5].
    apply not_elem_of_cons in G6 as [G6d G6].
    apply not_elem_of_cons in G7 as [G7o G7].
    assert (Hmv1 : mv.1 ∈ map fst moves) by (apply list_elem_of_fmap; eauto).
    assert (Hmv2 : mv.2 ∈ map snd moves) by (apply list_elem_of_fmap; eauto).
    exists c'. repeat split; try done.
    - rewrite Hkeep; [done| |done]. intros E. apply Hd_new. by rewrite <- E.
    - rewrite Hkeep; [done| |].
      + intros E. apply H5. by rewrite <- E.
      + intros E. apply Ho_new. by rewrite <- E.
    - rewrite Hkeep; done. }
  assert (Ho_d : o ∉ map fst moves).
  { intros Hin. apply list_elem_of_fmap in Hin as (mv & E & Hin).
    rewrite Forall_forall in Hrest.
    destruct (Hrest mv Hin) as (c' & G1 & G2 & G3 & G4 & G5 & G6 & G7).
    cbn [map] in G5. apply not_elem_of_cons in G5 as [G5o G5]. done. }
  destruct (IH w1 (count + 1) Hd Ho Hread Hrest1)
    as (w' & Hrun & Hl & Hc & Hlog & Hall & Hframe).
  exists w'. cbn [foreach length]. unfold bind. rewrite Hstep.
  replace (count + S (length moves)) with (count + 1 + length moves) by lia.
  repeat split; try done.
  + rewrite Hc. cbn [console w1]. by rewrite <- app_assoc.
  + apply Forall_cons. split.
    * cbn [fst snd]. split.
      -- rewrite Hframe; [|done|done]. cbn [fs w1].
         rewrite lookup_insert_eq. done.
      -- rewrite Hframe; [|done|done]. cbn [fs w1].
         rewrite lookup_insert_ne by congruence.
         apply lookup_delete_eq.
    * rewrite Forall_forall in Hall, Hrest. apply Forall_forall.
      intros mv Hin. destruct (Hall mv Hin) as [A1 A2].
      split; [|done]. rewrite A1.
      destruct (Hrest mv Hin) as (c' & G1 & G2 & G3 & G4 & G5 & G6 & G7).
      cbn [map] in G5. apply not_elem_of_cons in G5 as [G5o G5].
      apply Hkeep; [|done].
      intros E. apply Hd_new. rewrite <- E. apply list_elem_of_fmap; eauto.
  + intros p Hp1 Hp2.
    apply not_elem_of_cons in Hp1 as [Hp1 Hp1'].
    apply not_elem_of_cons in Hp2 as [Hp2 Hp2'].
    rewrite Hframe by done. by apply Hkeep.
Qed.


(** ** Pruning the category folders *)

Lemma no_entries_delete (p k : Path) (m : gmap Path node) :
~ entry_of p k -> no_entries p (delete k m) <-> no_entries p m.
Proof.
intros Hk. unfold no_entries, map_Forall. split; intros H q x Hq.
- destruct (decide (q = k)) as [->|Hne]; [done|].
  apply (H q x). by rewrite lookup_delete_ne.
- destruct (decide (q = k)) as [->|Hne].
  + by rewrite lookup_delete_eq in Hq.
  + rewrite lookup_delete_ne in Hq by done. by apply (H q x).
Qed.

Lemma remove_if_empty_here cat w :
fs w !! child SOURCE_FOLDER cat = Some Dir ->
no_entries (child SOURCE_FOLDER cat) (fs w) ->
remove_if_empty SOURCE_FOLDER cat tt w
  = Ok tt (with_fs w (delete (child SOURCE_FOLDER cat) (fs w))).
Proof.
intros Hdir Hempty.
unfold remove_if_empty, bind, path_exists, any_iterdir, rmdir.
repeat first
  [ rewrite Hdir
  | rewrite bool_decide_eq_true_2 by (done || by eexists)
  | progress cbn [negb]
  | progress cbv beta iota ].
done.
Qed.

Lemma remove_if_empty_skip cat w :
not_file (fs w !! child SOURCE_FOLDER cat) ->
~ (fs w !! child SOURCE_FOLDER cat = Some Dir /\
   no_entries (child SOURCE_FOLDER cat) (fs w)) ->
remove_if_empty SOURCE_FOLDER cat tt w = Ok tt w.
Proof.
intros Hnf Hno.
unfold remove_if_empty, bind, path_exists, any_iterdir.
destruct (fs w !! child SOURCE_FOLDER cat) as [[c|]|] eqn:E.
- by destruct (Hnf c).
- rewrite bool_decide_eq_true_2 by by eexists.
  rewrite E. rewrite bool_decide_eq_false_2; [done|].
  intros H. by apply Hno.
- rewrite bool_decide_eq_false_2; [done|]. by intros [x Hx].
Qed.

Lemma prune_spec cats : forall w,
NoDup cats ->
(forall cat, cat ∈ cats -> not_file (fs w !! child SOURCE_FOLDER cat)) ->
exists w',
  foreach (remove_if_empty SOURCE_FOLDER) cats tt w = Ok tt w' /\
  locked w' = locked w /\ console w' = console w /\
  session_log w' = session_log w /\
  (forall p, (forall cat, cat ∈ cats -> p <> child SOURCE_FOLDER cat) ->
             fs w' !! p = fs w !! p) /\
  (forall cat, cat ∈ cats ->
     (fs w !! child SOURCE_FOLDER cat = Some Dir ->
      no_entries (child SOURCE_FOLDER cat) (fs w) ->
      fs w' !! child SOURCE_FOLDER cat = None) /\
     (~ (fs w !! child SOURCE_FOLDER cat = Some Dir /\
         no_entries (child SOURCE_FOLDER cat) (fs w)) ->
      fs w' !! child SOURCE_FOLDER cat = fs w !! child SOURCE_FOLDER cat)).
Proof.
induction cats as [|cat cats IH]; intros w Hnd Hnf.
- exists w. do 5 (split; [done|]). intros c0 Hc0. by apply elem_of_nil in Hc0.
- apply NoDup_cons in Hnd as [Hnew Hnd].
  assert (Hstep : exists w1,
    remove_if_empty SOURCE_FOLDER cat tt w = Ok tt w1 /\
    locked w1 = locked w /\ console w1 = console w /\
    session_log w1 = session_log w /\
    (forall p, p <> child SOURCE_FOLDER cat -> fs w1 !! p = fs w !! p) /\
    (fs w1 = fs w \/ fs w1 = delete (child SOURCE_FOLDER cat) (fs w)) /\
    (fs w !! child SOURCE_FOLDER cat = Some Dir ->
     no_entries (child SOURCE_FOLDER cat) (fs w) ->
     fs w1 !! child SOURCE_FOLDER cat = None) /\
    (~ (fs w !! child SOURCE_FOLDER cat = Some Dir /\
        no_entries (child SOURCE_FOLDER cat) (fs w)) ->
     fs w1 !! child SOURCE_FOLDER cat = fs w !! child SOURCE_FOLDER cat)).
  { destruct (decide (fs w !! child SOURCE_FOLDER cat = Some Dir /\
                      no_entries (child SOURCE_FOLDER cat) (fs w)))
      as [[Hdir Hempty]|Hno].
    - eexists. split; [by apply remove_if_empty_here|].
      cbn [fs with_fs locked console session_log].
      repeat split; try done.
      + intros p Hp. by rewrite lookup_delete_ne.
      + by right.
      + intros _ _. apply lookup_delete_eq.
      + intros H. by destruct H.
    - exists w. split.
      + apply remove_if_empty_skip; [|done]. apply Hnf, elem_of_cons. by left.
      + repeat split; try done; [by left|]. intros H1 H2. by destruct Hno. }
  destruct Hstep as (w1 & Hrun1 & Hl1 & Hc1 & Hs1 & Hk1 & Hfs1 & Hrm1 & Hst1).
  assert (Hneq : forall cat', cat' ∈ cats ->
            child SOURCE_FOLDER cat' <> child SOURCE_FOLDER cat).
  { intros cat' Hin E. apply child_inj in E as [_ ->]. done. }
  assert (Hempty1 : forall cat', cat' ∈ cats ->
    no_entries (child SOURCE_FOLDER cat') (fs w1)
    <-> no_entries (child SOURCE_FOLDER cat') (fs w)).
  { intros cat' Hin. destruct Hfs1 as [->| ->]; [done|].
    apply no_entries_delete. intros [Hp _].
    rewrite parent_child in Hp. symmetry in Hp. by apply child_neq in Hp. }
  destruct (IH w1 Hnd) as (w' & Hrun & Hl & Hc & Hs & Hk & Hcats).
  { intros cat' Hin. rewrite Hk1 by by apply Hneq.
    apply Hnf, elem_of_cons. by right. }
  exists w'. cbn [foreach]. unfold bind. rewrite Hrun1.
  split; [done|]. do 3 (split; [congruence|]). split.
  + intros p Hp. rewrite Hk.
    * apply Hk1, Hp, elem_of_cons. by left.
    * intros cat' Hin. apply Hp, elem_of_cons. by right.
  + intros c0 Hc0. split.
    * intros Hdir Hempty. apply elem_of_cons in Hc0 as [->|Hin].
      -- rewrite Hk; [by apply Hrm1|]. intros cat' Hin' E.
         by apply (Hneq cat' Hin').
      -- destruct (Hcats c0 Hin) as [Hrm _]. apply Hrm.
         ++ rewrite Hk1; [done|]. by apply Hneq.
         ++ by apply Hempty1.
    * intros Hno. apply elem_of_cons in Hc0 as [->|Hin].
      -- rewrite Hk; [by apply Hst1|]. intros cat' Hin' E.
         by apply (Hneq cat' Hin').
      -- destruct (Hcats c0 Hin) as [_ Hst]. rewrite Hst.
         ++ apply Hk1. by apply Hneq.
         ++ rewrite Hk1 by by apply Hneq. rewrite Hempty1 by done. done.
Qed.


(** ** Names that go through the undo file *)

Lemma filter_keep_all (P : pystr -> Prop) `{!forall x, Decision (P x)}
(l : list pystr) :
Forall P l -> filter P l = l.
Proof.
induction 1 as [|x l Hx Hl IH]; [done|].
rewrite filter_cons_True by done. by rewrite IH.
Qed.

Lemma split_on_join (ps : list pystr) :
ps <> [] -> Forall (fun part => "/"%char ∉ part) ps ->
split_on "/"%char (join ["/"%char] ps) = ps.
Proof.
induction ps as [|p ps IH]; [done|]. intros _ Hall.
apply Forall_cons in Hall as [Hp Hall].
destruct ps as [|q ps].
- cbn [join]. by apply split_on_none.
- change (join ["/"%char] (p :: q :: ps))
    with (p ++ "/"%char :: join ["/"%char] (q :: ps)).
  rewrite split_on_app by done. by rewrite IH.
Qed.

Lemma Path_of_str_str_path (p : Path) :
p.1 = true ->
Forall (fun part => part <> [] /\ part <> ["."%char] /\ "/"%char ∉ part) p.2 ->
Path_of_str (str_path p) = p.
Proof.
destruct p as [a ps]. cbn [fst snd]. intros -> Hall.
unfold Path_of_str, str_path. cbn [fst snd split_on].
rewrite decide_True by done. f_equal.
rewrite filter_cons_False by (vm_compute; discriminate).
destruct (decide (ps = [])) as [->|Hne].
- cbn [join split_on]. by rewrite filter_cons_False by (vm_compute; discriminate).
- rewrite split_on_join; [|done|].
  + apply filter_keep_all. eapply Forall_impl; [exact Hall|].
    intros part (H1 & H2 & _). unfold keep_part.
    rewrite !bool_decide_eq_false_2 by done. done.
  + eapply Forall_impl; [exact Hall|]. by intros part (_ & _ & H3).
Qed.

Lemma Path_of_str_str_path_any (p : Path) :
  Forall (fun part => part <> [] /\ part <> ["."%char] /\ "/"%char ∉ part)
         p.2 ->
  Path_of_str (str_path p) = p.
Proof.
  destruct p as [[|] ps]; [by apply Path_of_str_str_path|].
  cbn [snd]. intros Hparts. unfold str_path. cbn [fst snd].
  destruct ps as [|q ps]; [reflexivity|].
  assert (Hq : exists c q', q = c :: q' /\ c <> "/"%char).
  { inversion Hparts as [|? ? (Hne & _ & Hs) _]; subst.
    destruct q as [|c q']; [done|]. exists c, q'. split; [done|].
    intros ->. apply Hs. by left. }
  destruct Hq as (c & q' & -> & Hc).
  unfold Path_of_str. f_equal.
  - destruct ps as [|r ps]; cbn [join app];
      destruct c as [[] [] [] [] [] [] [] []]; try reflexivity; done.
  - rewrite split_on_join; [|done|].
    + apply filter_keep_all. eapply Forall_impl; [exact Hparts|].
      intros part (H1 & H2 & _). unfold keep_part.
      rewrite !bool_decide_eq_false_2 by done. reflexivity.
    + eapply Forall_impl; [exact Hparts|]. by intros part (_ & _ & H).
Qed.

Lemma join_snoc (sep : pystr) (ps : list pystr) (n : pystr) :
ps <> [] -> join sep (ps ++ [n]) = join sep ps ++ sep ++ n.
Proof.
induction ps as [|p ps IH]; [done|]. intros _.
destruct ps as [|q ps]; [done|].
change (join sep ((p :: q :: ps) ++ [n]))
  with (p ++ sep ++ join sep ((q :: ps) ++ [n])).
change (join sep (p :: q :: ps)) with (p ++ sep ++ join sep (q :: ps)).
rewrite IH by done. by rewrite <- !app_assoc.
Qed.

Lemma str_path_child (p : Path) (n : pystr) :
p.1 = true ->
str_path (child p n)
  = (str_path p ++ match p.2 with [] => [] | _ => ["/"%char] end) ++ n.
Proof.
destruct p as [a ps]. cbn [fst snd]. intros ->.
unfold str_path, child. cbn [fst snd].
destruct ps as [|q ps]; [done|].
rewrite join_snoc by done. cbn [app]. by rewrite <- !app_assoc.
Qed.

Lemma str_path_child_any (p : Path) (n : pystr) :
str_path (child p n)
  = match p.2 with
    | [] => if p.1 then "/"%char :: n else n
    | _ => str_path p ++ "/"%char :: n
    end.
Proof.
destruct p as [a ps]. unfold str_path, child. cbn [fst snd].
destruct ps as [|q ps]; [by destruct a|].
rewrite join_snoc by done.
destruct a; cbn [app]; [done|].
by destruct ps.
Qed.

Lemma str_path_child_end (p : Path) (n : pystr) :
exists a, str_path (child p n) = a ++ n.
Proof.
rewrite str_path_child_any. destruct p as [[|] [|q ps]]; cbn [fst snd].
- by exists ["/"%char].
- exists (str_path (true, q :: ps) ++ ["/"%char]). by rewrite <- app_assoc.
- by exists [].
- exists (str_path (false, q :: ps) ++ ["/"%char]). by rewrite <- app_assoc.
Qed.

Lemma Forall_join (Q : ascii -> Prop) (sep : pystr) (ps : list pystr) :
Forall Q sep -> Forall (Forall Q) ps -> Forall Q (join sep ps).
Proof.
intros Hsep. induction 1 as [|p ps Hp Hps IH]; [constructor|].
destruct ps as [|q ps]; [done|].
change (join sep (p :: q :: ps)) with (p ++ sep ++ join sep (q :: ps)).
rewrite !Forall_app. by repeat split.
Qed.

Lemma str_path_chars (Q : ascii -> Prop) (p : Path) :
p.1 = true -> Q "/"%char -> Forall (Forall Q) p.2 -> Forall Q (str_path p).
Proof.
destruct p as [a ps]. cbn [fst snd]. intros -> Hq Hall.
unfold str_path. cbn [fst snd]. constructor; [done|].
apply Forall_join; [by constructor | done].
Qed.

Lemma str_path_chars_any (Q : ascii -> Prop) (p : Path) :
Q "/"%char -> Q "."%char -> Forall (Forall Q) p.2 -> Forall Q (str_path p).
Proof.
destruct p as [[|] ps]; [intros ? _; by apply str_path_chars|].
cbn [snd]. intros Hs Hd Hall. unfold str_path. cbn [fst snd].
destruct ps as [|q ps]; [by constructor|].
apply Forall_join; [by constructor | done].
Qed.

Lemma category_lstrip cat : cat ∈ category_folders -> lstrip cat = cat.
Proof.
intros Hin.
assert (Hall : Forall (fun cat => lstrip cat = cat) category_folders).
{ apply (bool_decide_unpack _). vm_compute. exact I. }
rewrite Forall_forall in Hall. by apply Hall.
Qed.

Lemma str_of_nat_safe N : Forall safe_char (str_of_nat N).
Proof.
unfold str_of_nat. generalize (Nat.to_uint N) as d.
induction d as [|d IH|d IH|d IH|d IH|d IH|d IH|d IH|d IH|d IH|d IH];
  cbn; constructor; try done; repeat split; discriminate.
Qed.

Lemma category_safe cat :
cat ∈ category_folders ->
cat <> [] /\ cat <> ["."%char] /\ Forall safe_char cat.
Proof.
intros Hin.
assert (Hall : Forall (fun cat => cat <> [] /\ cat <> ["."%char] /\
                                  Forall safe_char cat) category_folders).
{ unfold safe_char. apply (bool_decide_unpack _). vm_compute. exact I. }
rewrite Forall_forall in Hall. by apply Hall.
Qed.

Lemma renamed_safe n x :
good_name n -> renamed n x ->
x <> [] /\ x <> ["."%char] /\ Forall safe_char x.
Proof.
intros (Hne & Hdot & Hsafe & _) [->|[N ->]]; [done|].
assert (Hstem : Forall safe_char (stem_of n)).
{ unfold stem_of. destruct (suffix_at n); [by apply Forall_take | done]. }
assert (Hsuf : Forall safe_char (suffix_of n)).
{ unfold suffix_of. destruct (suffix_at n); [by apply Forall_drop | done]. }
repeat split.
- by destruct (stem_of n).
- destruct (stem_of n) as [|c [|c' s]]; cbn; discriminate.
- rewrite Forall_app. split; [done|]. constructor.
  + repeat split; discriminate.
  + rewrite Forall_app. split; [apply str_of_nat_safe | done].
Qed.


Lemma safe_no_slash (s : pystr) : Forall safe_char s -> "/"%char ∉ s.
Proof.
intros H Hin. rewrite Forall_forall in H.
destruct (H _ Hin) as (_ & _ & _ & Hs). done.
Qed.

Lemma record_readable cat n x :
good_folder SOURCE_FOLDER -> good_name n ->
cat ∈ category_folders -> renamed n x ->
readable (child (child SOURCE_FOLDER cat) x, child SOURCE_FOLDER n).
Proof.
intros [Hparts Hstart] Hn Hcat Hren.
destruct (category_safe cat Hcat) as (Hc1 & Hc2 & Hc3).
destruct (renamed_safe n x Hn Hren) as (Hx1 & Hx2 & Hx3).
destruct Hn as (Hn1 & Hn2 & Hn3 & Hn4).
set (Q := fun c : ascii => c <> "|"%char /\ c <> "010"%char /\ c <> "013"%char).
assert (HQ : forall s, Forall safe_char s -> Forall Q s).
{ intros s H. eapply Forall_impl; [exact H|].
  intros c (H1 & H2 & H3 & _). done. }
assert (Hslash : Q "/"%char) by (repeat split; discriminate).
assert (Hdot : Q "."%char) by (repeat split; discriminate).
assert (HS : Forall (Forall Q) SOURCE_FOLDER.2).
{ eapply Forall_impl; [exact Hparts|]. intros part (_ & _ & H). by apply HQ. }
assert (Hd : Forall Q (str_path (child (child SOURCE_FOLDER cat) x))).
{ apply str_path_chars_any; [done|done|]. cbn [child fst snd].
  rewrite !Forall_app. repeat split; try done; constructor; auto. }
assert (Ho : Forall Q (str_path (child SOURCE_FOLDER n))).
{ apply str_path_chars_any; [done|done|]. cbn [child fst snd].
  rewrite !Forall_app. repeat split; try done; constructor; auto. }
assert (Hnone : forall c s, Forall Q s -> ~ Q c -> c ∉ s).
{ intros c s Hs Hc Hin. rewrite Forall_forall in Hs. by apply Hc, Hs. }
assert (Hbar : "|"%char ∉ str_path (child (child SOURCE_FOLDER cat) x)).
{ apply Hnone; [done|]. by intros (H & _). }
assert (Hvalid : forall part,
          part <> [] /\ part <> ["."%char] /\ Forall safe_char part ->
          part <> [] /\ part <> ["."%char] /\ "/"%char ∉ part).
{ intros part (H1 & H2 & H3). repeat split; try done. by apply safe_no_slash. }
assert (Hvalid_S : Forall (fun part => part <> [] /\ part <> ["."%char] /\
                                       "/"%char ∉ part) SOURCE_FOLDER.2).
{ eapply Forall_impl; [exact Hparts|]. exact Hvalid. }
assert (Hcat_start : lstrip (str_path (child SOURCE_FOLDER cat))
                     = str_path (child SOURCE_FOLDER cat) /\
                     str_path (child SOURCE_FOLDER cat) <> []).
{ rewrite str_path_child_any.
  destruct SOURCE_FOLDER as [[|] [|q ps]] eqn:ES; cbn [fst snd] in *.
  - done.
  - split; [|done]. by apply (lstrip_app (str_path (true, q :: ps))).
  - split; [by apply category_lstrip | done].
  - assert (Hne : str_path (false, q :: ps) <> []).
    { unfold str_path. cbn [fst snd].
      apply Forall_cons in Hparts as [(Hq & _) _].
      destruct q; [done|]. by destruct ps. }
    split; [by apply lstrip_app|]. by destruct (str_path (false, q :: ps)). }
repeat split; cbn [fst snd].
- unfold record_body. cbn [fst snd]. intros Hin.
  apply elem_of_app in Hin as [Hin|Hin].
  + revert Hin. apply Hnone; [done|]. by intros (_ & H & _).
  + apply elem_of_cons in Hin as [Hin|Hin]; [discriminate|].
    revert Hin. apply Hnone; [done|]. by intros (_ & H & _).
- unfold record_body. cbn [fst snd]. intros Hin.
  apply elem_of_app in Hin as [Hin|Hin].
  + revert Hin. apply Hnone; [done|]. by intros (_ & _ & H).
  + apply elem_of_cons in Hin as [Hin|Hin]; [discriminate|].
    revert Hin. apply Hnone; [done|]. by intros (_ & _ & H).
- unfold record_body. cbn [fst snd]. apply parse_line_record; [| |done].
  + rewrite (str_path_child_any (child SOURCE_FOLDER cat)).
    destruct Hcat_start as [H1 H2].
    assert (E : (child SOURCE_FOLDER cat).2 = SOURCE_FOLDER.2 ++ [cat]) by done.
    destruct ((child SOURCE_FOLDER cat).2) as [|q ps] eqn:E';
      [by destruct (SOURCE_FOLDER.2)|].
    by apply lstrip_app.
  + destruct (str_path_child_end SOURCE_FOLDER n) as (a & ->).
    by apply rstrip_app.
- apply Path_of_str_str_path_any. cbn [child fst snd].
  rewrite !Forall_app. repeat split; try done; constructor; auto.
- apply Path_of_str_str_path_any. cbn [child fst snd].
  rewrite !Forall_app. repeat split; try done; constructor; auto.
Qed.


(** ** More on the scan *)

Lemma scanned_dir_origin m0 moves m n :
scanned SOURCE_FOLDER m0 moves m ->
m !! child SOURCE_FOLDER n = Some Dir ->
m0 !! child SOURCE_FOLDER n = Some Dir \/ n ∈ category_folders.
Proof.
induction 1 as [|moves m cat Hs IH Hcat Hnone
                |moves m n' cat x c Hs IH Hcat Hn Hren Hitem Hdir Hfree];
  [by left| |].
- destruct (decide (child SOURCE_FOLDER cat = child SOURCE_FOLDER n))
    as [E|Hne].
  + apply child_inj in E as [_ ->]. by right.
  + by rewrite lookup_insert_ne.
- rewrite lookup_insert_ne by apply grandchild_neq.
  destruct (decide (child SOURCE_FOLDER n' = child SOURCE_FOLDER n))
    as [->|Hne].
  + by rewrite lookup_delete_eq.
  + by rewrite lookup_delete_ne.
Qed.

Lemma scanned_deep_keeps m0 moves m cat x :
scanned SOURCE_FOLDER m0 moves m ->
is_Some (m0 !! child (child SOURCE_FOLDER cat) x) ->
m !! child (child SOURCE_FOLDER cat) x
  = m0 !! child (child SOURCE_FOLDER cat) x.
Proof.
intros Hs H0.
induction Hs as [|moves m cat' Hs IH Hcat Hnone
                 |moves m n' cat' x' c Hs IH Hcat Hn Hren Hitem Hdir Hfree];
  [done| |].
- rewrite lookup_insert_ne by apply child_neq_grandchild. done.
- rewrite lookup_insert_ne.
  + rewrite lookup_delete_ne by apply child_neq_grandchild. done.
  + intros E. rewrite E, IH in Hfree. rewrite Hfree in H0.
    by destruct H0.
Qed.

Lemma scanned_dest_was_free m0 moves m :
scanned SOURCE_FOLDER m0 moves m ->
Forall (fun mv => m0 !! mv.1 = None) moves.
Proof.
induction 1 as [|moves m cat Hs IH Hcat Hnone
                |moves m n cat x c Hs IH Hcat Hn Hren Hitem Hdir Hfree];
  [constructor|done|].
apply Forall_app. split; [done|]. apply Forall_singleton. cbn [fst].
destruct (m0 !! child (child SOURCE_FOLDER cat) x) as [v|] eqn:E; [|done].
rewrite (scanned_deep_keeps _ _ _ _ _ Hs) in Hfree by by rewrite E.
congruence.
Qed.

Lemma scanned_frame_off m0 moves m p :
scanned SOURCE_FOLDER m0 moves m ->
p ∉ map fst moves -> p ∉ map snd moves ->
(forall cat, cat ∈ category_folders -> p <> child SOURCE_FOLDER cat) ->
m !! p = m0 !! p.
Proof.
intros Hs.
induction Hs as [|moves m cat Hs IH Hcat Hnone
                 |moves m n cat x c Hs IH Hcat Hn Hren Hitem Hdir Hfree];
  intros Hd Ho Hp; [done| |].
- rewrite lookup_insert_ne; [by apply IH|]. intros E. by apply (Hp cat).
- rewrite !map_app in Hd, Ho. cbn in Hd, Ho.
  apply not_elem_of_app in Hd as [Hd Hd'].
  apply not_elem_of_app in Ho as [Ho Ho'].
  apply not_elem_of_cons in Hd' as [Hd' _].
  apply not_elem_of_cons in Ho' as [Ho' _].
  rewrite lookup_insert_ne by done. rewrite lookup_delete_ne by done.
  by apply IH.
Qed.

(** Where nothing is locked and no category name is taken by a regular
  file, the scan goes through. *)
Lemma scan_success m0 entries : forall st w,
m0 !! SOURCE_FOLDER = Some Dir ->
m0 !! LOG_FOLDER SOURCE_FOLDER = Some Dir ->
(forall cat, cat ∈ category_folders ->
             not_file (m0 !! child SOURCE_FOLDER cat)) ->
scanned SOURCE_FOLDER m0 st.1 (fs w) ->
locked w = ∅ ->
exists st' w',
  foreach (organize_item SOURCE_FOLDER)
    (map (child SOURCE_FOLDER) entries) st w = Ok st' w'.
Proof.
induction entries as [|n entries IH]; intros st w Hsrc Hlog Hcats Hs Hlock.
- by eexists _, _.
- cbn [map foreach]. unfold bind.
  destruct (organize_item_outcome (child SOURCE_FOLDER n) st w)
    as [Hskip|e c Hitem Hname Hno|c m Hitem Hname Hready Hl
       |c m x r Hitem Hname Hready Hfd Hfree Hl category dest_path w' ->].
  + by apply IH.
  + exfalso.
    pose proof (scanned_not_file _ _ _
                  (get_category (suffix (child SOURCE_FOLDER n))) Hs
                  (Hcats _ (get_category_total _))) as Hnf.
    destruct (fs w !! child SOURCE_FOLDER
                (get_category (suffix (child SOURCE_FOLDER n))))
      as [[c'|]|] eqn:E.
    * by apply (Hnf c').
    * apply (Hno (fs w)). by apply folder_there.
    * eapply Hno. apply folder_made; [done|].
      by apply (scanned_dirs _ _ _ _ Hs).
  + exfalso. rewrite Hlock in Hl. by apply not_elem_of_empty in Hl.
  + assert (Hmoved : scanned SOURCE_FOLDER m0
              (st.1 ++ [(dest_path, child SOURCE_FOLDER n)]) (fs w')).
    { subst w' dest_path category. cbn [fs moved_world].
      rewrite name_child in Hname.
      destruct (folder_ready_item w _ m c Hitem Hready) as [Hmi Hmd].
      apply free_dest_renamed in Hfd. rewrite name_child in Hfd.
      apply scanned_move;
        [by eapply scanned_folder | apply get_category_total | done..]. }
    rewrite (scanned_dirs _ _ _ _ Hmoved Hlog).
    by apply IH.
Qed.


(** ** The round trip *)

Lemma organize_success entries w :
sortable SOURCE_FOLDER w ->
exists w1, organize SOURCE_FOLDER all_categories entries w = Ok tt w1.
Proof.
intros (Hgood & _ & Hsrc & Hlognf & Hlogs & Hcats & Hnames & Hlock).
assert (Hundo : fs w !! UNDO_FILE SOURCE_FOLDER <> Some Dir).
{ intros E. apply (Hlogs _ _ E); [apply parent_child | done]. }
rewrite Forall_forall in Hcats.
unfold organize. unfold bind at 1. unfold ensure_log_folder.
assert (Hrun : forall m0, log_ready SOURCE_FOLDER w m0 ->
  exists w1,
    (log SOURCE_FOLDER (Starting SOURCE_FOLDER);;
     items <- iterdir SOURCE_FOLDER entries;;
     st <- foreach (organize_item SOURCE_FOLDER) items ([], []);;
     category_count <-
       foreach (report_empty SOURCE_FOLDER) all_categories st.2;;
     log SOURCE_FOLDER (Complete (sum_values category_count));;
     write_text (UNDO_FILE SOURCE_FOLDER) (ledger_text st.1);;
     log SOURCE_FOLDER UndoSaved) (with_fs w m0) = Ok tt w1).
{ intros m0 Hready.
  assert (Hlog0 : m0 !! LOG_FOLDER SOURCE_FOLDER = Some Dir).
  { destruct Hready; [done | apply lookup_insert_eq]. }
  assert (Hsrc0 : m0 !! SOURCE_FOLDER = Some Dir).
  { rewrite (log_ready_lookup w _ _ Hready); [done|].
    intros E. symmetry in E. by apply child_neq in E. }
  assert (Hcats0 : forall cat, cat ∈ category_folders ->
                     not_file (m0 !! child SOURCE_FOLDER cat)).
  { intros cat Hcat. rewrite (log_ready_lookup w _ _ Hready);
      [by apply Hcats|].
    intros E. apply child_inj in E as [_ ->].
    by apply Sort_Logs_not_category. }
  unfold bind at 1. rewrite log_spec. cbn [fs with_fs]. rewrite Hlog0.
  unfold bind at 1. unfold iterdir at 1. cbn [fs]. rewrite Hsrc0.
  unfold bind at 1.
  match goal with |- context [foreach _ _ ?st0 ?wa] =>
    destruct (scan_success m0 entries st0 wa) as (st & w1 & Hscan);
      [done|done|done|constructor|done|];
    pose proof (scan_outcome m0 entries st0 wa) as Hout
  end.
  rewrite Hscan in Hout. rewrite Hscan.
  destruct (Hout (scanned_start _ _))
    as (new & Hst & Hsum & Hsc & Hl & Hc & _).
  pose proof (scanned_dirs _ _ _ _ Hsc Hlog0) as Hlog1.
  unfold bind at 1. rewrite report_empty_loop by done.
  unfold bind at 1. rewrite log_spec. cbn [fs]. rewrite Hlog1.
  unfold bind at 1. unfold write_text at 1. cbn [fs locked].
  assert (Hundo1 : fs w1 !! UNDO_FILE SOURCE_FOLDER
                   = fs w !! UNDO_FILE SOURCE_FOLDER).
  { rewrite (UNDO_FILE_frame _ _ _ Hsc).
    apply (log_ready_lookup w _ _ Hready). apply child_neq. }
  rewrite Hundo1, Hl. cbn [locked with_fs]. rewrite Hlock.
  destruct (fs w !! UNDO_FILE SOURCE_FOLDER) as [[c|]|] eqn:E; [|done|].
  - rewrite bool_decide_eq_false_2 by apply not_elem_of_empty.
    rewrite log_spec. cbn [fs with_fs].
    rewrite lookup_insert_ne by apply child_neq. rewrite Hlog1.
    by eexists.
  - unfold UNDO_FILE at 1. rewrite parent_child, Hlog1.
    rewrite log_spec. cbn [fs with_fs].
    rewrite lookup_insert_ne by apply child_neq. rewrite Hlog1.
    by eexists. }
unfold mkdir_exist_ok.
destruct (fs w !! LOG_FOLDER SOURCE_FOLDER) as [[c|]|] eqn:Hlog.
- by destruct (Hlognf c).
- specialize (Hrun (fs w) (log_there _ _ Hlog)).
  by rewrite with_fs_id in Hrun.
- unfold LOG_FOLDER at 1. rewrite parent_child, Hsrc.
  apply Hrun. by apply log_made.
Qed.


Lemma no_entries_None (p : Path) (m : gmap Path node) :
no_entries p m <-> forall q, entry_of p q -> m !! q = None.
Proof.
unfold no_entries, map_Forall. split.
- intros H q Hq. destruct (m !! q) as [x|] eqn:E; [|done].
  by destruct (H q x E).
- intros H q x Hq Hent. rewrite (H q Hent) in Hq. done.
Qed.

Lemma NoDup_category_folders : NoDup category_folders.
Proof. apply (bool_decide_unpack _). vm_compute. exact I. Qed.

(** C1, as the source has it: on a folder that is [sortable], given by
  a full path or by a relative one, [organize] returns, [undo] run on
  what it left returns, and then the tree is as it was before
  [organize] at every path other than [Sort_Logs], its entries (the
  undo file and the log files) and the category folders: every file
  is back at its path with its content.  The undo file is gone, and
  so is every category folder that held nothing before; a category
  folder that held entries before is left, with them. *)
Theorem C1_round_trip entries w :
sortable SOURCE_FOLDER w ->
exists w1 w2,
  organize SOURCE_FOLDER all_categories entries w = Ok tt w1 /\
  undo SOURCE_FOLDER w1 = Ok tt w2 /\
  (forall p,
     p <> LOG_FOLDER SOURCE_FOLDER ->
     (forall x, p <> child (LOG_FOLDER SOURCE_FOLDER) x) ->
     (forall cat, cat ∈ category_folders -> p <> child SOURCE_FOLDER cat) ->
     fs w2 !! p = fs w !! p) /\
  (forall cat, cat ∈ category_folders ->
     no_entries (child SOURCE_FOLDER cat) (fs w) ->
     fs w2 !! child SOURCE_FOLDER cat = None) /\
  (forall cat, cat ∈ category_folders ->
     fs w !! child SOURCE_FOLDER cat = Some Dir ->
     ~ no_entries (child SOURCE_FOLDER cat) (fs w) ->
     fs w2 !! child SOURCE_FOLDER cat = Some Dir) /\
  fs w2 !! UNDO_FILE SOURCE_FOLDER = None.
Proof.
intros Hsort.
pose proof Hsort
  as (Hgood & _ & Hsrc & Hlognf & Hlogs & Hcats & Hnames & Hlock).
assert (Hundo : fs w !! UNDO_FILE SOURCE_FOLDER <> Some Dir).
{ intros E. apply (Hlogs _ _ E); [apply parent_child | done]. }
rewrite Forall_forall in Hcats.
destruct (organize_success entries w Hsort) as (w1 & Horg).
pose proof (organize_outcome entries w) as Hout. rewrite Horg in Hout.
destruct Hout as (moves & cc & m0 & m1 & Hready & Hsrc0 & Hs & Hnd & Hfs1
                  & Hl1 & Hc1).
destruct (scanned_records _ _ _ Hs) as (HNo & HNd & Hrec).
pose proof (scanned_dest_was_free _ _ _ Hs) as Hfree0.
rewrite Forall_forall in Hrec, Hfree0.
set (UNDO := UNDO_FILE SOURCE_FOLDER) in *.
set (LOG := LOG_FOLDER SOURCE_FOLDER) in *.
(* the paths of the engine against those of the records *)
assert (Hundo_cat : forall cat x, cat ∈ category_folders ->
          child (child SOURCE_FOLDER cat) x <> UNDO).
{ intros cat x Hcat E. unfold UNDO, UNDO_FILE, LOG_FOLDER in E.
  apply child_inj in E as [E _]. apply child_inj in E as [_ ->].
  by apply Sort_Logs_not_category. }
assert (Hundo_root : forall n, child SOURCE_FOLDER n <> UNDO).
{ intros n. apply child_neq_grandchild. }
assert (Hlog_cat : forall cat, cat ∈ category_folders ->
          child SOURCE_FOLDER cat <> LOG).
{ intros cat Hcat E. apply child_inj in E as [_ ->].
  by apply Sort_Logs_not_category. }
assert (Hcats0 : forall cat, cat ∈ category_folders ->
                   not_file (m0 !! child SOURCE_FOLDER cat)).
{ intros cat Hcat. rewrite (log_ready_lookup w _ _ Hready);
    [by apply Hcats | by apply Hlog_cat]. }
(* what a record is *)
assert (Hrecord : forall mv, mv ∈ moves ->
  exists n cat x c,
    mv = (child (child SOURCE_FOLDER cat) x, child SOURCE_FOLDER n) /\
    cat ∈ category_folders /\ renamed n x /\ good_name n /\
    (n ∉ category_folders) /\
    fs w !! child SOURCE_FOLDER n = Some (File c) /\
    fs w !! child (child SOURCE_FOLDER cat) x = None /\
    m1 !! child (child SOURCE_FOLDER cat) x = Some (File c) /\
    m1 !! child SOURCE_FOLDER n = None).
{ intros [d o] Hin.
  destruct (Hrec _ Hin) as (n & cat & x & c & E2 & E1 & Hcat & Hren & H0
                            & H1 & H2).
  cbn [fst snd] in *. subst d o.
  assert (Hw : fs w !! child SOURCE_FOLDER n = Some (File c)).
  { by apply (log_ready_file w m0). }
  assert (Hncat : n ∉ category_folders).
  { intros Hn. by apply (Hcats0 n Hn c). }
  exists n, cat, x, c.
  do 3 (split; [done|]). split; [|do 2 (split; [done|]); split; [|split; [done|]]].
  - specialize (Hnames _ _ Hw). cbn beta in Hnames.
    rewrite parent_child, name_child in Hnames. by apply Hnames.
  - specialize (Hfree0 _ Hin). cbn [fst] in Hfree0.
    rewrite <- (log_ready_lookup w _ _ Hready); [done|].
    apply grandchild_neq.
  - destruct (m1 !! child SOURCE_FOLDER n) as [[c'|]|] eqn:E; [|exfalso|done].
    + by destruct (H2 c').
    + destruct (scanned_dir_origin _ _ _ _ Hs E) as [Hd|Hd]; [congruence|done]. }
assert (Hdests : forall p, p ∈ map fst moves ->
          exists cat x, cat ∈ category_folders /\
                        p = child (child SOURCE_FOLDER cat) x).
{ intros p Hp. apply list_elem_of_fmap in Hp as (mv & -> & Hin).
  destruct (Hrecord mv Hin) as (n & cat & x & c & -> & Hcat & _).
  by exists cat, x. }
assert (Horigs : forall p, p ∈ map snd moves ->
          exists n, (n ∉ category_folders) /\ p = child SOURCE_FOLDER n).
{ intros p Hp. apply list_elem_of_fmap in Hp as (mv & -> & Hin).
  destruct (Hrecord mv Hin) as (n & cat & x & c & -> & _ & _ & _ & Hn & _).
  by exists n. }
assert (Hw1 : forall p, p <> UNDO -> fs w1 !! p = m1 !! p).
{ intros p Hp. rewrite Hfs1. by rewrite lookup_insert_ne. }
(* the run of undo, step by step *)
set (wu := mkWorld (fs w1) (locked w1) (console w1 ++ [Undoing])
                   (session_log w1)).
assert (E1 : path_exists UNDO w1 = Ok true w1).
{ unfold path_exists. rewrite Hfs1, lookup_insert_eq.
  by rewrite bool_decide_eq_true_2 by by eexists. }
assert (E3 : read_text UNDO wu = Ok (ledger_text moves) wu).
{ unfold read_text. cbn [fs wu locked]. rewrite Hfs1, lookup_insert_eq.
  rewrite Hl1, Hlock.
  by rewrite bool_decide_eq_false_2 by apply not_elem_of_empty. }
assert (Hreadable : Forall readable moves).
{ apply Forall_forall. intros mv Hin.
  destruct (Hrecord mv Hin) as (n & cat & x & c & -> & Hcat & Hren & Hn & _).
  by apply record_readable. }
assert (Hrestorable : Forall (restorable (fs wu) (locked wu) moves) moves).
{ apply Forall_forall. intros mv Hin.
  destruct (Hrecord mv Hin) as (n & cat & x & c & -> & Hcat & Hren & Hn & Hncat
                                & Hwn & Hwd & Hm1d & Hm1o).
  exists c. cbn [fst snd fs wu locked]. rewrite parent_child.
  repeat split.
  - rewrite Hw1 by by apply Hundo_cat. done.
  - rewrite Hw1 by apply Hundo_root. done.
  - rewrite Hw1.
    + by apply (scanned_dirs _ _ _ _ Hs).
    + intros E. apply (f_equal (fun q => length q.2)) in E.
      unfold UNDO, UNDO_FILE, LOG_FOLDER in E. rewrite !child_depth in E. lia.
  - rewrite Hl1, Hlock. apply not_elem_of_empty.
  - intros Hp. apply Horigs in Hp as (n' & _ & E).
    by apply grandchild_neq in E.
  - intros Hp. apply Hdests in Hp as (cat' & x' & _ & E).
    apply (f_equal (fun q => length q.2)) in E.
    rewrite !child_depth in E. lia.
  - intros Hp. apply Horigs in Hp as (n' & _ & E).
    symmetry in E. by apply child_neq in E. }
destruct (undo_records moves wu 0 HNd HNo Hreadable Hrestorable)
  as (w2 & Hrun2 & Hl2 & Hc2 & Hlog2 & Hall2 & Hframe2).
rewrite Forall_forall in Hall2.
assert (E4 : foreach undo_line (file_lines (ledger_text moves)) 0 wu
             = Ok (length moves) w2).
{ rewrite file_lines_ledger.
  - rewrite foreach_app, Hrun2. reflexivity.
  - eapply Forall_impl; [exact Hreadable|]. by intros mv (H & _). }
(* the tree after the records *)
assert (Hw2_cat : forall cat, cat ∈ category_folders ->
          fs w2 !! child SOURCE_FOLDER cat = m1 !! child SOURCE_FOLDER cat).
{ intros cat Hcat. rewrite Hframe2.
  - cbn [fs wu]. apply Hw1, Hundo_root.
  - intros Hp. apply Hdests in Hp as (cat' & x' & _ & E).
    by apply child_neq_grandchild in E.
  - intros Hp. apply Horigs in Hp as (n' & Hn' & E).
    apply child_inj in E as [_ <-]. done. }
assert (Hw2_deep : forall cat x, cat ∈ category_folders ->
          fs w2 !! child (child SOURCE_FOLDER cat) x
          = fs w !! child (child SOURCE_FOLDER cat) x).
{ intros cat x Hcat.
  destruct (decide (child (child SOURCE_FOLDER cat) x ∈ map fst moves))
    as [Hin|Hnin].
  - apply list_elem_of_fmap in Hin as (mv & E & Hin).
    destruct (Hall2 mv Hin) as [_ A2]. rewrite <- E in A2. rewrite A2.
    destruct (Hrecord mv Hin) as (n & cat' & x' & c & -> & _ & _ & _ & _
                                  & _ & Hwd & _).
    cbn [fst] in E. by rewrite E.
  - assert (Hno : child (child SOURCE_FOLDER cat) x ∉ map snd moves).
    { intros Hp. apply Horigs in Hp as (n' & _ & E).
      by apply grandchild_neq in E. }
    rewrite Hframe2 by done. cbn [fs wu].
    rewrite Hw1 by by apply Hundo_cat.
    rewrite (scanned_frame_off _ _ _ _ Hs Hnin Hno).
    + apply (log_ready_lookup w _ _ Hready). apply grandchild_neq.
    + intros cat' _. apply grandchild_neq. }
assert (Hnf2 : forall cat, cat ∈ category_folders ->
          not_file (fs w2 !! child SOURCE_FOLDER cat)).
{ intros cat Hcat. rewrite Hw2_cat by done.
  apply (scanned_not_file _ _ _ _ Hs). by apply Hcats0. }
destruct (prune_spec category_folders w2 NoDup_category_folders Hnf2)
  as (w3 & E5 & Hl3 & Hc3 & Hlog3 & Hframe3 & Hcats3).
assert (Hundo3 : fs w3 !! UNDO = Some (File (ledger_text moves))).
{ rewrite Hframe3 by (intros cat _; apply not_eq_sym, Hundo_root).
  rewrite Hframe2.
  - cbn [fs wu]. rewrite Hfs1. apply lookup_insert_eq.
  - intros Hp. apply Hdests in Hp as (cat & x & Hcat & E).
    symmetry in E. by apply Hundo_cat in E.
  - intros Hp. apply Horigs in Hp as (n & _ & E).
    symmetry in E. by apply Hundo_root in E. }
set (w4 := with_fs w3 (delete UNDO (fs w3))).
assert (E6 : unlink UNDO w3 = Ok tt w4).
{ unfold unlink. rewrite Hundo3, Hl3, Hl2. cbn [locked wu].
  rewrite Hl1, Hlock.
  by rewrite bool_decide_eq_false_2 by apply not_elem_of_empty. }
eexists w1, _. split; [done|]. split.
{ unfold undo. rewrite (bind_Ok _ _ _ _ _ E1). cbn [negb].
  unfold bind at 1. unfold print at 1. fold wu.
  rewrite (bind_Ok _ _ _ _ _ E3), (bind_Ok _ _ _ _ _ E4).
  rewrite (bind_Ok _ _ _ _ _ E5), (bind_Ok _ _ _ _ _ E6).
  reflexivity. }
cbn [fs w4 with_fs]. split; [|split; [|split]].
- intros p Hp1 Hp2' Hp3.
  assert (Hp2 : p <> UNDO) by apply Hp2'.
  rewrite lookup_delete_ne by done.
  rewrite Hframe3 by done.
  destruct (decide (p ∈ map snd moves)) as [Hin|Hno].
  + apply list_elem_of_fmap in Hin as (mv & E & Hin).
    destruct (Hall2 mv Hin) as [A1 _]. rewrite <- E in A1. rewrite A1.
    destruct (Hrecord mv Hin) as (n & cat & x & c & -> & Hcat & _ & _ & _
                                  & Hwn & _ & Hm1d & _).
    cbn [fst snd fs wu] in *. rewrite Hw1 by by apply Hundo_cat.
    rewrite E. congruence.
  + destruct (decide (p ∈ map fst moves)) as [Hin|Hnd'].
    * apply Hdests in Hin as (cat & x & Hcat & ->). by apply Hw2_deep.
    * rewrite Hframe2 by done. cbn [fs wu]. rewrite Hw1 by done.
      rewrite (scanned_frame_off _ _ _ _ Hs Hnd' Hno Hp3).
      by apply (log_ready_lookup w _ _ Hready).
- intros cat Hcat Hempty.
  rewrite lookup_delete_ne by apply not_eq_sym, Hundo_root.
  assert (Hempty2 : no_entries (child SOURCE_FOLDER cat) (fs w2)).
  { apply no_entries_None. intros q Hq.
    destruct (entry_of_inv _ _ Hq) as (x & ->).
    rewrite Hw2_deep by done.
    by apply (proj1 (no_entries_None _ _) Hempty). }
  destruct (Hcats3 cat Hcat) as [Hrm Hst].
  destruct (fs w2 !! child SOURCE_FOLDER cat) as [[c|]|] eqn:E.
  + by destruct (Hnf2 cat Hcat c).
  + by apply Hrm.
  + rewrite Hst; [done|]. by intros [H _].
- intros cat Hcat Hdir Hfull.
  rewrite lookup_delete_ne by apply not_eq_sym, Hundo_root.
  assert (Hfull2 : ~ no_entries (child SOURCE_FOLDER cat) (fs w2)).
  { intros Hempty2. apply Hfull. apply no_entries_None. intros q Hq.
    destruct (entry_of_inv _ _ Hq) as (x & ->).
    rewrite <- Hw2_deep by done.
    by apply (proj1 (no_entries_None _ _) Hempty2). }
  destruct (Hcats3 cat Hcat) as [_ Hst].
  rewrite Hst by (by intros [_ H]).
  rewrite Hw2_cat by done.
  apply (scanned_dirs _ _ _ _ Hs).
  rewrite (log_ready_lookup w _ _ Hready); [done | by apply Hlog_cat].
- apply lookup_delete_eq.
Qed.


(** ** The claims on [undo] *)









End EngineProps.

(** ** The claims on [organize], on examples *)

(** C4 as stated fails: in this run [b.txt] is moved, then the move of
    the locked [a.txt] raises, and no undo file records [b.txt]. *)
Lemma C4_failed_run_counterexample :
  match organize Downloads category_folders [lit "b.txt"; lit "a.txt"]
          two_documents with
  | Raise e w' =>
      e = PermissionError /\
      fs w' !! child Downloads (lit "b.txt") = None /\
      fs w' !! child (child Downloads (lit "Documents")) (lit "b.txt")
        = Some (File (lit "B")) /\
      fs w' !! UNDO_FILE Downloads = None
  | Ok _ _ => False
  end.
Proof. vm_compute. repeat split. Qed.

Lemma C4_ledger_of_a_run_witness :
  exists e w',
    organize Downloads category_folders [lit "b.txt"; lit "a.txt"]
      two_documents = Raise e w' /\
    fs w' !! UNDO_FILE Downloads = fs two_documents !! UNDO_FILE Downloads.
Proof.
  pose proof (C4_ledger_of_a_run Downloads category_folders
                [lit "b.txt"; lit "a.txt"] two_documents) as [_ H].
  apply (H [lit "b.txt"] (lit "a.txt") [] (lit "A")).
  - reflexivity.
  - vm_compute. reflexivity.
  - vm_compute. discriminate.
  - apply (bool_decide_unpack _). vm_compute. exact I.
Defined.

(** C2 as stated fails: the move of the locked [a.txt] raises out of
    [organize]; [b.txt], listed after it, is not processed, and the run
    leaves no result behind. *)
Lemma C2_failed_move_counterexample :
  match organize Downloads category_folders [lit "a.txt"; lit "b.txt"]
          two_documents with
  | Raise e w' =>
      e = PermissionError /\
      fs w' !! child Downloads (lit "b.txt") = Some (File (lit "B")) /\
      fs w' !! child (child Downloads (lit "Documents")) (lit "b.txt") = None /\
      fs w' !! UNDO_FILE Downloads = None /\
      console w' = [Starting Downloads]
  | Ok _ _ => False
  end.
Proof. vm_compute. repeat split. Qed.

Lemma C2_failed_move_aborts_witness :
  exists e w',
    organize Downloads category_folders
      ([] ++ lit "a.txt" :: [lit "b.txt"]) two_documents
      = Raise e w' /\
    fs w' !! UNDO_FILE Downloads = fs two_documents !! UNDO_FILE Downloads /\
    forall n' c', n' ∉ [] ->
      fs two_documents !! child Downloads n' = Some (File c') ->
      fs w' !! child Downloads n' = Some (File c').
Proof.
  apply (C2_failed_move_aborts Downloads category_folders [] (lit "a.txt")
           [lit "b.txt"]
           two_documents (lit "A")).
  - vm_compute. reflexivity.
  - vm_compute. discriminate.
  - apply (bool_decide_unpack _). vm_compute. exact I.
Defined.

Lemma C6_undo_without_ledger_witness :
  undo Downloads (world [ (root, Dir); (Downloads, Dir) ] [])
  = Ok tt (mkWorld (list_to_map [ (root, Dir); (Downloads, Dir) ]) ∅
                   [NothingToUndo] []).
Proof.
  apply (C6_undo_without_ledger Downloads
           (world [ (root, Dir); (Downloads, Dir) ] [])).
  vm_compute. reflexivity.
Defined.

(** C3: when the destination computed for a file is taken, the duplicate
    loop settles on the first free name among stem_1, stem_2, ... with the
    suffix of the file appended, in the same category folder: the names
    tried before it were all taken, and this one was free.  When that
    path is one the operating system takes (the names tried before it,
    which are there, are no longer than it), the loop returns it, and
    the file, when its move succeeds, is recorded under it; and whatever
    the outcome of the round, no entry that was there, other than the
    file itself, is changed: nothing is overwritten.  In the scenario of
    the spec, the second [a.txt] lands at [Documents/a_1.txt], beside the
    first. *)
Theorem C3_collision_resolution (SOURCE_FOLDER item : Path)
  (st : list (Path * Path) * list (pystr * nat)) (w : World) (c : pystr) :
  fs w !! item = Some (File c) ->
  name item <> lit "organizer.py" ->
  let category := get_category (suffix item) in
  let dest_folder := child SOURCE_FOLDER category in
  fs w !! dest_folder = Some Dir ->
  is_Some (fs w !! child dest_folder (name item)) ->
  (exists N,
     1 <= N /\
     let new_name := stem item ++ "_"%char :: str_of_nat N ++ suffix item in
     let dest_path := child dest_folder new_name in
     stem item ++ suffix item = name item /\
     fs w !! dest_path = None /\
     (forall k, 1 <= k < N ->
        is_Some (fs w !! child dest_folder
                   (stem item ++ "_"%char :: str_of_nat k ++ suffix item))) /\
     (fits dest_path ->
      free_dest dest_folder item w = Ok dest_path w /\
      (item ∉ locked w ->
       fs w !! LOG_FOLDER SOURCE_FOLDER = Some Dir ->
       organize_item SOURCE_FOLDER item st w
         = Ok (st.1 ++ [(dest_path, item)], incr category st.2)
              (logged_world
                 (moved_world w (fs w) item dest_path c
                    (Moved (name item) category))
                 (Moved (name item) category)))) /\
     (forall p, p <> item -> is_Some (fs w !! p) ->
        fs (world_of (organize_item SOURCE_FOLDER item st w)) !! p
          = fs w !! p)) /\
  fs second_sort !! child (child Downloads (lit "Documents")) (lit "a.txt")
    = Some (File (lit "first")) /\
  fs second_sort !! child (child Downloads (lit "Documents")) (lit "a_1.txt")
    = Some (File (lit "second")).
Proof.
  intros Hitem Hname category dest_folder Hdir Hbusy.
  split; [|by vm_compute].
  destruct (organize_item_collision SOURCE_FOLDER item st w c
              Hitem Hname Hdir Hbusy)
    as (N & HN & Hss & Hfd & Hfree & Hk & Hmove & Hframe).
  exists N. split; [done|]. cbn zeta.
  split; [done|]. split; [done|]. split; [done|]. split; [|done].
  intros _. split; [done|]. exact Hmove.
Qed.

Lemma C3_collision_resolution_witness :
  let w := with_fs first_sort
             (<[child Downloads (lit "a.txt") := File (lit "second")]>
                (fs first_sort)) in
  let item := child Downloads (lit "a.txt") in
  let category := get_category (suffix item) in
  let dest_folder := child Downloads category in
  exists N,
    1 <= N /\
    let new_name := stem item ++ "_"%char :: str_of_nat N ++ suffix item in
    let dest_path := child dest_folder new_name in
    stem item ++ suffix item = name item /\
    fs w !! dest_path = None /\
    (forall k, 1 <= k < N ->
       is_Some (fs w !! child dest_folder
                  (stem item ++ "_"%char :: str_of_nat k ++ suffix item))) /\
    (fits dest_path ->
     free_dest dest_folder item w = Ok dest_path w /\
     (item ∉ locked w ->
      fs w !! LOG_FOLDER Downloads = Some Dir ->
      organize_item Downloads item ([], []) w
        = Ok ([(dest_path, item)], incr category [])
             (logged_world
                (moved_world w (fs w) item dest_path (lit "second")
                   (Moved (name item) category))
                (Moved (name item) category)))) /\
    (forall p, p <> item -> is_Some (fs w !! p) ->
       fs (world_of (organize_item Downloads item ([], []) w)) !! p
         = fs w !! p).
Proof.
  cbv zeta.
  apply (C3_collision_resolution Downloads (child Downloads (lit "a.txt"))
           ([], [])
           (with_fs first_sort
              (<[child Downloads (lit "a.txt") := File (lit "second")]>
                 (fs first_sort)))
           (lit "second")).
  - vm_compute. reflexivity.
  - vm_compute. discriminate.
  - vm_compute. reflexivity.
  - vm_compute. eexists. reflexivity.
Defined.

(** ** The claims on [undo] and on the round trip, on examples *)

Lemma C1_round_trip_witness :
  exists w1 w2,
    organize Downloads category_folders
      [lit "photo.png"; lit "movie.mp4"; lit "notes.txt"; lit "app.exe";
       lit "unknownfile.xyz"] five_files = Ok tt w1 /\
    undo Downloads w1 = Ok tt w2 /\
    (forall p,
       p <> LOG_FOLDER Downloads ->
       (forall x, p <> child (LOG_FOLDER Downloads) x) ->
       (forall cat, cat ∈ category_folders -> p <> child Downloads cat) ->
       fs w2 !! p = fs five_files !! p) /\
    (forall cat, cat ∈ category_folders ->
       no_entries (child Downloads cat) (fs five_files) ->
       fs w2 !! child Downloads cat = None) /\
    (forall cat, cat ∈ category_folders ->
       fs five_files !! child Downloads cat = Some Dir ->
       ~ no_entries (child Downloads cat) (fs five_files) ->
       fs w2 !! child Downloads cat = Some Dir) /\
    fs w2 !! UNDO_FILE Downloads = None.
Proof.
  apply (C1_round_trip Downloads category_folders
           [lit "photo.png"; lit "movie.mp4"; lit "notes.txt"; lit "app.exe";
            lit "unknownfile.xyz"] five_files).
  unfold sortable.
  split; [apply (bool_decide_unpack _); vm_compute; exact I|].
  split; [apply (bool_decide_unpack _); vm_compute; exact I|].
  split; [vm_compute; reflexivity|].
  split; [apply (bool_decide_unpack _); vm_compute; exact I|].
  split; [apply (bool_decide_unpack _); vm_compute; exact I|].
  split; [apply (bool_decide_unpack _); vm_compute; exact I|].
  split; [apply (bool_decide_unpack _); vm_compute; exact I|].
  vm_compute. reflexivity.
Defined.

(** C1 as stated fails: a [Documents] folder that held a file before the
    sort is still there after [undo], though [a.txt] is back. *)
Lemma C1_old_folder_counterexample :
  match organize Downloads category_folders
          [lit "a.txt"; lit "Documents"] with_old_documents
  with
  | Ok _ w1 =>
      match undo Downloads w1 with
      | Ok _ w2 =>
          fs w2 !! child Downloads (lit "a.txt") = Some (File (lit "A")) /\
          fs w2 !! child Downloads (lit "Documents") = Some Dir
      | Raise _ _ => False
      end
  | Raise _ _ => False
  end.
Proof. vm_compute. repeat split. Qed.



(** C8 at a folder that holds one regular file named [Images]:
    [organize] moves it under [Others], [undo] puts it back and then
    asks for the entries of [Images], which is no folder: the call
    raises, the emptied [Others] folder is left in place and so is the
    undo file. *)
Theorem C8_category_name_taken_by_a_file :
  match organize Downloads category_folders [lit "Images"] file_named_Images
  with
  | Ok _ w1 =>
      fs w1 !! child (child Downloads (lit "Others")) (lit "Images")
        = Some (File (lit "x")) /\
      match undo Downloads w1 with
      | Raise e w2 =>
          e = NotADirectoryError /\
          fs w2 !! child Downloads (lit "Images") = Some (File (lit "x")) /\
          fs w2 !! child Downloads (lit "Others") = Some Dir /\
          bool_decide (no_entries (child Downloads (lit "Others")) (fs w2))
            = true /\
          is_Some (fs w2 !! UNDO_FILE Downloads)
      | Ok _ _ => False
      end
  | Raise _ _ => False
  end.
Proof. vm_compute. repeat split. by eexists. Qed.

(** * Further properties

    What the claims above leave aside of [organize] and [undo], and the
    program around them. *)

(** ** The extension table *)

Lemma lower_char_idemp c : lower_char (lower_char c) = lower_char c.
Proof. destruct c as [[] [] [] [] [] [] [] []]; reflexivity. Qed.

Lemma lower_idemp s : lower (lower s) = lower s.
Proof.
  unfold lower. rewrite map_map. apply map_ext. intros c.
  apply lower_char_idemp.
Qed.

Lemma dict_get_absent d k dflt :
  k ∉ map fst d -> dict_get d k dflt = dflt.
Proof.
  induction d as [|[k' v] d IH]; [done|]. cbn [map fst dict_get].
  intros H. apply not_elem_of_cons in H as [Hk Hd].
  rewrite decide_False by congruence. by apply IH.
Qed.

Lemma dict_get_present d k v dflt :
  NoDup (map fst d) -> (k, v) ∈ d -> dict_get d k dflt = v.
Proof.
  induction d as [|[k' v'] d IH]; intros Hnd Hin.
  - by apply elem_of_nil in Hin.
  - cbn [map fst] in Hnd. apply NoDup_cons in Hnd as [Hk' Hnd].
    cbn [dict_get]. apply elem_of_cons in Hin as [E|Hin].
    + injection E as -> ->. by rewrite decide_True.
    + destruct (decide (k' = k)) as [->|Hne]; [|by apply IH].
      exfalso. apply Hk'. apply list_elem_of_fmap. by exists (k, v).
Qed.

Lemma NoDup_mapping : NoDup (map fst mapping).
Proof. apply (bool_decide_unpack _). vm_compute. exact I. Qed.

(** X8: the category of an extension is read off the table at its
    lower-case form; an extension whose lower-case form is no key of
    the table goes to [Others], and lowering the case of the extension
    first changes nothing. *)
Theorem X8_get_category_by_table ext C :
  get_category (lower ext) = get_category ext /\
  (get_category ext = C <->
   (lower ext, C) ∈ mapping \/
   (C = lit "Others" /\ lower ext ∉ map fst mapping)).
Proof.
  split; [unfold get_category; by rewrite lower_idemp|].
  unfold get_category. split.
  - intros <-. destruct (decide (lower ext ∈ map fst mapping)) as [Hin|Hout].
    + left. apply list_elem_of_fmap in Hin as ([k v] & Hk & Hin).
      cbn [fst] in Hk. subst k.
      by rewrite (dict_get_present _ _ v _ NoDup_mapping Hin).
    + right. split; [|done]. by apply dict_get_absent.
  - intros [Hin|[-> Hout]].
    + by apply dict_get_present; [apply NoDup_mapping|].
    + by apply dict_get_absent.
Qed.

(** ** Numbered names and the extension *)

Lemma rfind_None c s : c ∉ s -> rfind c s = None.
Proof.
  induction s as [|x s IH]; [done|]. intros H.
  apply not_elem_of_cons in H as [Hx Hs]. cbn [rfind].
  rewrite IH by done. by rewrite decide_False by congruence.
Qed.

Lemma rfind_app_r c a b : c ∉ b -> rfind c (a ++ b) = rfind c a.
Proof.
  intros Hb. induction a as [|x a IH]; cbn [app rfind].
  - by apply rfind_None.
  - by rewrite IH.
Qed.

Lemma rfind_last c a t : c ∉ t -> rfind c (a ++ c :: t) = Some (length a).
Proof.
  intros Ht. induction a as [|x a IH]; cbn [app rfind length].
  - rewrite rfind_None by done. by rewrite decide_True.
  - by rewrite IH.
Qed.

Lemma rfind_Some c s i :
  rfind c s = Some i -> s = take i s ++ c :: drop (S i) s /\ c ∉ drop (S i) s.
Proof.
  revert i. induction s as [|x s IH]; intros i; [done|]. cbn [rfind].
  destruct (rfind c s) as [j|] eqn:E.
  - intros [= <-]. destruct (IH j eq_refl) as [H1 H2].
    cbn [take drop app]. split; [by f_equal | done].
  - destruct (decide (x = c)) as [->|]; [|done]. intros [= <-].
    cbn [take drop app]. split; [done|].
    clear IH. induction s as [|y s IH]; [apply not_elem_of_nil|].
    cbn [rfind] in E. destruct (rfind c s); [done|].
    destruct (decide (y = c)); [done|].
    apply not_elem_of_cons. split; [congruence | by apply IH].
Qed.

Lemma dot_not_digit N : "."%char ∉ str_of_nat N.
Proof.
  assert (H : Forall (fun c => c <> "."%char) (str_of_nat N)).
  { unfold str_of_nat. generalize (Nat.to_uint N) as d.
    induction d as [|d IH|d IH|d IH|d IH|d IH|d IH|d IH|d IH|d IH|d IH];
      cbn; constructor; try done. }
  intros Hin. rewrite Forall_forall in H. by apply (H _ Hin).
Qed.

Lemma no_key_with_underscore :
  Forall (fun kv => forall s, kv.1 <> "."%char :: "_"%char :: s) mapping.
Proof.
  assert (H : Forall (fun kv => nth 1 kv.1 "."%char <> "_"%char) mapping).
  { apply (bool_decide_unpack _). vm_compute. exact I. }
  eapply Forall_impl; [exact H|]. intros [k v]. cbn [fst].
  intros Hk s ->. by apply Hk.
Qed.

Lemma get_category_underscore s :
  get_category ("."%char :: "_"%char :: s) = lit "Others".
Proof.
  unfold get_category. apply dict_get_absent.
  intros Hin. apply list_elem_of_fmap in Hin as (kv & Hk & Hin).
  pose proof no_key_with_underscore as H. rewrite Forall_forall in H.
  apply (H kv Hin (lower s)). rewrite <- Hk. reflexivity.
Qed.

(** X6: the name the duplicate loop builds, stem_N followed by the
    suffix, has the suffix of the file when the file has one, and in
    every case falls in the category of the file: a renamed file
    belongs to the folder it is put in. *)
Theorem X6_numbered_name_keeps_category n N :
  let x := stem_of n ++ "_"%char :: str_of_nat N ++ suffix_of n in
  (suffix_of n <> [] -> suffix_of x = suffix_of n) /\
  get_category (suffix_of x) = get_category (suffix_of n).
Proof.
  cbn zeta.
  assert (Hdigits : "."%char ∉ "_"%char :: str_of_nat N).
  { apply not_elem_of_cons. split; [done | apply dot_not_digit]. }
  destruct (suffix_at n) as [i|] eqn:Hs.
  - assert (stem_of n = take i n) as -> by (unfold stem_of; by rewrite Hs).
    assert (suffix_of n = drop i n) as -> by (unfold suffix_of; by rewrite Hs).
    unfold suffix_at in Hs.
    destruct (rfind "."%char n) as [j|] eqn:Hr; [|done].
    destruct ((0 <? j) && (j <? length n - 1)) eqn:Hb; [|done].
    injection Hs as ->.
    destruct (rfind_Some _ _ _ Hr) as [Hn Hdot].
    apply andb_true_iff in Hb as [H0 H1].
    apply Nat.ltb_lt in H0. apply Nat.ltb_lt in H1.
    set (t := drop (S i) n) in *.
    assert (Ht : 0 < length t).
    { unfold t. rewrite length_drop. lia. }
    assert (Hd : drop i n = "."%char :: t).
    { rewrite Hn at 1. rewrite drop_app_length'; [done|].
      rewrite length_take. lia. }
    rewrite Hd.
    assert (Hx : suffix_of
                   (take i n ++ "_"%char :: str_of_nat N ++ "."%char :: t)
                 = "."%char :: t).
    { replace (take i n ++ "_"%char :: str_of_nat N ++ "."%char :: t)
        with ((take i n ++ "_"%char :: str_of_nat N) ++ "."%char :: t)
        by (rewrite <- app_assoc; reflexivity).
      unfold suffix_of, suffix_at. rewrite rfind_last by done.
      assert ((0 <? length (take i n ++ "_"%char :: str_of_nat N)) = true)
        as ->.
      { apply Nat.ltb_lt. rewrite length_app. cbn [length]. lia. }
      assert ((length (take i n ++ "_"%char :: str_of_nat N)
               <? length ((take i n ++ "_"%char :: str_of_nat N)
                          ++ "."%char :: t) - 1) = true) as ->.
      { apply Nat.ltb_lt. rewrite (length_app _ ("."%char :: t)).
        cbn [length]. lia. }
      cbn [andb]. by rewrite drop_app_length. }
    rewrite Hx. by split.
  - assert (stem_of n = n) as -> by (unfold stem_of; by rewrite Hs).
    assert (suffix_of n = []) as -> by (unfold suffix_of; by rewrite Hs).
    split; [done|]. rewrite app_nil_r.
    unfold suffix_of at 1. unfold suffix_at in *.
    rewrite rfind_app_r by done.
    destruct (rfind "."%char n) as [i|] eqn:Hr; [|done].
    destruct (rfind_Some _ _ _ Hr) as [Hn Hdot].
    assert (Hi : i < length n).
    { apply (f_equal length) in Hn. rewrite length_app, length_take in Hn.
      cbn [length] in Hn. lia. }
    destruct ((0 <? i) && (i <? length (n ++ "_"%char :: str_of_nat N) - 1))
      eqn:Hbx; [|done].
    apply andb_true_iff in Hbx as [H0 _].
    rewrite H0 in Hs. cbn [andb] in Hs.
    apply Nat.ltb_lt in H0.
    destruct (i <? length n - 1) eqn:Hb; [done|].
    apply Nat.ltb_ge in Hb.
    assert (Hlast : drop i n = ["."%char]).
    { rewrite Hn at 1. rewrite drop_app_length' by (rewrite length_take; lia).
      f_equal. apply nil_length_inv. rewrite length_drop. lia. }
    rewrite drop_app_le by lia. rewrite Hlast. cbn [app].
    by rewrite get_category_underscore.
Qed.

(** ** The undo file as a whole *)

(** X14: a list of moves whose records hold no line break and no
    bar in the destination, the destination not starting and the
    original not ending with whitespace, is read back line by line as
    the same records in the same order, followed by one blank line. *)
Theorem X14_ledger_round_trip moves :
  Forall (fun mv => no_newline (record_body mv) /\
                    lstrip (str_path mv.1) = str_path mv.1 /\
                    rstrip (str_path mv.2) = str_path mv.2 /\
                    "|"%char ∉ str_path mv.1) moves ->
  map parse_line (file_lines (ledger_text moves))
  = map (fun mv => Record (str_path mv.1) (str_path mv.2)) moves ++ [Blank].
Proof.
  intros H. rewrite file_lines_ledger.
  - rewrite map_app. f_equal. rewrite map_map. apply Forall_fmap_ext_1.
    eapply Forall_impl; [exact H|]. intros mv (_ & Hl & Hr & Hbar).
    by apply parse_line_record.
  - eapply Forall_impl; [exact H|]. by intros mv (Hnl & _).
Qed.

(** ** The runs of [organize] that return *)

Lemma count_of_incr cat k c :
  count_of cat (incr k c)
  = if decide (k = cat) then S (count_of cat c) else count_of cat c.
Proof.
  induction c as [|[k' v] c IH]; cbn [incr count_of].
  - by destruct (decide (k = cat)).
  - destruct (decide (k' = k)) as [->|Hk]; cbn [count_of].
    + destruct (decide (k = cat)); [lia | done].
    + destruct (decide (k' = cat)) as [->|Hc].
      * by destruct (decide (k = cat)); [congruence|].
      * exact IH.
Qed.

Lemma filter_eq_none (cat : pystr) (l : list pystr) :
  length (filter (fun c => c = cat) l) = 0 <-> cat ∉ l.
Proof.
  induction l as [|c l IH]; [split; [intros _; apply not_elem_of_nil|done]|].
  destruct (decide (c = cat)) as [->|Hne].
  - rewrite filter_cons_True by done. cbn [length]. split; [lia|].
    intros H. exfalso. apply H. by left.
  - rewrite filter_cons_False by done. rewrite IH, not_elem_of_cons.
    split; [intros H; split; [congruence | done] | by intros [_ H]].
Qed.

Section Returns.
Variable SOURCE_FOLDER : Path.
Variable all_categories : list pystr.

Lemma organize_returns entries w w' :
  organize SOURCE_FOLDER all_categories entries w = Ok tt w' ->
  exists m0 st ws,
    log_ready SOURCE_FOLDER w m0 /\
    m0 !! SOURCE_FOLDER = Some Dir /\
    foreach (organize_item SOURCE_FOLDER)
      (map (child SOURCE_FOLDER) entries) ([], [])
      (mkWorld m0 (locked w) (console w ++ [Starting SOURCE_FOLDER])
               (session_log w ++ [Starting SOURCE_FOLDER])) = Ok st ws /\
    fs ws !! UNDO_FILE SOURCE_FOLDER <> Some Dir /\
    fs ws !! LOG_FOLDER SOURCE_FOLDER = Some Dir /\
    w' = mkWorld
           (<[UNDO_FILE SOURCE_FOLDER := File (ledger_text st.1)]> (fs ws))
           (locked ws)
           (console ws ++ empty_reports all_categories st.2
              ++ [Complete (sum_values st.2); UndoSaved])
           (session_log ws ++ empty_reports all_categories st.2
              ++ [Complete (sum_values st.2); UndoSaved]).
Proof.
  unfold organize. unfold bind at 1. unfold ensure_log_folder.
  assert (Hrun : forall m0, log_ready SOURCE_FOLDER w m0 ->
    (log SOURCE_FOLDER (Starting SOURCE_FOLDER);;
     items <- iterdir SOURCE_FOLDER entries;;
     st <- foreach (organize_item SOURCE_FOLDER) items ([], []);;
     category_count <-
       foreach (report_empty SOURCE_FOLDER) all_categories st.2;;
     log SOURCE_FOLDER (Complete (sum_values category_count));;
     write_text (UNDO_FILE SOURCE_FOLDER) (ledger_text st.1);;
     log SOURCE_FOLDER UndoSaved) (with_fs w m0) = Ok tt w' ->
    exists st ws,
      m0 !! SOURCE_FOLDER = Some Dir /\
      foreach (organize_item SOURCE_FOLDER)
        (map (child SOURCE_FOLDER) entries) ([], [])
        (mkWorld m0 (locked w) (console w ++ [Starting SOURCE_FOLDER])
                 (session_log w ++ [Starting SOURCE_FOLDER])) = Ok st ws /\
      fs ws !! UNDO_FILE SOURCE_FOLDER <> Some Dir /\
      fs ws !! LOG_FOLDER SOURCE_FOLDER = Some Dir /\
      w' = mkWorld
             (<[UNDO_FILE SOURCE_FOLDER := File (ledger_text st.1)]> (fs ws))
             (locked ws)
             (console ws ++ empty_reports all_categories st.2
                ++ [Complete (sum_values st.2); UndoSaved])
             (session_log ws ++ empty_reports all_categories st.2
                ++ [Complete (sum_values st.2); UndoSaved])).
  { intros m0 Hready.
    assert (Hlog0 : m0 !! LOG_FOLDER SOURCE_FOLDER = Some Dir).
    { destruct Hready; [done | apply lookup_insert_eq]. }
    unfold bind at 1. rewrite log_spec. cbn [fs with_fs]. rewrite Hlog0.
    unfold bind at 1. unfold iterdir at 1. cbn [fs].
    destruct (m0 !! SOURCE_FOLDER) as [[c|]|] eqn:Hsrc; try done.
    unfold bind at 1. cbn [locked console session_log with_fs].
    match goal with |- context [foreach _ _ _ ?w1] =>
      pose proof (scan_outcome SOURCE_FOLDER m0 entries ([], []) w1) as Hscan
    end.
    cbn [fst fs] in Hscan. specialize (Hscan (scanned_start _ _)).
    destruct (foreach (organize_item SOURCE_FOLDER) _ _ _) as [st w1|e w1];
      [|done].
    destruct Hscan as (new & Hst & Hsum & Hsc & Hl & Hc & Hsl).
    pose proof (scanned_dirs _ _ _ _ _ Hsc Hlog0) as Hlog1.
    unfold bind at 1. rewrite report_empty_loop by done.
    unfold bind at 1. rewrite log_spec. cbn [fs]. rewrite Hlog1.
    unfold bind at 1. unfold write_text at 1. cbn [fs locked].
    assert (Hedit : forall wc text,
      fs wc = <[UNDO_FILE SOURCE_FOLDER := File text]> (fs w1) ->
      log SOURCE_FOLDER UndoSaved wc =
        Ok tt (mkWorld (fs wc) (locked wc) (console wc ++ [UndoSaved])
                       (session_log wc ++ [UndoSaved]))).
    { intros wc text Hwc. rewrite log_spec, Hwc.
      rewrite lookup_insert_ne by apply child_neq. by rewrite Hlog1. }
    destruct (fs w1 !! UNDO_FILE SOURCE_FOLDER) as [[c|]|] eqn:Hundo.
    - case_bool_decide; [done|].
      erewrite Hedit by reflexivity. intros [= <-].
      exists st, w1. rewrite Hundo.
      cbn [fs with_fs locked console session_log].
      rewrite <- !app_assoc. by repeat split.
    - done.
    - unfold UNDO_FILE at 1. rewrite parent_child, Hlog1.
      erewrite Hedit by reflexivity. intros [= <-].
      exists st, w1. rewrite Hundo.
      cbn [fs with_fs locked console session_log].
      rewrite <- !app_assoc. by repeat split. }
  unfold mkdir_exist_ok.
  destruct (fs w !! LOG_FOLDER SOURCE_FOLDER) as [[c|]|] eqn:Hlog; [done| |].
  - intros H. rewrite <- (with_fs_id w) in H at 1.
    destruct (Hrun (fs w) (log_there _ _ Hlog) H) as (st & ws & H').
    exists (fs w), st, ws. split; [by constructor | exact H'].
  - unfold LOG_FOLDER at 1. rewrite parent_child.
    destruct (fs w !! SOURCE_FOLDER) as [[c|]|] eqn:Hsrc; [done| |done].
    intros H.
    destruct (Hrun _ (log_made _ _ Hlog Hsrc) H) as (st & ws & H').
    eexists _, st, ws. split; [by constructor | exact H'].
Qed.

End Returns.

Section Sorted.
Variable SOURCE_FOLDER : Path.

Lemma suffix_child p n : suffix (child p n) = suffix_of n.
Proof. unfold suffix. by rewrite name_child. Qed.

Lemma scan_sorted entries : forall st w st' w',
  foreach (organize_item SOURCE_FOLDER)
    (map (child SOURCE_FOLDER) entries) st w = Ok st' w' ->
  exists new,
    st'.1 = st.1 ++ new /\
    Forall (sorted_record SOURCE_FOLDER entries) new /\
    forall cat,
      count_of cat st'.2
      = count_of cat st.2
        + length (filter (fun c => c = cat) (categories_of new)).
Proof.
  induction entries as [|n entries IH]; intros st w st' w' Hrun.
  - cbn in Hrun. injection Hrun as <- <-. exists [].
    rewrite app_nil_r. repeat split; [constructor|]. intros cat. cbn. lia.
  - cbn [map foreach] in Hrun. unfold bind in Hrun.
    assert (Hweak : forall new,
      Forall (sorted_record SOURCE_FOLDER entries) new ->
      Forall (sorted_record SOURCE_FOLDER (n :: entries)) new).
    { intros new Hnew. eapply Forall_impl; [exact Hnew|].
      intros mv (n' & x & Hin & Hren & ->).
      exists n', x. split; [by right | done]. }
    destruct (organize_item_outcome SOURCE_FOLDER (child SOURCE_FOLDER n) st w)
      as [Hskip|e c Hitem Hname Hno|c m Hitem Hname Hready Hlock
         |c m x r Hitem Hname Hready Hfd Hfree Hlock category dest_path w1 ->].
    + destruct (IH _ _ _ _ Hrun) as (new & H1 & H2 & H3).
      exists new. repeat split; [done | by apply Hweak | done].
    + done.
    + done.
    + destruct (fs w1 !! LOG_FOLDER SOURCE_FOLDER) as [[|]|]; try done.
      destruct (IH _ _ _ _ Hrun) as (new & H1 & H2 & H3).
      cbn [fst snd] in H1, H3.
      exists ((dest_path, child SOURCE_FOLDER n) :: new).
      rewrite H1, <- app_assoc. split; [done|]. split.
      * constructor; [|by apply Hweak].
        exists n, x. split; [by left|]. split.
        -- apply free_dest_renamed in Hfd. by rewrite name_child in Hfd.
        -- subst dest_path category. by rewrite suffix_child.
      * intros cat. rewrite H3, count_of_incr.
        unfold categories_of. cbn [map snd].
        fold (categories_of new). fold category.
        destruct (decide (category = cat)) as [E|E].
        -- rewrite filter_cons_True by done. cbn [length]. lia.
        -- by rewrite filter_cons_False by done.
Qed.

Lemma scan_complete entries : forall st w st' w' n c,
  foreach (organize_item SOURCE_FOLDER)
    (map (child SOURCE_FOLDER) entries) st w = Ok st' w' ->
  n ∈ entries -> n <> lit "organizer.py" ->
  fs w !! child SOURCE_FOLDER n = Some (File c) ->
  child SOURCE_FOLDER n ∈ map snd st'.1.
Proof.
  induction entries as [|e entries IH]; intros st w st' w' n c Hrun Hin Hn Hf.
  - by apply elem_of_nil in Hin.
  - cbn [map foreach] in Hrun. unfold bind in Hrun.
    pose proof (organize_item_outcome SOURCE_FOLDER
                  (child SOURCE_FOLDER e) st w) as Hout.
    destruct (organize_item SOURCE_FOLDER (child SOURCE_FOLDER e) st w)
      as [st1 w1|e1 w1] eqn:Hstep; [|done].
    destruct (decide (e = n)) as [->|Hne].
    + destruct (scan_sorted _ _ _ _ _ Hrun) as (new & -> & _).
      rewrite map_app. apply elem_of_app. left.
      inversion Hout as [Hskip|? ? ? ? ?|? ? ? ? ? ?
         |c' m x r Hitem Hname Hready Hfd Hfree Hlock category dest_path w2 Hr];
        subst.
      * exfalso. apply Hn. rewrite <- (name_child SOURCE_FOLDER n).
        by eapply Hskip.
      * destruct (fs w2 !! LOG_FOLDER SOURCE_FOLDER) as [[|]|];
          try discriminate.
        simplify_eq. cbn [fst]. rewrite map_app.
        apply elem_of_app. right. cbn. by left.
    + apply elem_of_cons in Hin as [->|Hin]; [done|].
      assert (Hkeep : fs w1 !! child SOURCE_FOLDER n = Some (File c)).
      { pose proof (item_step_keeps SOURCE_FOLDER _ _ _ _ n c Hout) as H.
        cbn [world_of] in H. apply H; [|done].
        intros E. apply child_inj in E as [_ E]. by apply Hne. }
      by eapply IH.
Qed.

End Sorted.

Section Runs.
Variable SOURCE_FOLDER : Path.
Variable all_categories : list pystr.

Lemma scan_of_run entries st ws w0 :
  foreach (organize_item SOURCE_FOLDER)
    (map (child SOURCE_FOLDER) entries) ([], []) w0 = Ok st ws ->
  scanned SOURCE_FOLDER (fs w0) st.1 (fs ws) /\
  sum_values st.2 = length st.1 /\
  locked ws = locked w0 /\
  console ws = console w0 ++ map moved_msg st.1 /\
  session_log ws = session_log w0 ++ map moved_msg st.1.
Proof.
  intros Hrun.
  pose proof (scan_outcome SOURCE_FOLDER (fs w0) entries ([], []) w0) as H.
  rewrite Hrun in H. cbn [fst snd] in H.
  destruct (H (scanned_start _ _)) as (new & Hst & Hsum & Hsc & Hl & Hc & Hs).
  cbn in Hst. subst new. by repeat split.
Qed.

Lemma UNDO_FILE_not_root n : child SOURCE_FOLDER n <> UNDO_FILE SOURCE_FOLDER.
Proof. apply child_neq_grandchild. Qed.

Lemma UNDO_FILE_not_sorted cat x :
  cat ∈ category_folders ->
  child (child SOURCE_FOLDER cat) x <> UNDO_FILE SOURCE_FOLDER.
Proof.
  intros Hcat E. unfold UNDO_FILE, LOG_FOLDER in E.
  apply child_inj in E as [E _]. apply child_inj in E as [_ ->].
  by apply Sort_Logs_not_category.
Qed.

Lemma LOG_FOLDER_not_sorted cat x :
  child (child SOURCE_FOLDER cat) x <> LOG_FOLDER SOURCE_FOLDER.
Proof. apply grandchild_neq. Qed.

(** X3: whatever its outcome, [organize] changes nothing but the
    entries of the folder, the entries of the seven category folders
    and the entries of [Sort_Logs] (the undo file and the log files):
    what lies outside the folder, and what lies deeper inside it
    elsewhere, is left as it was. *)
Theorem X3_organize_frame entries w p :
  (forall n, p <> child SOURCE_FOLDER n) ->
  (forall cat x, cat ∈ category_folders ->
                 p <> child (child SOURCE_FOLDER cat) x) ->
  (forall x, p <> child (LOG_FOLDER SOURCE_FOLDER) x) ->
  fs (world_of (organize SOURCE_FOLDER all_categories entries w)) !! p
  = fs w !! p.
Proof.
  intros H1 H2 Hlogs.
  assert (Hu : p <> UNDO_FILE SOURCE_FOLDER) by apply Hlogs.
  pose proof (organize_outcome SOURCE_FOLDER all_categories entries w) as H.
  destruct (organize SOURCE_FOLDER all_categories entries w) as [u w'|e w'];
    cbn [world_of].
  - destruct H as (moves & cc & m0 & m1 & Hready & _ & Hsc & _ & -> & _).
    rewrite lookup_insert_ne by done.
    rewrite (scanned_frame _ _ _ _ _ Hsc H1 H2).
    apply (log_ready_lookup SOURCE_FOLDER w); [done|]. apply H1.
  - destruct H as (moves & m0 & Hm0 & Hsc & _).
    rewrite (scanned_frame _ _ _ _ _ Hsc H1 H2).
    destruct Hm0 as [->|Hready]; [done|].
    apply (log_ready_lookup SOURCE_FOLDER w); [done|]. apply H1.
Qed.

Lemma scan_nothing entries : forall st w,
  (forall n c, fs w !! child SOURCE_FOLDER n = Some (File c) ->
               n = lit "organizer.py") ->
  foreach (organize_item SOURCE_FOLDER)
    (map (child SOURCE_FOLDER) entries) st w = Ok st w.
Proof.
  induction entries as [|n entries IH]; intros st w Hnone; [done|].
  cbn [map foreach]. unfold bind.
  assert (organize_item SOURCE_FOLDER (child SOURCE_FOLDER n) st w = Ok st w)
    as ->.
  { unfold organize_item, bind, is_file.
    destruct (fs w !! child SOURCE_FOLDER n) as [[c|]|] eqn:E; try done.
    rewrite name_child, (Hnone n c E).
    by rewrite bool_decide_eq_true_2. }
  by apply IH.
Qed.

Lemma organize_again entries entries' w w1 w2 :
  organize SOURCE_FOLDER all_categories entries w = Ok tt w1 ->
  (forall n c,
     fs w !! child SOURCE_FOLDER n = Some (File c) -> n ∈ entries) ->
  organize SOURCE_FOLDER all_categories entries' w1 = Ok tt w2 ->
  fs w2 = <[UNDO_FILE SOURCE_FOLDER := File []]> (fs w1).
Proof.
  intros Horg Hall Horg'.
  destruct (organize_returns _ _ _ _ _ Horg)
    as (m0 & st & ws & Hready & Hsrc & Hrun & Hnd & Hlog & ->).
  destruct (scan_of_run _ _ _ _ Hrun) as (Hsc & _). cbn [fs] in Hsc.
  destruct (organize_returns _ _ _ _ _ Horg')
    as (m0' & st' & ws' & Hready' & Hsrc' & Hrun' & Hnd' & Hlog' & ->).
  cbn [fs locked console session_log] in *.
  assert (Hm0' : m0' = <[UNDO_FILE SOURCE_FOLDER := File (ledger_text st.1)]>
                         (fs ws)).
  { destruct Hready' as [Hl|Hl Hs]; cbn [fs] in *; [done|].
    rewrite lookup_insert_ne in Hl by apply child_neq. congruence. }
  subst m0'.
  rewrite scan_nothing in Hrun'.
  - injection Hrun' as <- <-. done.
  - cbn [fs]. intros n c Hf.
    rewrite lookup_insert_ne in Hf by apply not_eq_sym, UNDO_FILE_not_root.
    destruct (decide (n = lit "organizer.py")) as [->|Hn]; [done|].
    exfalso.
    pose proof (scanned_root_files _ _ _ _ _ _ Hsc Hf) as H0.
    assert (H0w : fs w !! child SOURCE_FOLDER n = Some (File c))
      by by apply (log_ready_file SOURCE_FOLDER w m0).
    assert (Hrec : child SOURCE_FOLDER n ∈ map snd st.1).
    { eapply scan_complete; [exact Hrun | by eapply Hall | done | done]. }
    apply list_elem_of_fmap in Hrec as (mv & Hmv2 & Hmv).
    destruct (scanned_records _ _ _ _ Hsc) as (_ & _ & Hrecs).
    rewrite Forall_forall in Hrecs.
    destruct (Hrecs _ Hmv) as (? & ? & ? & ? & _ & _ & _ & _ & _ & _ & H2).
    rewrite <- Hmv2 in H2. by apply (H2 c).
Qed.

End Runs.

Section Listed.
Variable SOURCE_FOLDER : Path.
Variable all_categories : list pystr.

Lemma organize_sorts entries w w' n c :
  organize SOURCE_FOLDER all_categories entries w = Ok tt w' ->
  n ∈ entries -> n <> lit "organizer.py" ->
  fs w !! child SOURCE_FOLDER n = Some (File c) ->
  exists x moves,
    renamed n x /\
    let dest := child (child SOURCE_FOLDER (get_category (suffix_of n))) x in
    fs w !! dest = None /\
    fs w' !! dest = Some (File c) /\
    (fs w' !! child SOURCE_FOLDER n = None \/
     (n ∈ category_folders /\ fs w' !! child SOURCE_FOLDER n = Some Dir)) /\
    fs w' !! UNDO_FILE SOURCE_FOLDER = Some (File (ledger_text moves)) /\
    (dest, child SOURCE_FOLDER n) ∈ moves.
Proof.
  intros Horg Hin Hn Hfile.
  destruct (organize_returns _ _ _ _ _ Horg)
    as (m0 & st & ws & Hready & Hsrc & Hrun & Hnd & Hlog & ->).
  destruct (scan_of_run _ _ _ _ _ Hrun) as (Hsc & _). cbn [fs] in Hsc.
  assert (H0 : m0 !! child SOURCE_FOLDER n = Some (File c))
    by by apply (log_ready_file SOURCE_FOLDER w).
  assert (Hrec : child SOURCE_FOLDER n ∈ map snd st.1).
  { eapply scan_complete; [exact Hrun | done | done | done]. }
  apply list_elem_of_fmap in Hrec as (mv & Hmv2 & Hmv).
  destruct (scan_sorted _ _ _ _ _ _ Hrun) as (new & Hnew & Hsorted & _).
  cbn in Hnew. subst new.
  rewrite Forall_forall in Hsorted.
  destruct (Hsorted mv Hmv) as (n' & x & _ & Hren & ->).
  cbn [snd] in Hmv2. apply child_inj in Hmv2 as [_ <-].
  destruct (scanned_records _ _ _ _ Hsc) as (_ & _ & Hrecs).
  rewrite Forall_forall in Hrecs.
  destruct (Hrecs _ Hmv)
    as (n2 & cat & x2 & c2 & _ & _ & _ & _ & H0' & H1 & H2).
  cbn [fst snd] in H0', H1, H2.
  assert (c2 = c) as -> by congruence.
  pose proof (scanned_dest_was_free _ _ _ _ Hsc) as Hfree.
  rewrite Forall_forall in Hfree. specialize (Hfree _ Hmv). cbn [fst] in Hfree.
  exists x, st.1. cbn zeta. cbn [fs].
  split; [done|]. split.
  { rewrite <- (log_ready_lookup SOURCE_FOLDER w m0); [done..|].
    apply LOG_FOLDER_not_sorted. }
  split.
  { rewrite lookup_insert_ne; [done|]. apply not_eq_sym, UNDO_FILE_not_sorted.
    apply get_category_total. }
  split.
  { rewrite lookup_insert_ne by apply not_eq_sym, UNDO_FILE_not_root.
    destruct (fs ws !! child SOURCE_FOLDER n) as [[c'|]|] eqn:E.
    - by destruct (H2 c').
    - right. split; [|done].
      destruct (scanned_dir_origin _ _ _ _ _ Hsc E) as [Hd|Hd];
        [congruence | done].
    - by left. }
  split; [apply lookup_insert_eq | done].
Qed.

(** X1: in a run of [organize] that returns, every listed regular
    file of the folder other than [organizer.py] is in the folder of
    its category, under its own name or a numbered one that was free,
    with its content; it has a record in the undo file, and its old
    place is empty, or taken by a category folder of the same name. *)
Theorem X1_organize_sorts_listed_files entries w n c :
  n ∈ entries -> n <> lit "organizer.py" ->
  fs w !! child SOURCE_FOLDER n = Some (File c) ->
  match organize SOURCE_FOLDER all_categories entries w with
  | Ok _ w' =>
      exists x moves,
        renamed n x /\
        let dest :=
          child (child SOURCE_FOLDER (get_category (suffix_of n))) x in
        fs w !! dest = None /\
        fs w' !! dest = Some (File c) /\
        (fs w' !! child SOURCE_FOLDER n = None \/
         (n ∈ category_folders /\
          fs w' !! child SOURCE_FOLDER n = Some Dir)) /\
        fs w' !! UNDO_FILE SOURCE_FOLDER = Some (File (ledger_text moves)) /\
        (dest, child SOURCE_FOLDER n) ∈ moves
  | Raise _ _ => True
  end.
Proof.
  intros Hin Hn Hfile.
  destruct (organize SOURCE_FOLDER all_categories entries w) as [[] w'|e w']
    eqn:Horg; [|done].
  by eapply organize_sorts.
Qed.

(** X2: a run of [organize] that returns prints, and writes to the
    session log, the same lines: the start, one line per record of the
    undo file in the order of the moves, one line for each category
    that received no file and for no other, the number of files moved,
    and the closing line. *)
Theorem X2_organize_report entries w :
  match organize SOURCE_FOLDER all_categories entries w with
  | Ok _ w' =>
      exists moves,
        fs w' !! UNDO_FILE SOURCE_FOLDER = Some (File (ledger_text moves)) /\
        Forall (sorted_record SOURCE_FOLDER entries) moves /\
        let out :=
          Starting SOURCE_FOLDER :: map moved_msg moves
          ++ map (fun cat => NoneFound (lower cat))
               (filter (fun cat => cat ∉ categories_of moves) all_categories)
          ++ [Complete (length moves); UndoSaved] in
        console w' = console w ++ out /\
        session_log w' = session_log w ++ out
  | Raise _ _ => True
  end.
Proof.
  destruct (organize SOURCE_FOLDER all_categories entries w) as [[] w'|e w']
    eqn:Horg; [|done].
  destruct (organize_returns _ _ _ _ _ Horg)
    as (m0 & st & ws & Hready & Hsrc & Hrun & Hnd & Hlog & ->).
  destruct (scan_of_run _ _ _ _ _ Hrun)
    as (Hsc & Hsum & _ & Hc & Hs).
  destruct (scan_sorted _ _ _ _ _ _ Hrun) as (new & Hnew & Hsorted & Hcount).
  cbn in Hnew. subst new. cbn [snd count_of] in Hcount.
  exists st.1. cbn zeta. cbn [fs console session_log] in *.
  split; [apply lookup_insert_eq|]. split; [done|].
  assert (Hrep : empty_reports all_categories st.2
    = map (fun cat => NoneFound (lower cat))
          (filter (fun cat => cat ∉ categories_of st.1) all_categories)).
  { unfold empty_reports. f_equal. apply list_filter_iff. intros cat.
    rewrite Hcount. cbn [plus]. apply filter_eq_none. }
  rewrite Hc, Hs, Hrep, Hsum. rewrite <- !app_assoc. by split.
Qed.

(** X4: when [organize] has sorted a folder whose regular files were
    all listed, a second run that returns moves nothing: it leaves
    every path as it was but for the entries of [Sort_Logs], where it
    writes an undo file without a record (and its log lines): the
    first sort can no longer be undone. *)
Theorem X4_organize_twice_empties_ledger entries entries' w :
  (forall n c,
     fs w !! child SOURCE_FOLDER n = Some (File c) -> n ∈ entries) ->
  match organize SOURCE_FOLDER all_categories entries w with
  | Ok _ w1 =>
      match organize SOURCE_FOLDER all_categories entries' w1 with
      | Ok _ w2 =>
          fs w2 !! UNDO_FILE SOURCE_FOLDER = Some (File []) /\
          forall p, (forall x, p <> child (LOG_FOLDER SOURCE_FOLDER) x) ->
                    fs w2 !! p = fs w1 !! p
      | Raise _ _ => True
      end
  | Raise _ _ => True
  end.
Proof.
  intros Hall.
  destruct (organize SOURCE_FOLDER all_categories entries w) as [[] w1|e w1]
    eqn:H1; [|done].
  destruct (organize SOURCE_FOLDER all_categories entries' w1) as [[] w2|e w2]
    eqn:H2; [|done].
  rewrite (organize_again _ _ _ _ _ _ _ H1 Hall H2). split.
  - apply lookup_insert_eq.
  - intros p Hp. rewrite lookup_insert_ne; [done|].
    intros E. by apply (Hp (lit "last_undo.log")).
Qed.

End Listed.

(** ** The file of the program *)

(** C9 at the file of the program: the repository names it
    [Organizer.py], and the scan passes over the name [organizer.py]
    only (the comparison tells capitals from small letters).  In the
    folder of the program, a run that lists the program file returns
    with that file moved to [Others] and reported as moved; and so it
    is for every folder, every order of the listing and every content:
    a run that returns has taken a listed regular file named
    [Organizer.py] out of the folder and into [Others], under its own
    name or a numbered one, with a record in the undo file.  What the
    scan does leave in place, whatever the run, is an entry named
    [organizer.py] and every folder, [Sort_Logs] among them. *)
Theorem C9_program_file_is_moved :
  match organize Downloads category_folders
          [lit "Organizer.py"; lit "notes.txt"] program_folder with
  | Ok _ w' =>
      fs w' !! child Downloads (lit "Organizer.py") = None /\
      fs w' !! child (child Downloads (lit "Others")) (lit "Organizer.py")
        = Some (File (lit "#")) /\
      nth 1 (console w') Undoing = Moved (lit "Organizer.py") (lit "Others")
  | Raise _ _ => False
  end /\
  (forall (SOURCE_FOLDER : Path) (all_categories entries : list pystr)
          (w : World) (c : pystr),
    lit "Organizer.py" ∈ entries ->
    fs w !! child SOURCE_FOLDER (lit "Organizer.py") = Some (File c) ->
    match organize SOURCE_FOLDER all_categories entries w with
    | Ok _ w' =>
        fs w' !! child SOURCE_FOLDER (lit "Organizer.py") = None /\
        exists x moves,
          renamed (lit "Organizer.py") x /\
          fs w' !! child (child SOURCE_FOLDER (lit "Others")) x
            = Some (File c) /\
          fs w' !! UNDO_FILE SOURCE_FOLDER
            = Some (File (ledger_text moves)) /\
          (child (child SOURCE_FOLDER (lit "Others")) x,
           child SOURCE_FOLDER (lit "Organizer.py")) ∈ moves
    | Raise _ _ => True
    end) /\
  forall (SOURCE_FOLDER : Path) (all_categories entries : list pystr)
         (w : World) (p : Path),
    fs w !! p = Some Dir \/ p = child SOURCE_FOLDER (lit "organizer.py") ->
    fs (world_of (organize SOURCE_FOLDER all_categories entries w)) !! p
    = fs w !! p.
Proof.
  split; [vm_compute; repeat split|].
  split; [|intros; by apply organize_keeps_folders].
  intros SOURCE_FOLDER all_categories entries w c Hin Hfile.
  destruct (organize SOURCE_FOLDER all_categories entries w)
    as [[] w'|e w'] eqn:Horg; [|done].
  destruct (organize_sorts _ _ _ _ _ _ c Horg Hin) as
    (x & moves & Hren & Hfree & Hdest & Hold & Hledger & Hrec); [done | done |].
  cbn zeta in *.
  change (get_category (suffix_of (lit "Organizer.py")))
    with (lit "Others") in *.
  split.
  - destruct Hold as [H|[Hcat _]]; [done|]. exfalso. revert Hcat.
    apply (bool_decide_unpack _). vm_compute. exact I.
  - by exists x, moves.
Qed.

Section Refused.
Variable SOURCE_FOLDER : Path.
Variable all_categories : list pystr.

(** X7: [organize] stops at its first step, before it prints, logs or
    changes anything, when [Sort_Logs] is a regular file
    ([FileExistsError]), and when [Sort_Logs] is missing from a folder
    that is missing ([FileNotFoundError]) or is a regular file
    ([NotADirectoryError]). *)
Theorem X7_organize_refuses entries w :
  match fs w !! LOG_FOLDER SOURCE_FOLDER, fs w !! SOURCE_FOLDER with
  | Some (File _), _ =>
      organize SOURCE_FOLDER all_categories entries w
        = Raise FileExistsError w
  | None, None =>
      organize SOURCE_FOLDER all_categories entries w
        = Raise FileNotFoundError w
  | None, Some (File _) =>
      organize SOURCE_FOLDER all_categories entries w
        = Raise NotADirectoryError w
  | _, _ => True
  end.
Proof.
  assert (H : forall e,
    mkdir_exist_ok (LOG_FOLDER SOURCE_FOLDER) w = Raise e w ->
    organize SOURCE_FOLDER all_categories entries w = Raise e w).
  { intros e He. unfold organize, ensure_log_folder.
    by rewrite (bind_Raise _ _ _ _ _ He). }
  destruct (fs w !! LOG_FOLDER SOURCE_FOLDER) as [[c|]|] eqn:Hlog; [|done|].
  - apply H. unfold mkdir_exist_ok. by rewrite Hlog.
  - destruct (fs w !! SOURCE_FOLDER) as [[c|]|] eqn:Hsrc; [|done|];
      apply H; unfold mkdir_exist_ok; rewrite Hlog;
      unfold LOG_FOLDER; by rewrite parent_child, Hsrc.
Qed.

End Refused.

Section FreeName.
Variable SOURCE_FOLDER : Path.

(** X5: a regular file that is not locked and whose name is free in
    the folder of its category is moved there under its own name; the
    category folder is made when it is missing; the move is recorded,
    counted, printed and logged. *)
Theorem X5_organize_item_free_name item st w c :
  fs w !! item = Some (File c) ->
  name item <> lit "organizer.py" ->
  item ∉ locked w ->
  let category := get_category (suffix item) in
  let dest_folder := child SOURCE_FOLDER category in
  let dest_path := child dest_folder (name item) in
  fs w !! SOURCE_FOLDER = Some Dir ->
  not_file (fs w !! dest_folder) ->
  fs w !! dest_path = None ->
  fs w !! LOG_FOLDER SOURCE_FOLDER = Some Dir ->
  organize_item SOURCE_FOLDER item st w
    = Ok (st.1 ++ [(dest_path, item)], incr category st.2)
         (mkWorld (<[dest_path := File c]>
                     (delete item (<[dest_folder := Dir]> (fs w))))
                  (locked w)
                  (console w ++ [Moved (name item) category])
                  (session_log w ++ [Moved (name item) category])).
Proof.
  intros Hitem Hname Hlock category dest_folder dest_path Hsrc Hdf Hfree Hlog.
  set (m1 := <[dest_folder := Dir]> (fs w)).
  assert (Hid : item <> dest_folder).
  { intros E. rewrite <- E in Hdf. by apply (Hdf c). }
  assert (Hmk : mkdir_exist_ok dest_folder w = Ok tt (with_fs w m1)).
  { unfold mkdir_exist_ok.
    destruct (fs w !! dest_folder) as [[c'|]|] eqn:E.
    - by destruct (Hdf c').
    - unfold m1. by rewrite insert_id, with_fs_id.
    - unfold dest_folder at 1. by rewrite parent_child, Hsrc. }
  assert (Hm1free : m1 !! dest_path = None).
  { unfold m1. rewrite lookup_insert_ne; [done|]. apply not_eq_sym, child_neq. }
  assert (Hm1item : m1 !! item = Some (File c)).
  { unfold m1. by rewrite lookup_insert_ne. }
  assert (Hfd : free_dest dest_folder item (with_fs w m1)
                = Ok dest_path (with_fs w m1)).
  { unfold free_dest. cbn [fs with_fs]. fold dest_path. rewrite Hm1free.
    rewrite bool_decide_eq_false_2; [done|]. by intros [x Hx]. }
  assert (Hmv : shutil_move item dest_path (with_fs w m1)
                = Ok tt (with_fs w (<[dest_path := File c]> (delete item m1)))).
  { unfold shutil_move. cbn [fs with_fs locked]. rewrite Hm1free, Hm1item.
    cbn [andb]. rewrite bool_decide_eq_false_2 by done.
    unfold dest_path at 1. rewrite parent_child.
    unfold m1 at 1. by rewrite lookup_insert_eq. }
  unfold organize_item.
  assert (Hf : is_file item w = Ok true w).
  { unfold is_file. by rewrite Hitem. }
  rewrite (bind_Ok _ _ _ _ _ Hf).
  rewrite bool_decide_eq_false_2 by done. cbn [andb negb].
  fold category. fold dest_folder.
  rewrite (bind_Ok _ _ _ _ _ Hmk).
  rewrite (bind_Ok _ _ _ _ _ Hfd).
  rewrite (bind_Ok _ _ _ _ _ Hmv).
  unfold bind. rewrite log_spec. cbn [fs with_fs].
  assert (Hl : (<[dest_path := File c]> (delete item m1))
                 !! LOG_FOLDER SOURCE_FOLDER = Some Dir).
  { rewrite lookup_insert_ne by congruence.
    rewrite lookup_delete_ne by congruence.
    unfold m1. destruct (decide (dest_folder = LOG_FOLDER SOURCE_FOLDER))
      as [->|Hne]; [apply lookup_insert_eq|].
    by rewrite lookup_insert_ne. }
  rewrite Hl. reflexivity.
Qed.

End FreeName.

(** ** More on [undo] *)

Lemma bind_Ok_inv {A B} (c : M A) (f : A -> M B) w b w' :
  bind c f w = Ok b w' -> exists a w1, c w = Ok a w1 /\ f a w1 = Ok b w'.
Proof. unfold bind. destruct (c w) as [a w1|e w1]; [eauto | done]. Qed.

Lemma quiet_bind {A B} (c : M A) (f : A -> M B) :
  quiet c -> (forall a, quiet (f a)) -> quiet (bind c f).
Proof.
  intros Hc Hf w. unfold bind. specialize (Hc w).
  destruct (c w) as [a w1|e w1]; cbn [world_of] in *; [|done].
  by rewrite Hf.
Qed.

Lemma quiet_foreach {A S} (body : A -> S -> M S) l :
  (forall x s, quiet (body x s)) -> forall s, quiet (foreach body l s).
Proof.
  intros Hb. induction l as [|x l IH]; intros s; cbn [foreach]; [done|].
  apply quiet_bind; [apply Hb | intros a; apply IH].
Qed.

Lemma lstrip_elem x s : x ∈ lstrip s -> x ∈ s.
Proof.
  induction s as [|c s IH]; [done|]. cbn [lstrip].
  destruct (is_space c); [|done]. intros H. right. by apply IH.
Qed.

Lemma elem_of_rev {A} (x : A) (l : list A) : x ∈ rev l <-> x ∈ l.
Proof. rewrite !list_elem_of_In. symmetry. apply in_rev. Qed.

Lemma strip_elem x s : x ∈ strip s -> x ∈ s.
Proof.
  unfold strip, rstrip. intros H.
  rewrite elem_of_rev in H. apply lstrip_elem in H.
  rewrite elem_of_rev in H. by apply lstrip_elem.
Qed.

Lemma split_once_None sep s : sep ∉ s -> split_once sep s = None.
Proof.
  induction s as [|c s IH]; [done|]. intros H.
  apply not_elem_of_cons in H as [Hc Hs]. cbn [split_once].
  rewrite decide_False by congruence. by rewrite IH.
Qed.

Lemma parse_line_blank line : strip line = [] -> parse_line line = Blank.
Proof. intros H. unfold parse_line. by rewrite H. Qed.

Lemma parse_line_malformed line :
  strip line <> [] -> "|"%char ∉ line -> parse_line line = Malformed.
Proof.
  intros Hne Hbar. unfold parse_line.
  rewrite bool_decide_eq_false_2 by done.
  rewrite split_once_None; [done|]. intros H. by apply Hbar, strip_elem.
Qed.

Section UndoMore.
Variable SOURCE_FOLDER : Path.

Lemma undo_no_ledger w :
  fs w !! UNDO_FILE SOURCE_FOLDER = None ->
  undo SOURCE_FOLDER w
    = Ok tt (mkWorld (fs w) (locked w) (console w ++ [NothingToUndo])
                     (session_log w)).
Proof.
  intros H. unfold undo, bind, path_exists. rewrite H.
  rewrite bool_decide_eq_false_2; [done|]. by intros [x Hx].
Qed.

Lemma undo_leaves_no_ledger w w1 :
  undo SOURCE_FOLDER w = Ok tt w1 ->
  fs w1 !! UNDO_FILE SOURCE_FOLDER = None /\
  undo SOURCE_FOLDER w1
    = Ok tt (mkWorld (fs w1) (locked w1) (console w1 ++ [NothingToUndo])
                     (session_log w1)).
Proof.
  intros H.
  assert (Hgone : fs w1 !! UNDO_FILE SOURCE_FOLDER = None).
  { destruct (fs w !! UNDO_FILE SOURCE_FOLDER) as [nd|] eqn:E.
    - unfold undo in H. apply bind_Ok_inv in H as (e & w0 & He & H).
      unfold path_exists in He. injection He as <- <-.
      rewrite E in H. rewrite bool_decide_eq_true_2 in H by by eexists.
      cbn [negb] in H.
      apply bind_Ok_inv in H as (? & wa & _ & H).
      apply bind_Ok_inv in H as (text & wb & _ & H).
      apply bind_Ok_inv in H as (count & wc & _ & H).
      apply bind_Ok_inv in H as (? & wd & _ & H).
      apply bind_Ok_inv in H as (? & we & Hun & H).
      unfold print in H. injection H as <-. cbn [fs].
      unfold unlink in Hun.
      destruct (fs wd !! UNDO_FILE SOURCE_FOLDER) as [[c|]|]; try done.
      case_bool_decide; [done|]. simplify_eq. cbn [fs with_fs].
      apply lookup_delete_eq.
    - rewrite undo_no_ledger in H by done. by injection H as <-. }
  split; [done | by apply undo_no_ledger].
Qed.

(** X9: an [undo] that returns leaves no undo file behind, so that a
    second [undo] changes nothing and prints that there is nothing to
    undo. *)
Theorem X9_undo_is_one_shot w :
  match undo SOURCE_FOLDER w with
  | Ok _ w1 =>
      fs w1 !! UNDO_FILE SOURCE_FOLDER = None /\
      undo SOURCE_FOLDER w1
        = Ok tt (mkWorld (fs w1) (locked w1) (console w1 ++ [NothingToUndo])
                         (session_log w1))
  | Raise _ _ => True
  end.
Proof.
  destruct (undo SOURCE_FOLDER w) as [[] w1|e w1] eqn:H; [|done].
  by apply (undo_leaves_no_ledger w).
Qed.

(** X10: when the first line of the undo file that is not blank
    holds no bar, [undo] raises [ValueError] having printed its first
    line only: nothing is restored, no folder is removed, and the undo
    file stays. *)
Theorem X10_undo_malformed_line w text pre bad post :
  fs w !! UNDO_FILE SOURCE_FOLDER = Some (File text) ->
  UNDO_FILE SOURCE_FOLDER ∉ locked w ->
  file_lines text = pre ++ bad :: post ->
  Forall (fun line => strip line = []) pre ->
  strip bad <> [] ->
  "|"%char ∉ bad ->
  undo SOURCE_FOLDER w
    = Raise ValueError
        (mkWorld (fs w) (locked w) (console w ++ [Undoing]) (session_log w)).
Proof.
  intros Hfile Hlock Hlines Hpre Hbad Hbar.
  unfold undo. unfold bind at 1. unfold path_exists at 1. rewrite Hfile.
  rewrite bool_decide_eq_true_2 by by eexists. cbn [negb].
  unfold bind at 1. unfold print at 1.
  unfold bind at 1. unfold read_text at 1. cbn [fs locked].
  rewrite Hfile. rewrite bool_decide_eq_false_2 by done.
  rewrite Hlines. unfold bind at 1. rewrite foreach_app.
  assert (Hskip : forall count w0,
            foreach undo_line pre count w0 = Ok count w0).
  { clear Hlines. intros count w0.
    induction Hpre as [|l pre Hl Hpre IH]; [done|].
    cbn [foreach]. unfold bind at 1. unfold undo_line at 1.
    rewrite (parse_line_blank _ Hl). unfold ret at 1. exact IH. }
  rewrite Hskip. cbn [foreach]. unfold bind at 1. unfold undo_line at 1.
  by rewrite (parse_line_malformed _ Hbad Hbar).
Qed.

(** X11: when the original path of a record is a folder by now,
    [undo] puts the file inside that folder, under the name it has in
    the category folder, and counts it as restored; when that name is
    taken there, the move raises and nothing changes. *)
Theorem X11_undo_line_into_folder line a b count w c :
  parse_line line = Record a b ->
  let new_path := Path_of_str a in
  let old_path := Path_of_str b in
  fs w !! new_path = Some (File c) ->
  new_path ∉ locked w ->
  fs w !! old_path = Some Dir ->
  fs w !! parent old_path = Some Dir ->
  match fs w !! child old_path (name new_path) with
  | None =>
      undo_line line count w
        = Ok (count + 1)
             (mkWorld (<[child old_path (name new_path) := File c]>
                         (delete new_path (fs w)))
                      (locked w) (console w ++ [Restored (name old_path)])
                      (session_log w))
  | Some _ => undo_line line count w = Raise ShutilError w
  end.
Proof.
  intros Hline new_path old_path Hnew Hlock Hold Hpar.
  rewrite (undo_line_record _ _ _ _ _ Hline).
  fold new_path old_path.
  assert (Hne : new_path <> old_path) by congruence.
  destruct (fs w !! child old_path (name new_path)) as [nd|] eqn:E;
    unfold restore; unfold bind at 1; unfold path_exists at 1; rewrite Hnew;
    rewrite bool_decide_eq_true_2 by (by eexists);
    unfold bind at 1; unfold mkdir_exist_ok at 1; rewrite Hpar;
    unfold bind at 1; unfold shutil_move; rewrite Hold;
    rewrite (bool_decide_eq_false_2 (new_path = old_path)) by done;
    cbn [negb andb]; rewrite E.
  - by rewrite bool_decide_eq_true_2 by by eexists.
  - rewrite bool_decide_eq_false_2 by by intros [x Hx].
    rewrite Hnew. rewrite bool_decide_eq_false_2 by done.
    rewrite parent_child, Hold. reflexivity.
Qed.

Lemma remove_if_empty_cases cat w :
  (remove_if_empty SOURCE_FOLDER cat tt w = Ok tt w) \/
  (exists e, remove_if_empty SOURCE_FOLDER cat tt w = Raise e w) \/
  (fs w !! child SOURCE_FOLDER cat = Some Dir /\
   no_entries (child SOURCE_FOLDER cat) (fs w) /\
   remove_if_empty SOURCE_FOLDER cat tt w
     = Ok tt (with_fs w (delete (child SOURCE_FOLDER cat) (fs w)))).
Proof.
  destruct (fs w !! child SOURCE_FOLDER cat) as [[c|]|] eqn:E.
  - right. left. exists NotADirectoryError.
    unfold remove_if_empty. unfold bind at 1. unfold path_exists at 1.
    rewrite E. rewrite bool_decide_eq_true_2 by by eexists.
    unfold bind at 1. unfold any_iterdir at 1. by rewrite E.
  - destruct (decide (no_entries (child SOURCE_FOLDER cat) (fs w)))
      as [Hno|Hno].
    + right. right. split; [done|]. split; [done|].
      by apply remove_if_empty_here.
    + left. apply remove_if_empty_skip; [by rewrite E|]. by intros [_ H].
  - left. apply remove_if_empty_skip; [by rewrite E|]. rewrite E.
    by intros [H _].
Qed.

(** X12: whatever its outcome, the loop of [undo] over the category
    folders leaves every entry of the tree as it was, except category
    folders that were empty folders, which it removes. *)
Theorem X12_prune_removes_empty_folders_only cats : forall w p,
  let w' := world_of (foreach (remove_if_empty SOURCE_FOLDER) cats tt w) in
  fs w' !! p = fs w !! p \/
  (fs w' !! p = None /\ fs w !! p = Some Dir /\ no_entries p (fs w) /\
   exists cat, cat ∈ cats /\ p = child SOURCE_FOLDER cat).
Proof.
  induction cats as [|cat cats IH]; intros w p; cbn zeta; [by left|].
  cbn [foreach]. unfold bind.
  destruct (remove_if_empty_cases cat w) as [->|[[e ->]|(Hd & Hno & ->)]].
  - destruct (IH w p) as [H|(H1 & H2 & H3 & cat' & Hin & ->)]; [by left|].
    right. repeat split; try done. exists cat'. split; [by right | done].
  - by left.
  - set (w1 := with_fs w (delete (child SOURCE_FOLDER cat) (fs w))).
    assert (Hsame : forall q, q <> child SOURCE_FOLDER cat ->
                              fs w1 !! q = fs w !! q).
    { intros q Hq. cbn [fs w1 with_fs]. by rewrite lookup_delete_ne. }
    destruct (decide (p = child SOURCE_FOLDER cat)) as [->|Hp].
    + right. split; [|split; [done|split; [done|]]].
      * destruct (IH w1 (child SOURCE_FOLDER cat))
          as [H|(H1 & H2 & _)]; cbn zeta in *.
        -- rewrite H. cbn [fs w1 with_fs]. apply lookup_delete_eq.
        -- done.
      * exists cat. split; [by left | done].
    + destruct (IH w1 p) as [H|(H1 & H2 & H3 & cat' & Hin & ->)];
        cbn zeta in *.
      * left. by rewrite H, Hsame.
      * right. rewrite Hsame in H2 by done.
        split; [done|]. split; [done|]. split.
        -- cbn [fs w1 with_fs] in H3.
           apply no_entries_delete in H3; [done|].
           intros [E _]. rewrite parent_child in E.
           symmetry in E. by apply child_neq in E.
        -- exists cat'. split; [by right | done].
Qed.

Lemma quiet_restore new_path old_path count :
  quiet (restore new_path old_path count).
Proof.
  unfold restore. apply quiet_bind; [done|]. intros e.
  destruct e; [|done].
  apply quiet_bind.
  { intros w. unfold mkdir_exist_ok. by repeat case_match. }
  intros _. apply quiet_bind.
  { intros w. unfold shutil_move. cbn zeta.
    repeat (case_match || case_bool_decide); done. }
  intros _. by apply quiet_bind.
Qed.

Lemma quiet_undo_line line count : quiet (undo_line line count).
Proof.
  unfold undo_line. destruct (parse_line line); [done..|].
  apply quiet_restore.
Qed.

Lemma quiet_remove_if_empty cat u : quiet (remove_if_empty SOURCE_FOLDER cat u).
Proof.
  intros w. destruct u.
  by destruct (remove_if_empty_cases cat w) as [->|[[e ->]|(_ & _ & ->)]].
Qed.

(** X13: [undo] reports on the console only: whatever its outcome,
    it writes nothing to the session log. *)
Theorem X13_undo_writes_no_log w :
  session_log (world_of (undo SOURCE_FOLDER w)) = session_log w.
Proof.
  revert w. change (quiet (undo SOURCE_FOLDER)). unfold undo.
  apply quiet_bind; [done|]. intros e. destruct e; cbn [negb]; [|done].
  apply quiet_bind; [done|]. intros _.
  apply quiet_bind.
  { intros w. unfold read_text.
    repeat (case_match || case_bool_decide); done. }
  intros text. apply quiet_bind.
  { apply quiet_foreach. intros; apply quiet_undo_line. }
  intros count. apply quiet_bind.
  { apply quiet_foreach. intros; apply quiet_remove_if_empty. }
  intros _. apply quiet_bind; [|done].
  intros w. unfold unlink. repeat (case_match || case_bool_decide); done.
Qed.

End UndoMore.

(** ** The folder prompt and the configuration file *)

Local Open Scope sh_scope.

Lemma sbind_Fine {A B} (c : Sh A) (f : A -> Sh B) s a s' :
  c s = Fine a s' -> sbind c f s = f a s'.
Proof. unfold sbind. by intros ->. Qed.

Lemma sbind_Crash {A B} (c : Sh A) (f : A -> Sh B) s e s' :
  c s = Crash e s' -> sbind c f s = Crash e s'.
Proof. unfold sbind. by intros ->. Qed.

Lemma shows_settled (s : Session) :
  settled s -> shows (files s) s = s.
Proof.
  unfold settled, shows. destruct s as [[m l c g] i t]. cbn. intros ->.
  cbn. by rewrite app_nil_r.
Qed.

Lemma engine_query {A} (c : M A) a s :
  settled s -> c (files s) = Ok a (files s) -> engine c s = Fine a s.
Proof.
  intros Hs Hc. unfold engine. rewrite Hc. by rewrite shows_settled.
Qed.

Lemma ask_folder_refused b line rest w t :
  console w = [] ->
  ~ accepted (fs w) line ->
  ask_folder (S b) (mkSession w (line :: rest) t)
  = ask_folder b (mkSession w rest (t ++ refused_round (fs w) line)).
Proof.
  intros Hc Hacc. cbn [ask_folder].
  unfold sbind at 1. unfold say at 1. cbn [files stdin terminal].
  unfold sbind at 1. unfold input at 1. cbn [files stdin terminal].
  fold (answer line). fold (chosen line).
  unfold refused_round, refusal.
  case_bool_decide as Hans.
  - unfold sbind at 1. unfold say at 1. cbn [files stdin terminal].
    by rewrite <- !app_assoc.
  - assert (Hset : settled (mkSession w rest
                      ((t ++ [EnterFullPath]) ++ [Asked FolderPath]))) by done.
    destruct (fs w !! chosen line) as [[c|]|] eqn:E.
    + erewrite sbind_Fine; last first.
      { apply engine_query; [done|]. unfold path_exists. cbn [files]. done. }
      rewrite E. rewrite bool_decide_eq_true_2 by by eexists. cbn [negb].
      erewrite sbind_Fine; last first.
      { apply engine_query; [done|]. unfold is_dir. cbn [files]. done. }
      rewrite E. cbn [negb].
      unfold sbind at 1. unfold say at 1. cbn [files stdin terminal].
      by rewrite <- !app_assoc.
    + exfalso. apply Hacc. by split.
    + erewrite sbind_Fine; last first.
      { apply engine_query; [done|]. unfold path_exists. cbn [files]. done. }
      rewrite E. rewrite bool_decide_eq_false_2 by by intros [x Hx].
      cbn [negb].
      unfold sbind at 1. unfold say at 1. cbn [files stdin terminal].
      by rewrite <- !app_assoc.
Qed.

Lemma ask_folder_accepted b line rest w t :
  console w = [] ->
  accepted (fs w) line ->
  ask_folder (S b) (mkSession w (line :: rest) t)
  = match write_text CONFIG_FILE (str_path (chosen line)) w with
    | Ok _ w' =>
        Fine (chosen line)
          (mkSession w' rest
             (t ++ [EnterFullPath; Asked FolderPath; FolderSet (chosen line)]))
    | Raise e w' =>
        Crash (Raised e)
          (mkSession w' rest (t ++ [EnterFullPath; Asked FolderPath]))
    end.
Proof.
  intros Hc [Hans Hdir]. cbn [ask_folder].
  unfold sbind at 1. unfold say at 1. cbn [files stdin terminal].
  unfold sbind at 1. unfold input at 1. cbn [files stdin terminal].
  fold (answer line). fold (chosen line).
  rewrite bool_decide_eq_false_2 by done.
  assert (Hset : settled (mkSession w rest
                    ((t ++ [EnterFullPath]) ++ [Asked FolderPath]))) by done.
  erewrite sbind_Fine; last first.
  { apply engine_query; [done|]. unfold path_exists. cbn [files]. done. }
  rewrite Hdir. rewrite bool_decide_eq_true_2 by by eexists. cbn [negb].
  erewrite sbind_Fine; last first.
  { apply engine_query; [done|]. unfold is_dir. cbn [files]. done. }
  rewrite Hdir. cbn [negb].
  unfold sbind at 1. unfold engine at 1. cbn [files].
  assert (Hcon : console (world_of
                   (write_text CONFIG_FILE (str_path (chosen line)) w)) = []).
  { unfold write_text. repeat (case_match || case_bool_decide); done. }
  destruct (write_text CONFIG_FILE (str_path (chosen line)) w)
    as [u w'|e w']; cbn [world_of] in Hcon.
  - unfold shows. cbn [files stdin terminal]. rewrite Hcon.
    unfold sbind, say, sret. cbn [files stdin terminal map].
    rewrite app_nil_r, <- !app_assoc. destruct w'; cbn in *. by subst.
  - unfold shows. cbn [files stdin terminal]. rewrite Hcon.
    cbn [map]. rewrite app_nil_r, <- !app_assoc. destruct w'; cbn in *.
    by subst.
Qed.

Lemma split_on_no_sep sep s :
  Forall (fun part => sep ∉ part) (split_on sep s).
Proof.
  induction s as [|c s IH]; cbn [split_on].
  - constructor; [apply not_elem_of_nil | constructor].
  - destruct (decide (c = sep)) as [->|Hc].
    + constructor; [apply not_elem_of_nil | done].
    + destruct (split_on sep s) as [|w ws]; inversion IH; subst.
      * constructor; [|constructor]. apply not_elem_of_cons.
        split; [congruence | apply not_elem_of_nil].
      * constructor; [|done]. apply not_elem_of_cons. split; [congruence|done].
Qed.

Lemma Path_of_str_parts x :
  Forall (fun part => part <> [] /\ part <> ["."%char] /\ "/"%char ∉ part)
         (Path_of_str x).2.
Proof.
  unfold Path_of_str. cbn [snd]. apply Forall_forall. intros part Hin.
  apply list_elem_of_filter in Hin as [Hkeep Hin].
  pose proof (split_on_no_sep "/"%char x) as Hsep.
  rewrite Forall_forall in Hsep.
  unfold keep_part in Hkeep. apply andb_true_iff in Hkeep as [H1 H2].
  apply negb_true_iff in H1, H2.
  apply bool_decide_eq_false in H1, H2. repeat split; [done..|].
  by apply Hsep.
Qed.

Lemma universal_newlines_id s : "013"%char ∉ s -> universal_newlines s = s.
Proof.
  intros H. rewrite <- (app_nil_r s) at 1.
  rewrite universal_newlines_app by done. cbn. by rewrite app_nil_r.
Qed.

Lemma write_text_Ok p text w u w' :
  write_text p text w = Ok u w' ->
  w' = with_fs w (<[p := File text]> (fs w)) /\ fs w !! p <> Some Dir.
Proof.
  unfold write_text. intros H.
  destruct (fs w !! p) as [[c|]|] eqn:E.
  - case_bool_decide; [done|]. by simplify_eq.
  - done.
  - destruct (fs w !! parent p) as [[c|]|]; by simplify_eq.
Qed.

Lemma first_accepted m lines :
  Forall (fun l => ~ accepted m l) lines \/
  exists skipped line rest,
    lines = skipped ++ line :: rest /\
    Forall (fun l => ~ accepted m l) skipped /\ accepted m line.
Proof.
  induction lines as [|l lines IH]; [by left|].
  destruct (decide (accepted m l)) as [Ha|Hn].
  - right. exists [], l, lines. split; [done|]. split; [constructor | done].
  - destruct IH as [H|(sk & line & rest & -> & Hsk & Ha)].
    + left. by constructor.
    + right. exists (l :: sk), line, rest.
      split; [done|]. split; [by constructor | done].
Qed.

Lemma ask_folder_skips skipped : forall b w t lines,
  console w = [] ->
  Forall (fun l => ~ accepted (fs w) l) skipped ->
  ask_folder (length skipped + b) (mkSession w (skipped ++ lines) t)
  = ask_folder b
      (mkSession w lines
         (t ++ concat (map (refused_round (fs w)) skipped))).
Proof.
  induction skipped as [|l skipped IH]; intros b w t lines Hc Hsk.
  - cbn. by rewrite app_nil_r.
  - inversion Hsk as [|? ? Hl Hsk']; subst. cbn [length plus app].
    rewrite ask_folder_refused by done.
    rewrite IH by done.
    cbn [map concat]. by rewrite <- app_assoc.
Qed.

Lemma ask_folder_eof b w t :
  ask_folder (S b) (mkSession w [] t)
  = Crash EOFError (mkSession w [] (t ++ [EnterFullPath; Asked FolderPath])).
Proof.
  cbn [ask_folder]. unfold sbind, say, input. cbn [files stdin terminal].
  by rewrite <- app_assoc.
Qed.

Lemma set_new_directory_gives_up s :
  settled s ->
  Forall (fun line => ~ accepted (fs (files s)) line) (stdin s) ->
  set_new_directory s
  = Crash EOFError
      (mkSession (files s) []
         (terminal s ++ concat (map (refused_round (fs (files s))) (stdin s))
            ++ [EnterFullPath; Asked FolderPath])).
Proof.
  destruct s as [w lines t]. unfold settled. cbn [files stdin terminal].
  intros Hc Hall. unfold set_new_directory. cbn [stdin].
  replace (S (length lines)) with (length lines + 1) by lia.
  rewrite <- (app_nil_r lines) at 2.
  rewrite ask_folder_skips by done.
  rewrite ask_folder_eof. by rewrite <- app_assoc.
Qed.

(** X15: on lines that name their paths as they are written
    ([literal_path]: no [..] component, no two leading slashes), the
    paths being ones the operating system takes, [set_new_directory]
    passes over the lines that are empty
    once stripped of blanks and quotes, or name no folder of the tree,
    and takes the first line that names one: it returns that folder,
    which is there, having written its path to the configuration file
    and nothing else, and leaves the later lines unread.  When no line
    is accepted it ends on [EOFError] with the tree as it was; when
    the configuration file cannot be written the exception of the
    write comes out, and the tree is as it was. *)
Theorem X15_set_new_directory_outcome s :
  settled s ->
  Forall (fun line => literal_path (answer line) /\ fits (chosen line))
         (stdin s) ->
  match set_new_directory s with
  | Fine p s' =>
      exists skipped line rest,
        stdin s = skipped ++ line :: rest /\
        Forall (fun l => ~ accepted (fs (files s)) l) skipped /\
        accepted (fs (files s)) line /\
        p = chosen line /\
        stdin s' = rest /\
        fs (files s') !! p = Some Dir /\
        fs (files s')
          = <[CONFIG_FILE := File (str_path p)]> (fs (files s)) /\
        terminal s'
          = terminal s
            ++ concat (map (refused_round (fs (files s))) skipped)
            ++ [EnterFullPath; Asked FolderPath; FolderSet p]
  | Crash EOFError s' =>
      Forall (fun l => ~ accepted (fs (files s)) l) (stdin s) /\
      stdin s' = [] /\ files s' = files s
  | Crash (Raised e) s' =>
      e <> LoopBudget /\ fs (files s') = fs (files s) /\
      exists skipped line rest,
        stdin s = skipped ++ line :: rest /\
        Forall (fun l => ~ accepted (fs (files s)) l) skipped /\
        accepted (fs (files s)) line /\
        stdin s' = rest
  end.
Proof.
  intros Hs _.
  destruct (first_accepted (fs (files s)) (stdin s))
    as [Hall|(sk & line & rest & Hin & Hsk & Hacc)].
  - rewrite set_new_directory_gives_up by done. by cbn.
  - destruct s as [w lines t]. unfold settled in Hs.
    cbn [files stdin terminal] in *. subst lines.
    unfold set_new_directory. cbn [stdin].
    replace (S (length (sk ++ line :: rest)))
      with (length sk + S (S (length rest)))
      by (rewrite length_app; cbn [length]; lia).
    rewrite ask_folder_skips by done.
    rewrite ask_folder_accepted by done.
    destruct (write_text CONFIG_FILE (str_path (chosen line)) w)
      as [u w'|e w'] eqn:Hw.
    + apply write_text_Ok in Hw as [-> Hnd].
      cbn [files stdin terminal fs with_fs].
      exists sk, line, rest. do 5 (split; [done|]). split; [|split; [done|]].
      * rewrite lookup_insert_ne; [apply Hacc|].
        intros E. apply Hnd. rewrite E. apply Hacc.
      * by rewrite <- app_assoc.
    + cbn [files stdin terminal].
      assert (e <> LoopBudget /\ fs w' = fs w) as [He Hfs].
      { unfold write_text in Hw.
        repeat (case_match || case_bool_decide); simplify_eq; done. }
      split; [done|]. split; [done|]. by exists sk, line, rest.
Qed.

Lemma load_folder_from_config_saved s text :
  settled s ->
  fs (files s) !! CONFIG_FILE = Some (File text) ->
  CONFIG_FILE ∉ locked (files s) ->
  let folder := Path_of_str (strip (universal_newlines text)) in
  fs (files s) !! folder = Some Dir ->
  load_folder_from_config s = Fine folder s.
Proof.
  intros Hs Hconf Hlock folder Hdir. unfold load_folder_from_config.
  erewrite sbind_Fine; last first.
  { apply engine_query; [done|]. unfold path_exists. done. }
  rewrite Hconf. rewrite bool_decide_eq_true_2 by by eexists.
  erewrite sbind_Fine; last first.
  { apply engine_query; [done|]. unfold read_text. rewrite Hconf.
    by rewrite bool_decide_eq_false_2. }
  fold folder.
  erewrite sbind_Fine; last first.
  { apply engine_query; [done|]. unfold path_exists. done. }
  erewrite sbind_Fine; last first.
  { apply engine_query; [done|]. unfold is_dir. done. }
  rewrite Hdir. rewrite bool_decide_eq_true_2 by by eexists. done.
Qed.

Lemma load_folder_from_config_absent s :
  settled s ->
  fs (files s) !! CONFIG_FILE = None ->
  load_folder_from_config s = set_new_directory s.
Proof.
  intros Hs Hconf. unfold load_folder_from_config.
  erewrite sbind_Fine; last first.
  { apply engine_query; [done|]. unfold path_exists. done. }
  rewrite Hconf. by rewrite bool_decide_eq_false_2 by by intros [x Hx].
Qed.

(** X16: the folder [set_new_directory] saved is the one
    [load_folder_from_config] returns at the next start, without
    asking, when its path holds no carriage return and neither
    starts nor ends with whitespace. *)
Theorem X16_saved_folder_is_loaded s :
  settled s ->
  CONFIG_FILE ∉ locked (files s) ->
  match set_new_directory s with
  | Fine p s' =>
      "013"%char ∉ str_path p ->
      strip (str_path p) = str_path p ->
      load_folder_from_config s' = Fine p s'
  | Crash _ _ => True
  end.
Proof.
  intros Hs Hlock.
  destruct (first_accepted (fs (files s)) (stdin s))
    as [Hall|(sk & line & rest & Hin & Hsk & Hacc)].
  - by rewrite set_new_directory_gives_up by done.
  - destruct s as [w lines t]. unfold settled in Hs.
    cbn [files stdin terminal] in *. subst lines.
    unfold set_new_directory. cbn [stdin].
    replace (S (length (sk ++ line :: rest)))
      with (length sk + S (S (length rest)))
      by (rewrite length_app; cbn [length]; lia).
    rewrite ask_folder_skips by done.
    rewrite ask_folder_accepted by done.
    destruct (write_text CONFIG_FILE (str_path (chosen line)) w)
      as [u w'|e w'] eqn:Hw; [|done].
    apply write_text_Ok in Hw as [-> Hnd]. intros Hcr Hstrip.
    assert (Hback : Path_of_str (strip (universal_newlines
                                          (str_path (chosen line))))
                    = chosen line).
    { rewrite universal_newlines_id by done. rewrite Hstrip.
      apply Path_of_str_str_path_any. apply Path_of_str_parts. }
    match goal with |- load_folder_from_config ?s1 = _ =>
      pose proof (load_folder_from_config_saved s1
                    (str_path (chosen line))) as Hload end.
    cbn zeta in Hload. cbn [files fs with_fs locked] in Hload.
    rewrite Hback in Hload. apply Hload;
      [done | apply lookup_insert_eq | done |].
    rewrite lookup_insert_ne; [apply Hacc|].
    intros E. apply Hnd. rewrite E. apply Hacc.
Qed.

(** X17: a configuration file that is blank makes
    [load_folder_from_config] return the working directory,
    [Path(".")], without asking and without a word. *)
Theorem X17_blank_config_selects_working_directory s text :
  settled s ->
  fs (files s) !! CONFIG_FILE = Some (File text) ->
  CONFIG_FILE ∉ locked (files s) ->
  strip (universal_newlines text) = [] ->
  fs (files s) !! Path_of_str (lit ".") = Some Dir ->
  load_folder_from_config s = Fine (Path_of_str (lit ".")) s.
Proof.
  intros Hs Hconf Hlock Hblank Hcwd.
  pose proof (load_folder_from_config_saved s text Hs Hconf Hlock) as H.
  cbn zeta in H. rewrite Hblank in H. by apply H.
Qed.

Local Close Scope sh_scope.

Section ConfigMoved.
Variable all_categories : list pystr.

(** X18: when the folder to sort is the working directory, a run of
    [organize] that returns and was given [organizer_config.txt] in
    its listing has moved the configuration file of the program to
    [Documents]: at the next start [load_folder_from_config] finds no
    configuration and asks for the folder again. *)
Theorem X18_organize_moves_the_config_file entries w c :
  lit "organizer_config.txt" ∈ entries ->
  fs w !! CONFIG_FILE = Some (File c) ->
  match organize (Path_of_str (lit ".")) all_categories entries w with
  | Ok _ w' =>
      fs w' !! CONFIG_FILE = None /\
      (exists x,
         renamed (lit "organizer_config.txt") x /\
         fs w' !! child (child (Path_of_str (lit ".")) (lit "Documents")) x
           = Some (File c)) /\
      forall s, settled s -> fs (files s) = fs w' ->
                load_folder_from_config s = set_new_directory s
  | Raise _ _ => True
  end.
Proof.
  intros Hin Hconf.
  destruct (organize (Path_of_str (lit ".")) all_categories entries w)
    as [[] w'|e w'] eqn:Horg; [|done].
  change CONFIG_FILE
    with (child (Path_of_str (lit ".")) (lit "organizer_config.txt")) in *.
  destruct (organize_sorts _ _ _ _ _ _ c Horg Hin) as
    (x & moves & Hren & Hfree & Hdest & Hold & _); [done | done |].
  cbn zeta in *.
  assert (Hgone : fs w' !! child (Path_of_str (lit "."))
                             (lit "organizer_config.txt") = None).
  { destruct Hold as [H|[Hcat _]]; [done|]. exfalso. revert Hcat.
    apply (bool_decide_unpack _). vm_compute. exact I. }
  split; [done|]. split.
  - exists x. split; [done|].
    change (get_category (suffix_of (lit "organizer_config.txt")))
      with (lit "Documents") in Hdest. exact Hdest.
  - intros s Hs Hfs. apply load_folder_from_config_absent; [done|].
    rewrite Hfs. exact Hgone.
Qed.

End ConfigMoved.

(** ** The menu *)

Lemma within_budget_bind {A B} (c : M A) (f : A -> M B) :
  within_budget c -> (forall a, within_budget (f a)) ->
  within_budget (bind c f).
Proof.
  intros Hc Hf w e w'. unfold bind.
  destruct (c w) as [a w1|e1 w1] eqn:E.
  - apply Hf.
  - intros [= <- <-]. by eapply Hc.
Qed.

Lemma within_budget_foreach {A S} (body : A -> S -> M S) l :
  (forall x s, within_budget (body x s)) ->
  forall s, within_budget (foreach body l s).
Proof.
  intros Hb. induction l as [|x l IH]; intros s; cbn [foreach]; [done|].
  apply within_budget_bind; [apply Hb | intros a; apply IH].
Qed.

Lemma within_budget_ret {A} (a : A) : within_budget (ret a).
Proof. done. Qed.

Lemma within_budget_mkdir p : within_budget (mkdir_exist_ok p).
Proof.
  intros w e w'. unfold mkdir_exist_ok.
  repeat case_match; intros; simplify_eq; done.
Qed.

Lemma within_budget_shutil_move src dst :
  within_budget (shutil_move src dst).
Proof.
  intros w e w'. unfold shutil_move. cbn zeta.
  repeat (case_match || case_bool_decide); intros; simplify_eq; done.
Qed.

Lemma within_budget_log folder x : within_budget (log folder x).
Proof.
  intros w e w'. rewrite log_spec.
  repeat case_match; intros; simplify_eq; done.
Qed.

Lemma within_budget_free_dest dest_folder item :
  within_budget (free_dest dest_folder item).
Proof.
  intros w e w'. destruct (free_dest_fresh dest_folder item w) as (x & -> & _).
  done.
Qed.

Lemma within_budget_organize_item folder item st :
  within_budget (organize_item folder item st).
Proof.
  unfold organize_item. apply within_budget_bind; [done|]. intros f.
  destruct (f && _); [|done].
  apply within_budget_bind; [apply within_budget_mkdir|]. intros _.
  apply within_budget_bind; [apply within_budget_free_dest|]. intros d.
  apply within_budget_bind; [apply within_budget_shutil_move|]. intros _.
  apply within_budget_bind; [apply within_budget_log | done].
Qed.

Lemma within_budget_organize folder cats entries :
  within_budget (organize folder cats entries).
Proof.
  unfold organize, ensure_log_folder.
  apply within_budget_bind; [apply within_budget_mkdir|]. intros _.
  apply within_budget_bind; [apply within_budget_log|]. intros _.
  apply within_budget_bind.
  { intros w e w'. unfold iterdir.
    repeat case_match; intros; simplify_eq; done. }
  intros items. apply within_budget_bind.
  { apply within_budget_foreach. intros. apply within_budget_organize_item. }
  intros st. apply within_budget_bind.
  { apply within_budget_foreach. intros cat cc. unfold report_empty.
    destruct (_ =? _); [|done].
    apply within_budget_bind; [apply within_budget_log | done]. }
  intros cc. apply within_budget_bind; [apply within_budget_log|]. intros _.
  apply within_budget_bind; [|intros _; apply within_budget_log].
  intros w e w'. unfold write_text.
  repeat (case_match || case_bool_decide); intros; simplify_eq; done.
Qed.

Lemma within_budget_undo folder : within_budget (undo folder).
Proof.
  unfold undo. apply within_budget_bind; [done|]. intros e.
  destruct (negb e); [done|].
  apply within_budget_bind; [done|]. intros _.
  apply within_budget_bind.
  { intros w e' w'. unfold read_text.
    repeat (case_match || case_bool_decide); intros; simplify_eq; done. }
  intros text. apply within_budget_bind.
  { apply within_budget_foreach. intros line count. unfold undo_line.
    destruct (parse_line line); [done| |].
    - intros w e' w'. unfold raise. intros; simplify_eq; done.
    - unfold restore. apply within_budget_bind; [done|]. intros x.
      destruct x; [|done].
      apply within_budget_bind; [apply within_budget_mkdir|]. intros _.
      apply within_budget_bind; [apply within_budget_shutil_move|]. intros _.
      apply within_budget_bind; [done|]. intros _. apply within_budget_ret. }
  intros count. apply within_budget_bind.
  { apply within_budget_foreach. intros cat u. unfold remove_if_empty.
    apply within_budget_bind; [done|]. intros x. destruct x; [|done].
    apply within_budget_bind.
    { intros w e' w'. unfold any_iterdir.
      repeat case_match; intros; simplify_eq; done. }
    intros a. destruct (negb a); [|done].
    intros w e' w'. unfold rmdir.
    repeat (case_match || case_bool_decide); intros; simplify_eq; done. }
  intros _. apply within_budget_bind; [|done].
  intros w e' w'. unfold unlink.
  repeat (case_match || case_bool_decide); intros; simplify_eq; done.
Qed.

Lemma within_budget_write_text p text : within_budget (write_text p text).
Proof.
  intros w e w'. unfold write_text.
  repeat (case_match || case_bool_decide); intros; simplify_eq; done.
Qed.

Local Open Scope sh_scope.

Lemma lasts_bind {A B} (c : Sh A) (f : A -> Sh B) n m s :
  lasts n (c s) ->
  (forall a s1, length (stdin s1) <= n -> lasts m (f a s1)) ->
  lasts m (sbind c f s).
Proof.
  intros Hc Hf. unfold sbind. destruct (c s) as [a s1|e s1]; [|done].
  by apply Hf.
Qed.

Lemma lasts_mono {A} n m (r : reply A) : n <= m -> lasts n r -> lasts m r.
Proof. intros Hnm. destruct r as [a s|e s]; cbn; [lia | done]. Qed.

Lemma lasts_say x s : lasts (length (stdin s)) (say x s).
Proof. unfold say. cbn. lia. Qed.

Lemma lasts_engine {A} (c : M A) s :
  within_budget c -> lasts (length (stdin s)) (engine c s).
Proof.
  intros Hc. unfold engine. destruct (c (files s)) as [a w|e w] eqn:E; cbn.
  - lia.
  - intros [= ->]. by eapply Hc.
Qed.

Lemma lasts_input q s : lasts (pred (length (stdin s))) (input q s).
Proof. unfold input. destruct (stdin s); cbn; [done | lia]. Qed.

Lemma lasts_sret {A} (a : A) n s : length (stdin s) <= n -> lasts n (sret a s).
Proof. done. Qed.

Lemma lasts_ask_folder b : forall s,
  length (stdin s) < b -> lasts (pred (length (stdin s))) (ask_folder b s).
Proof.
  induction b as [|b IH]; intros s Hb; [lia|]. cbn [ask_folder].
  eapply lasts_bind; [apply lasts_say|]. intros _ s0 H0.
  unfold sbind at 1. unfold input at 1.
  destruct (stdin s0) as [|line rest] eqn:Hin; [done|].
  cbn [length] in H0.
  assert (Hrec : forall s2, length (stdin s2) <= length rest ->
                   lasts (pred (length (stdin s))) (ask_folder b s2)).
  { intros s2 H2. eapply lasts_mono; [|apply IH; lia]. lia. }
  assert (Hsay : forall x s2, length (stdin s2) <= length rest ->
                   lasts (pred (length (stdin s)))
                         ((say x;; ask_folder b) s2)).
  { intros x s2 H2. eapply lasts_bind; [apply lasts_say|].
    intros _ s3 H3. apply Hrec. lia. }
  case_bool_decide; [by apply Hsay|].
  eapply lasts_bind; [by apply lasts_engine|]. intros e s2 H2.
  cbn [stdin] in H2.
  destruct (negb e); [apply Hsay; lia|].
  eapply lasts_bind; [by apply lasts_engine|]. intros d s3 H3.
  destruct (negb d); [apply Hsay; lia|].
  eapply lasts_bind; [apply lasts_engine, within_budget_write_text|].
  intros _ s4 H4.
  eapply lasts_bind; [apply lasts_say|]. intros _ s5 H5.
  apply lasts_sret. lia.
Qed.

Lemma lasts_set_new_directory s :
  lasts (pred (length (stdin s))) (set_new_directory s).
Proof. unfold set_new_directory. apply lasts_ask_folder. lia. Qed.

Lemma lasts_load_folder_from_config s :
  lasts (length (stdin s)) (load_folder_from_config s).
Proof.
  unfold load_folder_from_config.
  assert (Hset : forall s1, length (stdin s1) <= length (stdin s) ->
                   lasts (length (stdin s)) (set_new_directory s1)).
  { intros s1 H1. eapply lasts_mono; [|apply lasts_set_new_directory]. lia. }
  eapply lasts_bind; [by apply lasts_engine|]. intros e s1 H1.
  destruct e; [|by apply Hset].
  eapply lasts_bind.
  { apply lasts_engine. intros w e w'. unfold read_text.
    repeat (case_match || case_bool_decide); intros; simplify_eq; done. }
  intros text s2 H2.
  eapply lasts_bind; [by apply lasts_engine|]. intros e s3 H3.
  eapply lasts_bind; [by apply lasts_engine|]. intros d s4 H4.
  destruct (e && d); [apply lasts_sret; lia|].
  eapply lasts_bind; [apply lasts_say|]. intros _ s5 H5.
  eapply lasts_bind; [apply lasts_say|]. intros _ s6 H6.
  apply Hset. lia.
Qed.

Section ProgramProps.
Variable all_categories : list pystr.
Variable listdir : World -> list pystr.

Lemma lasts_show_menu folder s :
  lasts (length (stdin s)) (show_menu folder s).
Proof. unfold show_menu, sbind, say. cbn. lia. Qed.

Lemma lasts_menu_loop b : forall folder s,
  length (stdin s) < b ->
  lasts (length (stdin s)) (menu_loop all_categories listdir b folder s).
Proof.
  induction b as [|b IH]; intros folder s Hb; [lia|]. cbn [menu_loop].
  eapply lasts_bind; [apply lasts_show_menu|]. intros _ s0 H0.
  unfold sbind at 1. unfold input at 1.
  destruct (stdin s0) as [|line rest] eqn:Hin; [done|].
  cbn [length] in H0.
  assert (Hrec : forall folder' s2, length (stdin s2) <= length rest ->
                   lasts (length (stdin s))
                         (menu_loop all_categories listdir b folder' s2)).
  { intros folder' s2 H2. eapply lasts_mono; [|apply IH; lia]. lia. }
  assert (Henter : forall folder' s2, length (stdin s2) <= length rest ->
                     lasts (length (stdin s))
                       ((input PressEnter;;
                         menu_loop all_categories listdir b folder') s2)).
  { intros folder' s2 H2. eapply lasts_bind; [apply lasts_input|].
    intros _ s3 H3. apply Hrec. lia. }
  repeat case_bool_decide.
  - eapply lasts_bind; [apply lasts_say|]. intros _ s1 Hs1.
    cbn [stdin] in Hs1. eapply lasts_bind.
    { apply lasts_engine. intros w e w'. apply within_budget_organize. }
    intros _ s2 Hs2. apply Henter. lia.
  - eapply lasts_bind; [apply lasts_say|]. intros _ s1 Hs1.
    cbn [stdin] in Hs1.
    eapply lasts_bind; [apply lasts_engine, within_budget_undo|].
    intros _ s2 Hs2. apply Henter. lia.
  - eapply lasts_bind; [apply lasts_set_new_directory|].
    intros folder' s1 Hs1. cbn [stdin] in Hs1. apply Henter. lia.
  - eapply lasts_mono; [|apply lasts_say]. cbn [stdin]. lia.
  - eapply lasts_bind; [apply lasts_say|]. intros _ s1 Hs1.
    cbn [stdin] in Hs1. apply Hrec. lia.
Qed.

(** X19: the program never runs out of the budget of its loops: a
    round of the menu, like a round of the folder prompt, reads a line,
    so on every input the program ends, by a choice that leaves the
    menu, by an exception of the engine or of a file operation, or by
    [EOFError] at the end of the input. *)
Theorem X19_main_never_spins argv s s' :
  main all_categories listdir argv s <> Crash (Raised LoopBudget) s'.
Proof.
  assert (H : lasts (length (stdin s)) (main all_categories listdir argv s)).
  { unfold main.
    eapply lasts_bind; [apply lasts_load_folder_from_config|].
    intros folder s1 H1.
    assert (Hmenu : lasts (length (stdin s))
                      (menu all_categories listdir folder s1)).
    { unfold menu. eapply lasts_mono; [|apply lasts_menu_loop; lia]. done. }
    destruct argv as [|prog [|a more]]; try done.
    case_bool_decide; [|done].
    eapply lasts_mono; [|apply lasts_engine, within_budget_undo]. done. }
  intros E. rewrite E in H. by apply H.
Qed.

Lemma menu_loop_invalid b line rest folder w t :
  invalid_choice line ->
  menu_loop all_categories listdir (S b) folder (mkSession w (line :: rest) t)
  = menu_loop all_categories listdir b folder
      (mkSession w rest
         (t ++ menu_screen folder ++ [Asked Choose; InvalidChoice])).
Proof.
  intros Hbad. cbn [menu_loop].
  unfold show_menu. unfold sbind, say, input. cbn [files stdin terminal].
  unfold invalid_choice in Hbad. cbn [map] in Hbad.
  rewrite not_elem_of_app, !not_elem_of_cons in Hbad.
  destruct Hbad as [(H1 & H2 & H3 & _) Hexit].
  rewrite !bool_decide_eq_false_2 by done.
  unfold menu_screen. cbn [files stdin terminal]. by rewrite <- !app_assoc.
Qed.

Lemma menu_loop_exit b word rest folder w t :
  strip word ∈ exit_words ->
  menu_loop all_categories listdir (S b) folder (mkSession w (word :: rest) t)
  = Fine tt (mkSession w rest
               (t ++ menu_screen folder ++ [Asked Choose; Bye])).
Proof.
  intros Hexit. cbn [menu_loop].
  unfold show_menu. unfold sbind, say, input. cbn [files stdin terminal].
  assert (Hne : strip word <> lit "1" /\ strip word <> lit "2" /\
                strip word <> lit "3").
  { unfold exit_words in Hexit. cbn [map] in Hexit.
    repeat (apply elem_of_cons in Hexit as [->|Hexit]; [by repeat split|]).
    by apply elem_of_nil in Hexit. }
  destruct Hne as (H1 & H2 & H3).
  rewrite !bool_decide_eq_false_2 by done.
  rewrite bool_decide_eq_true_2 by done.
  unfold menu_screen. cbn [files stdin terminal]. by rewrite <- !app_assoc.
Qed.

(** X20: lines that are no choice of the menu change nothing: each is
    answered by the menu, the prompt and the line on the invalid
    choice, and the first of the words [4], [q], [exit], [quit],
    blanks around it ignored, ends the loop; the world is as it was
    and the later lines are left unread. *)
Theorem X20_menu_ignores_invalid_choices junk word rest folder w t :
  Forall invalid_choice junk ->
  strip word ∈ exit_words ->
  menu all_categories listdir folder (mkSession w (junk ++ word :: rest) t)
  = Fine tt
      (mkSession w rest
         (t ++ concat (map (fun _ => menu_screen folder
                                       ++ [Asked Choose; InvalidChoice]) junk)
            ++ menu_screen folder ++ [Asked Choose; Bye])).
Proof.
  intros Hjunk Hexit. unfold menu. cbn [stdin].
  rewrite length_app. cbn [length].
  replace (S (length junk + S (length rest)))
    with (length junk + S (S (length rest))) by lia.
  generalize (S (length rest)) as b. intros b. revert t.
  induction Hjunk as [|line junk Hline Hjunk IH]; intros t.
  - cbn [length plus app map concat]. by rewrite menu_loop_exit.
  - cbn [length plus app]. rewrite menu_loop_invalid by done.
    rewrite IH. cbn [map concat]. by rewrite <- !app_assoc.
Qed.

(** X21: started with [--undo] as its first argument, and a
    configuration file that names a folder of the tree, the program
    runs [undo] on that folder and stops: no menu is shown and no line
    is read. *)
Theorem X21_main_with_undo_flag prog more s text :
  settled s ->
  fs (files s) !! CONFIG_FILE = Some (File text) ->
  CONFIG_FILE ∉ locked (files s) ->
  let folder := Path_of_str (strip (universal_newlines text)) in
  fs (files s) !! folder = Some Dir ->
  main all_categories listdir (prog :: lit "--undo" :: more) s
  = engine (undo folder) s /\
  stdin (session_of (main all_categories listdir
                       (prog :: lit "--undo" :: more) s)) = stdin s.
Proof.
  intros Hs Hconf Hlock folder Hdir.
  assert (E : main all_categories listdir (prog :: lit "--undo" :: more) s
              = engine (undo folder) s).
  { unfold main.
    rewrite (sbind_Fine _ _ _ _ _
               (load_folder_from_config_saved s text Hs Hconf Hlock Hdir)).
    by rewrite bool_decide_eq_true_2. }
  split; [done|]. rewrite E. unfold engine.
  by destruct (undo folder (files s)).
Qed.

End ProgramProps.

Local Close Scope sh_scope.

(** ** The further properties on examples *)

Lemma X1_organize_sorts_listed_files_witness :
  match organize Downloads category_folders
          [lit "photo.png"; lit "movie.mp4"] five_files with
  | Ok _ w' =>
      exists x moves,
        renamed (lit "photo.png") x /\
        let dest :=
          child (child Downloads (get_category (suffix_of (lit "photo.png"))))
                x in
        fs five_files !! dest = None /\
        fs w' !! dest = Some (File (lit "P")) /\
        (fs w' !! child Downloads (lit "photo.png") = None \/
         (lit "photo.png" ∈ category_folders /\
          fs w' !! child Downloads (lit "photo.png") = Some Dir)) /\
        fs w' !! UNDO_FILE Downloads = Some (File (ledger_text moves)) /\
        (dest, child Downloads (lit "photo.png")) ∈ moves
  | Raise _ _ => True
  end.
Proof.
  apply (X1_organize_sorts_listed_files Downloads category_folders
           [lit "photo.png"; lit "movie.mp4"] five_files
           (lit "photo.png") (lit "P")).
  - apply (bool_decide_unpack _). vm_compute. exact I.
  - vm_compute. discriminate.
  - vm_compute. reflexivity.
Defined.

Lemma X3_organize_frame_witness :
  fs (world_of (organize Downloads category_folders [lit "photo.png"]
                  five_files)) !! root
  = fs five_files !! root.
Proof.
  apply (X3_organize_frame Downloads category_folders [lit "photo.png"]
           five_files root).
  - intros n E. vm_compute in E. discriminate E.
  - intros cat x _ E. vm_compute in E. discriminate E.
  - intros x E. vm_compute in E. discriminate E.
Defined.

Lemma five_files_listed n c :
  fs five_files !! child Downloads n = Some (File c) ->
  n ∈ [lit "photo.png"; lit "movie.mp4"; lit "notes.txt"; lit "app.exe";
       lit "unknownfile.xyz"].
Proof.
  intros H.
  assert (Hall : map_Forall
            (fun p nd => nd <> Dir -> parent p = Downloads ->
               name p ∈ [lit "photo.png"; lit "movie.mp4"; lit "notes.txt";
                         lit "app.exe"; lit "unknownfile.xyz"])
            (fs five_files)).
  { apply (bool_decide_unpack _). vm_compute. exact I. }
  specialize (Hall _ _ H). cbn beta in Hall.
  rewrite parent_child, name_child in Hall. by apply Hall.
Qed.

Lemma X4_organize_twice_empties_ledger_witness :
  match organize Downloads category_folders
          [lit "photo.png"; lit "movie.mp4"; lit "notes.txt"; lit "app.exe";
           lit "unknownfile.xyz"] five_files with
  | Ok _ w1 =>
      match organize Downloads category_folders [lit "Images"] w1 with
      | Ok _ w2 =>
          fs w2 !! UNDO_FILE Downloads = Some (File []) /\
          forall p, (forall x, p <> child (LOG_FOLDER Downloads) x) ->
                    fs w2 !! p = fs w1 !! p
      | Raise _ _ => True
      end
  | Raise _ _ => True
  end.
Proof.
  apply (X4_organize_twice_empties_ledger Downloads category_folders
           [lit "photo.png"; lit "movie.mp4"; lit "notes.txt"; lit "app.exe";
            lit "unknownfile.xyz"] [lit "Images"] five_files).
  exact five_files_listed.
Defined.

Lemma X5_organize_item_free_name_witness :
  let item := child Downloads (lit "photo.png") in
  let category := get_category (suffix item) in
  let dest_folder := child Downloads category in
  let dest_path := child dest_folder (name item) in
  organize_item Downloads item ([], []) one_picture
    = Ok ([] ++ [(dest_path, item)], incr category [])
         (mkWorld (<[dest_path := File (lit "P")]>
                     (delete item (<[dest_folder := Dir]> (fs one_picture))))
                  (locked one_picture)
                  (console one_picture ++ [Moved (name item) category])
                  (session_log one_picture ++ [Moved (name item) category])).
Proof.
  apply (X5_organize_item_free_name Downloads
           (child Downloads (lit "photo.png")) ([], []) one_picture (lit "P")).
  - vm_compute. reflexivity.
  - vm_compute. discriminate.
  - apply (bool_decide_unpack _). vm_compute. exact I.
  - vm_compute. reflexivity.
  - apply (bool_decide_unpack _). vm_compute. exact I.
  - vm_compute. reflexivity.
  - vm_compute. reflexivity.
Defined.

Lemma X10_undo_malformed_line_witness :
  undo Downloads broken_ledger
    = Raise ValueError
        (mkWorld (fs broken_ledger) (locked broken_ledger)
                 (console broken_ledger ++ [Undoing])
                 (session_log broken_ledger)).
Proof.
  apply (X10_undo_malformed_line Downloads broken_ledger
           (lit "moved by hand" ++ ["010"%char]) []
           (lit "moved by hand") [[]]).
  - vm_compute. reflexivity.
  - apply (bool_decide_unpack _). vm_compute. exact I.
  - vm_compute. reflexivity.
  - constructor.
  - vm_compute. discriminate.
  - apply (bool_decide_unpack _). vm_compute. exact I.
Defined.

Lemma X11_undo_line_into_folder_witness :
  let line := lit "/Downloads/Documents/a.txt|/Downloads/a.txt" in
  let new_path := child (child Downloads (lit "Documents")) (lit "a.txt") in
  let old_path := child Downloads (lit "a.txt") in
  match fs name_taken_by_folder !! child old_path (name new_path) with
  | None =>
      undo_line line 0 name_taken_by_folder
        = Ok (0 + 1)
             (mkWorld (<[child old_path (name new_path) := File (lit "A")]>
                         (delete new_path (fs name_taken_by_folder)))
                      (locked name_taken_by_folder)
                      (console name_taken_by_folder
                         ++ [Restored (name old_path)])
                      (session_log name_taken_by_folder))
  | Some _ =>
      undo_line line 0 name_taken_by_folder
        = Raise ShutilError name_taken_by_folder
  end.
Proof.
  apply (X11_undo_line_into_folder
           (lit "/Downloads/Documents/a.txt|/Downloads/a.txt")
           (lit "/Downloads/Documents/a.txt") (lit "/Downloads/a.txt")
           0 name_taken_by_folder (lit "A")).
  - vm_compute. reflexivity.
  - vm_compute. reflexivity.
  - apply (bool_decide_unpack _). vm_compute. exact I.
  - vm_compute. reflexivity.
  - vm_compute. reflexivity.
Defined.

Lemma X14_ledger_round_trip_witness :
  let moves :=
    [ (child (child Downloads (lit "Documents")) (lit "a.txt"),
       child Downloads (lit "a.txt"));
      (child (child Downloads (lit "Images")) (lit "p_1.png"),
       child Downloads (lit "p.png")) ] in
  map parse_line (file_lines (ledger_text moves))
  = map (fun mv => Record (str_path mv.1) (str_path mv.2)) moves ++ [Blank].
Proof.
  apply (X14_ledger_round_trip
           [ (child (child Downloads (lit "Documents")) (lit "a.txt"),
              child Downloads (lit "a.txt"));
             (child (child Downloads (lit "Images")) (lit "p_1.png"),
              child Downloads (lit "p.png")) ]).
  repeat constructor;
    try (apply (bool_decide_unpack _); vm_compute; exact I);
    vm_compute; reflexivity.
Defined.

Lemma X15_set_new_directory_outcome_witness :
  match set_new_directory first_start with
  | Fine p s' =>
      exists skipped line rest,
        stdin first_start = skipped ++ line :: rest /\
        Forall (fun l => ~ accepted (fs (files first_start)) l) skipped /\
        accepted (fs (files first_start)) line /\
        p = chosen line /\
        stdin s' = rest /\
        fs (files s') !! p = Some Dir /\
        fs (files s')
          = <[CONFIG_FILE := File (str_path p)]> (fs (files first_start)) /\
        terminal s'
          = terminal first_start
            ++ concat (map (refused_round (fs (files first_start))) skipped)
            ++ [EnterFullPath; Asked FolderPath; FolderSet p]
  | Crash EOFError s' =>
      Forall (fun l => ~ accepted (fs (files first_start)) l)
             (stdin first_start) /\
      stdin s' = [] /\ files s' = files first_start
  | Crash (Raised e) s' =>
      e <> LoopBudget /\ fs (files s') = fs (files first_start) /\
      exists skipped line rest,
        stdin first_start = skipped ++ line :: rest /\
        Forall (fun l => ~ accepted (fs (files first_start)) l) skipped /\
        accepted (fs (files first_start)) line /\
        stdin s' = rest
  end.
Proof.
  apply (X15_set_new_directory_outcome first_start); [reflexivity|].
  apply (bool_decide_unpack _). vm_compute. exact I.
Defined.

Lemma X16_saved_folder_is_loaded_witness :
  match set_new_directory first_start with
  | Fine p s' =>
      "013"%char ∉ str_path p ->
      strip (str_path p) = str_path p ->
      load_folder_from_config s' = Fine p s'
  | Crash _ _ => True
  end.
Proof.
  apply (X16_saved_folder_is_loaded first_start).
  - reflexivity.
  - apply (bool_decide_unpack _). vm_compute. exact I.
Defined.

Lemma X17_blank_config_selects_working_directory_witness :
  load_folder_from_config blank_start
  = Fine (Path_of_str (lit ".")) blank_start.
Proof.
  apply (X17_blank_config_selects_working_directory blank_start (lit "  ")).
  - reflexivity.
  - vm_compute. reflexivity.
  - apply (bool_decide_unpack _). vm_compute. exact I.
  - vm_compute. reflexivity.
  - vm_compute. reflexivity.
Defined.

Lemma X18_organize_moves_the_config_file_witness :
  match organize (Path_of_str (lit ".")) category_folders
          [lit "organizer_config.txt"] home_folder with
  | Ok _ w' =>
      fs w' !! CONFIG_FILE = None /\
      (exists x,
         renamed (lit "organizer_config.txt") x /\
         fs w' !! child (child (Path_of_str (lit ".")) (lit "Documents")) x
           = Some (File (lit "/Downloads"))) /\
      forall s, settled s -> fs (files s) = fs w' ->
                load_folder_from_config s = set_new_directory s
  | Raise _ _ => True
  end.
Proof.
  apply (X18_organize_moves_the_config_file category_folders
           [lit "organizer_config.txt"] home_folder (lit "/Downloads")).
  - apply (bool_decide_unpack _). vm_compute. exact I.
  - vm_compute. reflexivity.
Defined.

Lemma X20_menu_ignores_invalid_choices_witness :
  let junk := [lit "5"; lit "sort"] in
  menu category_folders (fun _ => []) Downloads
    (mkSession five_files (junk ++ lit " q " :: [lit "1"]) [])
  = Fine tt
      (mkSession five_files [lit "1"]
         ([] ++ concat (map (fun _ => menu_screen Downloads
                                        ++ [Asked Choose; InvalidChoice])
                           junk)
             ++ menu_screen Downloads ++ [Asked Choose; Bye])).
Proof.
  apply (X20_menu_ignores_invalid_choices category_folders (fun _ => [])
           [lit "5"; lit "sort"] (lit " q ") [lit "1"] Downloads
           five_files []).
  - repeat constructor; unfold invalid_choice;
      apply (bool_decide_unpack _); vm_compute; exact I.
  - apply (bool_decide_unpack _). vm_compute. exact I.
Defined.

Lemma X21_main_with_undo_flag_witness :
  let argv := lit "organizer.py" :: lit "--undo" :: [] in
  let folder :=
    Path_of_str (strip (universal_newlines
                          (lit "/Downloads" ++ ["010"%char]))) in
  main category_folders (fun _ => []) argv saved_start
  = engine (undo folder) saved_start /\
  stdin (session_of (main category_folders (fun _ => []) argv saved_start))
  = stdin saved_start.
Proof.
  apply (X21_main_with_undo_flag category_folders (fun _ => [])
           (lit "organizer.py") [] saved_start
           (lit "/Downloads" ++ ["010"%char])).
  - reflexivity.
  - vm_compute. reflexivity.
  - apply (bool_decide_unpack _). vm_compute. exact I.
  - vm_compute. reflexivity.
Defined.
